(** * git-pr-watcher: rule evaluation, batch pipeline and email notifier

    A shallow embedding of the Go packages [config], [github], [notifier]
    and [watcher], followed by the properties proved about them.

    Conventions.
    - Go [int], [int64] and [time.Duration] are 64-bit signed integers:
      values are in [Z] and every increment or addition of the source is
      wrapped with [GoInt.wrap].
    - [time.Time] is an instant in nanoseconds; the wall clock is a field
      of the world the notifier runs in.
    - A [[]string] is a slice header over a backing array kept in a heap,
      so that [append] shares or reallocates as Go does.
    - Logging ([logger.*], [fmt.Printf] of debug lines) is left out. *)

From Stdlib Require Import ZArith Lia Bool List DecimalString.
From stdpp Require Import base list strings.
Import ListNotations.

Local Open Scope Z_scope.

(** ** Go integers *)

Module GoInt.

Definition minInt : Z := - 2 ^ 63.
Definition maxInt : Z := 2 ^ 63 - 1.

(** Two's complement wrap-around of a 64-bit signed integer. *)
Definition wrap (z : Z) : Z := (z + 2 ^ 63) mod 2 ^ 64 - 2 ^ 63.

Definition inRange (z : Z) : Prop := minInt <= z <= maxInt.

(** [strconv]-style decimal rendering, as [%d] prints an int. *)
Definition itoa (z : Z) : string := NilZero.string_of_int (Z.to_int z).

End GoInt.

(** ** Package time *)

Module Time.

Definition Duration := Z.
Definition Time := Z.

Definition Nanosecond : Duration := 1.
Definition Millisecond : Duration := 1000000 * Nanosecond.
Definition Second : Duration := 1000 * Millisecond.
Definition Minute : Duration := 60 * Second.
Definition Hour : Duration := 60 * Minute.

(** [t.Sub(u)]: the difference, saturated to the Duration range. *)
Definition Sub (t u : Time) : Duration :=
  let d := t - u in
  if d <? GoInt.minInt then GoInt.minInt
  else if GoInt.maxInt <? d then GoInt.maxInt
  else d.

Definition Add (t : Time) (d : Duration) : Time := t + d.

End Time.

(** ** Errors *)

Module Errors.

(** An error value: a plain message ([errors.errorString]) or a message
    around the error it wraps ([fmt.wrapError], made by the [%w] verb). *)
Inductive error : Type :=
| errorString (msg : string)
| wrapError (msg : string) (err : error).

Definition Error (e : error) : string :=
  match e with errorString m => m | wrapError m _ => m end.

Definition Unwrap (e : error) : option error :=
  match e with errorString _ => None | wrapError _ w => Some w end.

(** [fmt.Errorf(msg)] without verbs. *)
Definition Errorf (msg : string) : error := errorString msg.

(** [fmt.Errorf(prefix + ": %w", err)]. *)
Definition Errorf_w (prefix : string) (err : error) : error :=
  wrapError (prefix +:+ ": " +:+ Error err) err.

(** [fmt.Errorf(what + " for PR #%d: %w", number, err)]. *)
Definition Errorf_pr (what : string) (number : Z) (err : error) : error :=
  wrapError (what +:+ " for PR #" +:+ GoInt.itoa number +:+ ": " +:+ Error err)
            err.

End Errors.

(** ** Slices of strings *)

Module GoSlice.

(** The heap of backing arrays, addressed by position. *)
Abbreviation heap := (list (list string)).

Record slice : Type := mkSlice { ptr : nat; len : nat; cap : nat }.

Definition array (h : heap) (s : slice) : list string :=
  default [] (h !! ptr s).

(** The elements a slice shows. *)
Definition view (h : heap) (s : slice) : list string :=
  take (len s) (array h s).

(** A slice is well formed when its array holds [cap] cells. *)
Definition wf (h : heap) (s : slice) : Prop :=
  (len s <= cap s)%nat /\ (cap s <= length (array h s))%nat.

(** [append(s, x)]: written in place when capacity is left, otherwise
    copied to a fresh array whose capacity [grow] chooses. *)
Definition append (grow : nat -> nat) (h : heap) (s : slice) (x : string)
  : heap * slice :=
  if (len s <? cap s)%nat then
    (<[ptr s := <[len s := x]> (array h s)]> h,
     mkSlice (ptr s) (S (len s)) (cap s))
  else
    let c := Nat.max (grow (cap s)) (S (len s)) in
    (h ++ [view h s ++ x :: replicate (c - S (len s)) ""%string],
     mkSlice (length h) (S (len s)) c).

(** The nil slice. *)
Definition nilSlice : slice := mkSlice 0 0 0.

(** A slice literal: a fresh array holding the given elements. *)
Definition alloc (h : heap) (xs : list string) : heap * slice :=
  (h ++ [xs], mkSlice (length h) (length xs) (length xs)).

End GoSlice.

(** ** Package config *)

Module Config.

Import Time.

Record GitHubConfig : Type := mkGitHubConfig {
  Token : string;
  Owner : string;
  Repos : list string;
  BaseURL : string;
  UploadURL : string
}.

Record EmailConfig : Type := mkEmailConfig {
  SMTPHost : string;
  SMTPPort : Z;
  SMTPUsername : string;
  SMTPPassword : string;
  From : string;
  To : GoSlice.slice;
  Subject : string;
  RateLimit : Duration;
  RateTimeout : Duration
}.

Record RulesConfig : Type := mkRulesConfig {
  ApprovalTime : Duration;
  MergeReminderTime : Duration;
  MergeTime : Duration;
  DraftTime : Duration;
  CheckInterval : Duration;
  EscalationEmail : string
}.

Record DebugConfig : Type := mkDebugConfig {
  Enabled : bool;
  Verbose : bool;
  SkipEmails : bool;
  Concurrency : Z
}.

Record Config : Type := mkConfig {
  GitHub : GitHubConfig;
  Email : EmailConfig;
  Rules : RulesConfig;
  Debug : DebugConfig
}.

Definition orDefault (d : Z) (dflt : Z) : Z := if d =? 0 then dflt else d.

(** [setDefaults]: every zero-valued setting gets its default. *)
Definition setDefaults (config : Config) : Config :=
  let r := Rules config in
  let e := Email config in
  let d := Debug config in
  {| GitHub := GitHub config;
     Email :=
       {| SMTPHost := SMTPHost e;
          SMTPPort := SMTPPort e;
          SMTPUsername := SMTPUsername e;
          SMTPPassword := SMTPPassword e;
          From := From e;
          To := To e;
          Subject := if String.eqb (Subject e) "" then "PR Age Alert"%string
                     else Subject e;
          RateLimit := orDefault (RateLimit e) (500 * Millisecond);
          RateTimeout := orDefault (RateTimeout e) (30 * Second) |};
     Rules :=
       {| ApprovalTime := orDefault (ApprovalTime r) (2 * Hour);
          MergeReminderTime := orDefault (MergeReminderTime r) (4 * Hour);
          MergeTime := orDefault (MergeTime r) (6 * Hour);
          DraftTime := orDefault (DraftTime r) (96 * Hour);
          CheckInterval := orDefault (CheckInterval r) (1 * Hour);
          EscalationEmail := EscalationEmail r |};
     Debug :=
       {| Enabled := Enabled d;
          Verbose := Verbose d;
          SkipEmails := SkipEmails d;
          Concurrency := orDefault (Concurrency d) 5 |} |}.

(** [parseDuration]: [parse] stands for [time.ParseDuration]. *)
Definition parseDuration (parse : string -> option Duration) (s : string)
           (fallback : Duration) : Duration :=
  if String.eqb s "" then fallback
  else match parse s with
       | Some d => d
       | None => fallback
       end.

(** What [Load] finds under the file name: nothing, a file that cannot be
    read, or a file with what [yaml.Unmarshal] makes of it. *)
Inductive File : Type :=
| NoFile
| Unreadable (err : Errors.error)
| Contents (parsed : Config + Errors.error).

(** [Load], given the file, the environment ([os.Getenv]) and the parser
    of durations; the slice literals of the environment branch are
    allocated in the heap. *)
Definition Load (file : File) (getenv : string -> string)
           (parse : string -> option Duration) (h : GoSlice.heap)
  : (Config + Errors.error) * GoSlice.heap :=
  match file with
  | Unreadable err => (inr (Errors.Errorf_w "failed to read config file" err), h)
  | Contents (inr err) => (inr (Errors.Errorf_w "failed to parse config file" err), h)
  | Contents (inl config) => (inl (setDefaults config), h)
  | NoFile =>
      let repos := getenv "GITHUB_REPOS" in
      let to := getenv "EMAIL_TO" in
      let '(h, toSlice) :=
        if String.eqb to "" then (h, GoSlice.nilSlice) else GoSlice.alloc h [to] in
      let config :=
        {| GitHub :=
             {| Token := getenv "GITHUB_TOKEN";
                Owner := getenv "GITHUB_OWNER";
                Repos := if String.eqb repos "" then [] else [repos];
                BaseURL := "";
                UploadURL := "" |};
           Email :=
             {| SMTPHost := getenv "SMTP_HOST";
                SMTPPort := 0;
                SMTPUsername := getenv "SMTP_USERNAME";
                SMTPPassword := getenv "SMTP_PASSWORD";
                From := getenv "EMAIL_FROM";
                To := toSlice;
                Subject := "";
                RateLimit := 0;
                RateTimeout := 0 |};
           Rules :=
             {| ApprovalTime := parseDuration parse (getenv "APPROVAL_TIME") (2 * Hour);
                MergeReminderTime := 0;
                MergeTime := parseDuration parse (getenv "MERGE_TIME") (4 * Hour);
                DraftTime := 0;
                CheckInterval :=
                  parseDuration parse (getenv "CHECK_INTERVAL") (30 * Minute);
                EscalationEmail := "" |};
           Debug :=
             {| Enabled := String.eqb (getenv "DEBUG") "true";
                Verbose := String.eqb (getenv "VERBOSE") "true";
                SkipEmails := String.eqb (getenv "SKIP_EMAILS") "true";
                Concurrency := 5 |} |} in
      (inl (setDefaults config), h)
  end.

End Config.

(** ** Package github *)

Module Github.

Import Time.

Record User : Type := mkUser {
  Login : string;
  Email : string;
  Name : string
}.

Record Branch : Type := mkBranch {
  Ref : string;
  SHA : string
}.

Record PullRequest : Type := mkPullRequest {
  Number : Z;
  Title : string;
  State : string;
  Draft : bool;
  CreatedAt : Time;
  UpdatedAt : Time;
  PRUser : option User;
  Head : option Branch;
  Base : option Branch;
  URL : string;
  Approved : bool;
  ReviewCount : Z;
  Repo : string;
  Additions : Z;
  Deletions : Z;
  TotalChanges : Z;
  ChangedFiles : Z;
  SizeCategory : string
}.

(** A review as the API client returns it; the state may be absent. *)
Record Review : Type := mkReview { ReviewState : option string }.

(** [review.GetState()]: the empty string when the field is nil. *)
Definition GetState (r : Review) : string :=
  default ""%string (ReviewState r).

(** One turn of the loop of [checkPRApprovals]. *)
Definition reviewStep (acc : bool * Z) (review : Review) : bool * Z :=
  let '(approved, reviewCount) := acc in
  let approved :=
    if String.eqb (GetState review) "APPROVED" then true else approved in
  let reviewCount :=
    if negb (String.eqb (GetState review) "COMMENTED")
    then GoInt.wrap (reviewCount + 1) else reviewCount in
  (approved, reviewCount).

(** [checkPRApprovals], given what [ListReviews] answered. *)
Definition checkPRApprovals (listed : list Review + Errors.error)
  : bool * Z * option Errors.error :=
  match listed with
  | inr err => (false, 0, Some err)
  | inl reviews =>
      let '(approved, reviewCount) := fold_left reviewStep reviews (false, 0) in
      (approved, reviewCount, None)
  end.

Definition categorizePRSize (totalChanges : Z) : string :=
  if totalChanges <=? 50 then "XS"
  else if totalChanges <=? 200 then "S"
  else if totalChanges <=? 500 then "M"
  else if totalChanges <=? 1000 then "L"
  else "XL".

(** A pull request as one page of the listing carries it, together with
    what [ListReviews] answers for it. *)
Record Listed : Type := mkListed {
  lNumber : Z;
  lTitle : string;
  lState : string;
  lDraft : bool;
  lCreatedAt : Time;
  lUpdatedAt : Time;
  lUser : User;
  lHead : Branch;
  lBase : Branch;
  lHTMLURL : string;
  lAdditions : Z;
  lDeletions : Z;
  lChangedFiles : Z;
  lReviews : list Review + Errors.error
}.

(** The body of the inner loop of [getPullRequestsForRepo]: a failed
    review check is only warned about and leaves [false] and [0]. *)
Definition prData (repo : string) (pr : Listed) : PullRequest :=
  let '(approved, reviewCount, _) := checkPRApprovals (lReviews pr) in
  let additions := lAdditions pr in
  let deletions := lDeletions pr in
  let totalChanges := GoInt.wrap (additions + deletions) in
  {| Number := lNumber pr;
     Title := lTitle pr;
     State := lState pr;
     Draft := lDraft pr;
     CreatedAt := lCreatedAt pr;
     UpdatedAt := lUpdatedAt pr;
     PRUser := Some (lUser pr);
     Head := Some (lHead pr);
     Base := Some (lBase pr);
     URL := lHTMLURL pr;
     Approved := approved;
     ReviewCount := reviewCount;
     Repo := repo;
     Additions := additions;
     Deletions := deletions;
     TotalChanges := totalChanges;
     ChangedFiles := lChangedFiles pr;
     SizeCategory := categorizePRSize totalChanges |}.

(** The remote API: for an owner and a repository, the pages of open
    pull requests in the order [NextPage] chains them, each a listing or
    the error of that request. *)
Definition API := string -> string -> list (list Listed + Errors.error).

(** The paging loop of [getPullRequestsForRepo]. *)
Fixpoint getPages (repo : string) (pages : list (list Listed + Errors.error))
         (prs : list PullRequest) : list PullRequest + Errors.error :=
  match pages with
  | [] => inl prs
  | inr err :: _ => inr err
  | inl githubPRs :: rest => getPages repo rest (prs ++ map (prData repo) githubPRs)
  end.

Definition getPullRequestsForRepo (api : API) (owner repo : string)
  : list PullRequest + Errors.error :=
  getPages repo (api owner repo) [].

(** [GetPullRequests]: the loop over the repositories, from [allPRs]. *)
Fixpoint GetPullRequestsFrom (api : API) (owner : string) (repos : list string)
         (allPRs : list PullRequest) : list PullRequest + Errors.error :=
  match repos with
  | [] => inl allPRs
  | repo :: rest =>
      match getPullRequestsForRepo api owner repo with
      | inr err =>
          inr (Errors.Errorf_w ("failed to get PRs for repo " +:+ repo) err)
      | inl prs => GetPullRequestsFrom api owner rest (allPRs ++ prs)
      end
  end.

Definition GetPullRequests (api : API) (owner : string) (repos : list string)
  : list PullRequest + Errors.error :=
  GetPullRequestsFrom api owner repos [].

(** [GetPRDetails], given what [PullRequests.Get] answered (with, inside
    it, what [ListReviews] answers for that pull request). *)
Definition GetPRDetails (got : Listed + Errors.error) (repo : string)
  : PullRequest + Errors.error :=
  match got with
  | inr err => inr err
  | inl pr =>
      match checkPRApprovals (lReviews pr) with
      | (_, _, Some err) => inr err
      | (approved, reviewCount, None) =>
          let additions := lAdditions pr in
          let deletions := lDeletions pr in
          let totalChanges := GoInt.wrap (additions + deletions) in
          inl {| Number := lNumber pr;
                 Title := lTitle pr;
                 State := lState pr;
                 Draft := lDraft pr;
                 CreatedAt := lCreatedAt pr;
                 UpdatedAt := lUpdatedAt pr;
                 PRUser := Some (lUser pr);
                 Head := Some (lHead pr);
                 Base := Some (lBase pr);
                 URL := lHTMLURL pr;
                 Approved := approved;
                 ReviewCount := reviewCount;
                 Repo := repo;
                 Additions := additions;
                 Deletions := deletions;
                 TotalChanges := totalChanges;
                 ChangedFiles := lChangedFiles pr;
                 SizeCategory := categorizePRSize totalChanges |}
      end
  end.

End Github.

(** ** Package notifier *)

Module Notifier.

Import Time Errors.

Record EmailNotifier : Type := mkEmailNotifier {
  config : Config.EmailConfig;
  skipEmails : bool;
  rateLimit : Duration;
  closed : bool;
  lastSent : Time
}.

Inductive NotificationType : Type :=
| ApprovalReminder
| MergeReminder
| Escalation
| DraftOverdue.

Record NotificationData : Type := mkNotificationData {
  Type_ : NotificationType;
  PullRequest : Github.PullRequest;
  Age : Duration;
  Threshold : Duration;
  Recipients : GoSlice.slice
}.

(** The message handed to the SMTP dialer. *)
Record Message : Type := mkMessage {
  hFrom : string;
  hTo : list string;
  hSubject : string;
  hBody : string
}.

(** The fields the HTML template is executed on. *)
Record TemplateData : Type := mkTemplateData {
  tTitle : string;
  tHeaderColor : string;
  tAgeColor : string;
  tPullRequest : Github.PullRequest;
  tAgeText : string;
  tThresholdText : string;
  tActionRequired : bool;
  tActionText : string;
  tGeneratedAt : Time
}.

(** What lies outside the package: the SMTP server (the outcome of the
    n-th dial, counted over the process), the template engine, the
    float formatting of durations and the allocator's growth policy. *)
Record Env : Type := mkEnv {
  DialAndSend : nat -> Message -> option error;
  Execute : TemplateData -> string + error;
  formatDuration : Duration -> string;
  grow : nat -> nat
}.

(** The state a send reads and writes: the notifier, the wall clock,
    the heap of recipient arrays, the dials made so far, the messages
    the server accepted and the lines printed in skip mode. *)
Record World : Type := mkWorld {
  notifier : EmailNotifier;
  now : Time;
  heap : GoSlice.heap;
  dials : nat;
  outbox : list Message;
  console : list string
}.

(** State monad over the world. *)
Definition M (A : Type) : Type := World -> A * World.

Definition ret {A} (a : A) : M A := fun w => (a, w).

Definition bind {A B} (m : M A) (k : A -> M B) : M B :=
  fun w => let '(a, w') := m w in k a w'.

Declare Scope notifier_scope.
Delimit Scope notifier_scope with notifier.
Notation "x <- m ;; k" := (bind m (fun x => k))
  (at level 100, m at next level, right associativity) : notifier_scope.
Notation "m ;;; k" := (bind m (fun _ => k))
  (at level 100, k at level 200, right associativity) : notifier_scope.
Local Open Scope notifier_scope.

Definition getNotifier : M EmailNotifier := fun w => (notifier w, w).

Definition setNotifier (e : EmailNotifier) : M unit :=
  fun w => (tt, mkWorld e (now w) (heap w) (dials w) (outbox w) (console w)).

Definition timeNow : M Time := fun w => (now w, w).

Definition timeSince (t : Time) : M Duration := fun w => (Sub (now w) t, w).

(** [time.Sleep(d)]: returns at once when [d <= 0]. *)
Definition sleep (d : Duration) : M unit :=
  fun w => (tt, mkWorld (notifier w) (Add (now w) (Z.max d 0)) (heap w)
                        (dials w) (outbox w) (console w)).

Definition println (line : string) : M unit :=
  fun w => (tt, mkWorld (notifier w) (now w) (heap w) (dials w) (outbox w)
                        (console w ++ [line])).

Definition viewOf (s : GoSlice.slice) : M (list string) :=
  fun w => (GoSlice.view (heap w) s, w).

Definition appendTo (g : nat -> nat) (s : GoSlice.slice) (x : string)
  : M GoSlice.slice :=
  fun w => let '(h, s') := GoSlice.append g (heap w) s x in
           (s', mkWorld (notifier w) (now w) h (dials w) (outbox w) (console w)).

Definition setLastSent (e : EmailNotifier) (t : Time) : EmailNotifier :=
  mkEmailNotifier (config e) (skipEmails e) (rateLimit e) (closed e) t.

Definition setClosed (e : EmailNotifier) : EmailNotifier :=
  mkEmailNotifier (config e) (skipEmails e) (rateLimit e) true (lastSent e).

(** [NewEmailNotifier], at the instant [t] of the call. *)
Definition NewEmailNotifier (cfg : Config.EmailConfig) (skip : bool) (t : Time)
  : EmailNotifier + error :=
  if negb skip && (String.eqb (Config.SMTPHost cfg) "" || (Config.SMTPPort cfg =? 0))
  then inr (Errorf "SMTP configuration is required")
  else inl (mkEmailNotifier cfg skip (Config.RateLimit cfg) false
                            (Add t (GoInt.wrap (- Config.RateLimit cfg)))).

Definition getNotificationTypeName (nt : NotificationType) : string :=
  match nt with
  | ApprovalReminder => "approval reminder"
  | MergeReminder => "merge reminder"
  | Escalation => "escalation"
  | DraftOverdue => "draft overdue"
  end.

Definition getSubject (e : EmailNotifier) (data : NotificationData) : string :=
  let baseSubject :=
    if String.eqb (Config.Subject (config e)) "" then "PR Age Alert"%string
    else Config.Subject (config e) in
  let number := GoInt.itoa (Github.Number (PullRequest data)) in
  let repo := Github.Repo (PullRequest data) in
  match Type_ data with
  | ApprovalReminder =>
      baseSubject +:+ " - PR #" +:+ number +:+ " needs approval (" +:+ repo +:+ ")"
  | MergeReminder =>
      "MERGE REMINDER: " +:+ baseSubject +:+ " - PR #" +:+ number
        +:+ " ready to merge (" +:+ repo +:+ ")"
  | Escalation =>
      "ESCALATION: " +:+ baseSubject +:+ " - PR #" +:+ number
        +:+ " exceeds merge time (" +:+ repo +:+ ")"
  | DraftOverdue =>
      "DRAFT OVERDUE: " +:+ baseSubject +:+ " - Draft PR #" +:+ number
        +:+ " needs attention (" +:+ repo +:+ ")"
  end.

Section WithEnv.

Variable env : Env.

Definition generateEmailBody (data : NotificationData) : M (string + error) :=
  t <- timeNow ;;
  let fd := formatDuration env in
  let base title header agecol text :=
    mkTemplateData title header agecol (PullRequest data) (fd (Age data))
                   (fd (Threshold data)) true text t in
  let templateData :=
    match Type_ data with
    | ApprovalReminder =>
        base "PR Needs Approval" "#ffc107" "#fff3cd"
          ("This pull request has been open for " +:+ fd (Age data)
             +:+ " without approval. Please review and approve if ready.")
    | MergeReminder =>
        base "PR Ready to Merge" "#28a745" "#d4edda"
          ("This pull request has been approved and ready for " +:+ fd (Age data)
             +:+ ". Please merge it to complete the review process.")
    | Escalation =>
        base "PR Escalation Required" "#dc3545" "#f8d7da"
          ("This pull request has exceeded the merge time threshold of "
             +:+ fd (Threshold data)
             +:+ ". Immediate action is required to review and merge or close this PR.")
    | DraftOverdue =>
        base "Draft PR Overdue" "#6c757d" "#e9ecef"
          ("This draft pull request has been open for " +:+ fd (Age data)
             +:+ " and exceeds the draft time threshold of " +:+ fd (Threshold data)
             +:+ ". Please either mark as ready for review or close if no longer needed.")
    end in
  ret (Execute env templateData).

(** One dial: the server's answer to this attempt; an accepted message
    lands in the outbox. *)
Definition dialAndSend (m : Message) : M (option error) :=
  fun w =>
    let r := DialAndSend env (dials w) m in
    (r, mkWorld (notifier w) (now w) (heap w) (S (dials w))
                (match r with Some _ => outbox w | None => outbox w ++ [m] end)
                (console w)).

Definition maxRetries : Z := 3.
Definition baseDelay : Duration := 2 * Second.

(** The retry loop, [left] turns remaining, at index [i]. *)
Fixpoint retryLoop (m : Message) (left : nat) (i : Z) : M (option error) :=
  match left with
  | O => ret None
  | S left' =>
      r <- dialAndSend m ;;
      match r with
      | Some err =>
          if i =? maxRetries - 1 then
            ret (Some (Errorf_w ("failed to send email after "
                                   +:+ GoInt.itoa maxRetries +:+ " retries") err))
          else
            sleep (GoInt.wrap (baseDelay * GoInt.wrap (Z.shiftl 1 i))) ;;;
            retryLoop m left' (i + 1)
      | None => ret None
      end
  end.

Definition sendNotification (data : NotificationData) : M (option error) :=
  e <- getNotifier ;;
  if closed e then ret (Some (Errorf "email notifier is closed"))
  else if skipEmails e then
    rcpts <- viewOf (Recipients data) ;;
    println ("[SKIPPED] Would send " +:+ getNotificationTypeName (Type_ data)
               +:+ " email for PR #"
               +:+ GoInt.itoa (Github.Number (PullRequest data))
               +:+ " to [" +:+ String.concat " " rcpts +:+ "]") ;;;
    ret None
  else
    timeSinceLastSent <- timeSince (lastSent e) ;;
    (if timeSinceLastSent <? rateLimit e
     then sleep (GoInt.wrap (rateLimit e - timeSinceLastSent))
     else ret tt) ;;;
    t <- timeNow ;;
    setNotifier (setLastSent e t) ;;;
    let subject := getSubject e data in
    body <- generateEmailBody data ;;
    match body with
    | inr err => ret (Some (Errorf_w "failed to generate email body" err))
    | inl body =>
        rcpts <- viewOf (Recipients data) ;;
        let m := mkMessage (Config.From (config e)) rcpts subject body in
        retryLoop m (Z.to_nat maxRetries) 0
    end.

Definition SendApprovalReminder (pr : Github.PullRequest)
           (age threshold : Duration) : M (option error) :=
  e <- getNotifier ;;
  sendNotification
    (mkNotificationData ApprovalReminder pr age threshold (Config.To (config e))).

Definition SendMergeReminder (pr : Github.PullRequest)
           (age threshold : Duration) : M (option error) :=
  e <- getNotifier ;;
  sendNotification
    (mkNotificationData MergeReminder pr age threshold (Config.To (config e))).

Definition SendEscalation (pr : Github.PullRequest)
           (age threshold : Duration) (escalationEmail : string)
  : M (option error) :=
  e <- getNotifier ;;
  let recipients := Config.To (config e) in
  recipients <-
    (if negb (String.eqb escalationEmail "")
     then appendTo (grow env) recipients escalationEmail
     else ret recipients) ;;
  sendNotification
    (mkNotificationData Escalation pr age threshold recipients).

Definition SendDraftOverdue (pr : Github.PullRequest)
           (age threshold : Duration) : M (option error) :=
  e <- getNotifier ;;
  sendNotification
    (mkNotificationData DraftOverdue pr age threshold (Config.To (config e))).

(** [Close]: marks the notifier closed; a second call changes nothing. *)
Definition Close : M unit :=
  e <- getNotifier ;;
  if closed e then ret tt
  else setNotifier (setClosed e).

End WithEnv.

End Notifier.

(** ** Package watcher *)

Module Watcher.

Import Time Errors.

Record NotificationResult : Type := mkNotificationResult {
  ApprovalReminders : Z;
  MergeReminders : Z;
  Escalations : Z;
  DraftOverdue : Z;
  Errors : list error
}.

(** [&NotificationResult{}] *)
Definition emptyResult : NotificationResult := mkNotificationResult 0 0 0 0 [].

(** The calls [processPR] makes on the notifier. *)
Inductive Call : Type :=
| SendApprovalReminder (pr : Github.PullRequest) (age threshold : Duration)
| SendMergeReminder (pr : Github.PullRequest) (age threshold : Duration)
| SendEscalation (pr : Github.PullRequest) (age threshold : Duration)
                 (escalationEmail : string)
| SendDraftOverdue (pr : Github.PullRequest) (age threshold : Duration).

Definition kindOf (c : Call) : Notifier.NotificationType :=
  match c with
  | SendApprovalReminder _ _ _ => Notifier.ApprovalReminder
  | SendMergeReminder _ _ _ => Notifier.MergeReminder
  | SendEscalation _ _ _ _ => Notifier.Escalation
  | SendDraftOverdue _ _ _ => Notifier.DraftOverdue
  end.

(** Programs over the two effects of [processPR]: reading the clock and
    calling the notifier. *)
Inductive Prog (R : Type) : Type :=
| Ret (r : R)
| TimeSince (t : Time) (k : Duration -> Prog R)
| Notify (c : Call) (k : option error -> Prog R).

Arguments Ret {R} r.
Arguments TimeSince {R} t k.
Arguments Notify {R} c k.

Declare Scope prog_scope.
Delimit Scope prog_scope with prog.
Notation "'let*' x := 'time.Since' t 'in' k" := (TimeSince t (fun x => k))
  (at level 10, x name, k at level 200) : prog_scope.
Notation "'let*' x := 'notifier' c 'in' k" := (Notify c (fun x => k))
  (at level 10, x name, k at level 200) : prog_scope.
Local Open Scope prog_scope.

Definition addError (result : NotificationResult) (e : error) : NotificationResult :=
  mkNotificationResult (ApprovalReminders result) (MergeReminders result)
    (Escalations result) (DraftOverdue result) (Errors result ++ [e]).

Definition incApprovalReminders (result : NotificationResult) : NotificationResult :=
  mkNotificationResult (GoInt.wrap (ApprovalReminders result + 1))
    (MergeReminders result) (Escalations result) (DraftOverdue result)
    (Errors result).

Definition incMergeReminders (result : NotificationResult) : NotificationResult :=
  mkNotificationResult (ApprovalReminders result)
    (GoInt.wrap (MergeReminders result + 1)) (Escalations result)
    (DraftOverdue result) (Errors result).

Definition incEscalations (result : NotificationResult) : NotificationResult :=
  mkNotificationResult (ApprovalReminders result) (MergeReminders result)
    (GoInt.wrap (Escalations result + 1)) (DraftOverdue result) (Errors result).

Definition incDraftOverdue (result : NotificationResult) : NotificationResult :=
  mkNotificationResult (ApprovalReminders result) (MergeReminders result)
    (Escalations result) (GoInt.wrap (DraftOverdue result + 1)) (Errors result).

(** [processPR] *)
Definition processPR (cfg : Config.Config) (pr : Github.PullRequest)
  : Prog NotificationResult :=
  let rules := Config.Rules cfg in
  let result := emptyResult in
  let* age := time.Since (Github.CreatedAt pr) in
  if Github.Draft pr then
    if age >=? Config.DraftTime rules then
      let* err := notifier (SendDraftOverdue pr age (Config.DraftTime rules)) in
      match err with
      | Some err =>
          Ret (addError result (Errorf_pr "draft overdue" (Github.Number pr) err))
      | None => Ret (incDraftOverdue result)
      end
    else Ret result
  else if age >=? Config.MergeTime rules then
    let* err := notifier (SendEscalation pr age (Config.MergeTime rules)
                                         (Config.EscalationEmail rules)) in
    match err with
    | Some err =>
        Ret (addError result (Errorf_pr "escalation" (Github.Number pr) err))
    | None => Ret (incEscalations result)
    end
  else if (Github.ReviewCount pr <? 2) && (age >=? Config.ApprovalTime rules) then
    let* err := notifier (SendApprovalReminder pr age (Config.ApprovalTime rules)) in
    match err with
    | Some err =>
        Ret (addError result (Errorf_pr "approval reminder" (Github.Number pr) err))
    | None => Ret (incApprovalReminders result)
    end
  else if (Github.ReviewCount pr >=? 2) && (age >=? Config.MergeReminderTime rules) then
    let* err := notifier (SendMergeReminder pr age (Config.MergeReminderTime rules)) in
    match err with
    | Some err =>
        Ret (addError result (Errorf_pr "merge reminder" (Github.Number pr) err))
    | None => Ret (incMergeReminders result)
    end
  else Ret result.

(** What a run of a program observed: the ages the clock gave and the
    calls made with their outcomes. *)
Inductive Obs : Type :=
| ObsAge (age : Duration)
| ObsCall (c : Call) (err : option error).

(** The calls a program makes when the clock gives [age] and the notifier
    answers by [answer]. *)
Fixpoint callsOf {R} (age : Duration) (answer : Call -> option error)
         (p : Prog R) : list Call :=
  match p with
  | Ret _ => []
  | TimeSince _ k => callsOf age answer (k age)
  | Notify c k => c :: callsOf age answer (k (answer c))
  end.

(** The action [processPR] takes on a snapshot of the given age: the
    kind of the notifier call it makes, or none. *)
Definition classify (cfg : Config.Config) (pr : Github.PullRequest)
           (age : Duration) : option Notifier.NotificationType :=
  match callsOf age (fun _ => None) (processPR cfg pr) with
  | [] => None
  | c :: _ => Some (kindOf c)
  end.

Section WithEnv.

Variable env : Notifier.Env.

(** The method of [EmailNotifier] a call stands for. *)
Definition perform (c : Call) : Notifier.M (option error) :=
  match c with
  | SendApprovalReminder pr age th => Notifier.SendApprovalReminder env pr age th
  | SendMergeReminder pr age th => Notifier.SendMergeReminder env pr age th
  | SendEscalation pr age th esc => Notifier.SendEscalation env pr age th esc
  | SendDraftOverdue pr age th => Notifier.SendDraftOverdue env pr age th
  end.

(** A program run against the notifier and the clock of the world. *)
Fixpoint run {R} (p : Prog R) (w : Notifier.World)
  : R * list Obs * Notifier.World :=
  match p with
  | Ret r => (r, [], w)
  | TimeSince t k =>
      let age := Sub (Notifier.now w) t in
      let '(r, obs, w') := run (k age) w in
      (r, ObsAge age :: obs, w')
  | Notify c k =>
      let '(err, w1) := perform c w in
      let '(r, obs, w') := run (k err) w1 in
      (r, ObsCall c err :: obs, w')
  end.

(** *** The goroutines of [processPRsConcurrently] *)

(** A worker: at the head of [for pr := range prChan], at the [select]
    with a snapshot in hand, inside [processPR], or returned. Entering
    [processPR] and leaving it are two steps, so that a snapshot can be in
    flight while other goroutines move; the evaluation itself, with its
    send to [resultChan], happens at the second. What the other goroutines
    do to the notifier meanwhile reaches it only through the answers of
    the server, which the environment leaves arbitrary. *)
Inductive Worker : Type :=
| WRange
| WSelect (pr : Github.PullRequest)
| WProcess (pr : Github.PullRequest)
| WDone.

Definition isDone (wk : Worker) : bool :=
  match wk with WDone => true | _ => false end.

(** The state of one batch run. [feeder] is [Some rest] while the
    feeding goroutine still has [rest] to send and [None] once it has
    returned, which closes [prChan]. Both channels have the capacity
    [chanCap], the number of snapshots. *)
Record PState : Type := mkPState {
  feeder : option (list Github.PullRequest);
  prChan : list Github.PullRequest;
  workers : list Worker;
  resultChan : list NotificationResult;
  resultClosed : bool;
  totalResult : NotificationResult;
  returned : bool;
  cancelled : bool;
  chanCap : nat;
  world : Notifier.World
}.

Definition setFeeder f pc (s : PState) : PState :=
  mkPState f pc (workers s) (resultChan s) (resultClosed s) (totalResult s)
           (returned s) (cancelled s) (chanCap s) (world s).

Definition setWorker (i : nat) (wk : Worker) (s : PState) : PState :=
  mkPState (feeder s) (prChan s) (<[i := wk]> (workers s)) (resultChan s)
           (resultClosed s) (totalResult s) (returned s) (cancelled s)
           (chanCap s) (world s).

Definition setPrChan pc (s : PState) : PState :=
  mkPState (feeder s) pc (workers s) (resultChan s) (resultClosed s)
           (totalResult s) (returned s) (cancelled s) (chanCap s) (world s).

Definition setResults rc closed total ret (s : PState) : PState :=
  mkPState (feeder s) (prChan s) (workers s) rc closed total ret
           (cancelled s) (chanCap s) (world s).

Definition setCancelled (s : PState) : PState :=
  mkPState (feeder s) (prChan s) (workers s) (resultChan s) (resultClosed s)
           (totalResult s) (returned s) true (chanCap s) (world s).

Definition setWorld w (s : PState) : PState :=
  mkPState (feeder s) (prChan s) (workers s) (resultChan s) (resultClosed s)
           (totalResult s) (returned s) (cancelled s) (chanCap s) w.

(** The body of the aggregation loop. *)
Definition accumulate (totalResult result : NotificationResult)
  : NotificationResult :=
  mkNotificationResult
    (GoInt.wrap (ApprovalReminders totalResult + ApprovalReminders result))
    (GoInt.wrap (MergeReminders totalResult + MergeReminders result))
    (GoInt.wrap (Escalations totalResult + Escalations result))
    (GoInt.wrap (DraftOverdue totalResult + DraftOverdue result))
    (Errors totalResult ++ Errors result).

(** What the scheduler, or the caller of [Close], does next. *)
Inductive Action : Type :=
| FeederSend
| FeederReturn
| WorkerStep (i : nat)
| CloserStep
| MainStep
| Cancel
| CloseNotifier.

(** What a step lets an observer see. *)
Inductive Event : Type :=
| EvBegin (i : nat) (pr : Github.PullRequest)
| EvDone (i : nat) (pr : Github.PullRequest) (obs : list Obs)
         (result : NotificationResult)
| EvDiscard (i : nat) (pr : Github.PullRequest)
| EvUnsent (rest : list Github.PullRequest)
| EvCancel.

Variable cfg : Config.Config.

(** One atomic step of the chosen goroutine; [None] when it is blocked
    or has returned. *)
Definition step (a : Action) (s : PState) : option (list Event * PState) :=
  match a with
  | FeederSend =>
      (* select: case prChan <- pr *)
      match feeder s with
      | Some (pr :: rest) =>
          if (length (prChan s) <? chanCap s)%nat
          then Some ([], setFeeder (Some rest) (prChan s ++ [pr]) s)
          else None
      | _ => None
      end
  | FeederReturn =>
      (* end of the loop, or select: case <-w.ctx.Done(); close(prChan) *)
      match feeder s with
      | Some [] => Some ([], setFeeder None (prChan s) s)
      | Some rest =>
          if cancelled s
          then Some ([EvUnsent rest], setFeeder None (prChan s) s)
          else None
      | None => None
      end
  | WorkerStep i =>
      match workers s !! i with
      | Some WRange =>
          match prChan s with
          | pr :: queue => Some ([], setWorker i (WSelect pr) (setPrChan queue s))
          | [] =>
              match feeder s with
              | None => Some ([], setWorker i WDone s)
              | Some _ => None
              end
          end
      | Some (WSelect pr) =>
          if cancelled s
          then Some ([EvDiscard i pr], setWorker i WDone s)
          else Some ([EvBegin i pr], setWorker i (WProcess pr) s)
      | Some (WProcess pr) =>
          if (length (resultChan s) <? chanCap s)%nat then
            let '(result, obs, w') := run (processPR cfg pr) (world s) in
            Some ([EvDone i pr obs result],
                  setWorker i WRange
                    (setResults (resultChan s ++ [result]) (resultClosed s)
                                (totalResult s) (returned s) (setWorld w' s)))
          else None
      | _ => None
      end
  | CloserStep =>
      (* wg.Wait(); close(resultChan) *)
      if forallb isDone (workers s) && negb (resultClosed s)
      then Some ([], setResults (resultChan s) true (totalResult s) (returned s) s)
      else None
  | MainStep =>
      if returned s then None
      else
        match resultChan s with
        | result :: queue =>
            Some ([], setResults queue (resultClosed s)
                                 (accumulate (totalResult s) result) false s)
        | [] =>
            if resultClosed s
            then Some ([], setResults [] true (totalResult s) true s)
            else None
        end
  | Cancel =>
      (* PRWatcher.Close: w.cancel() *)
      Some ([EvCancel], setCancelled s)
  | CloseNotifier =>
      (* PRWatcher.Close: w.notifier.Close(), after the cancel *)
      if cancelled s
      then Some ([], setWorld (snd (Notifier.Close (world s))) s)
      else None
  end.

(** A schedule run from a state, with the events it produced. *)
Fixpoint exec (sched : list Action) (s : PState)
  : option (list Event * PState) :=
  match sched with
  | [] => Some ([], s)
  | a :: rest =>
      match step a s with
      | None => None
      | Some (evs, s') =>
          match exec rest s' with
          | None => None
          | Some (evs', s'') => Some (evs ++ evs', s'')
          end
      end
  end.

(** [processPRsConcurrently] at the moment its goroutines are spawned;
    [ctxDone] tells whether [w.ctx] is already cancelled. *)
Definition processPRsConcurrently (prs : list Github.PullRequest)
           (concurrency : Z) (ctxDone : bool) (w : Notifier.World) : PState :=
  {| feeder := Some prs;
     prChan := [];
     workers := replicate (Z.to_nat concurrency) WRange;
     resultChan := [];
     resultClosed := false;
     totalResult := emptyResult;
     returned := false;
     cancelled := ctxDone;
     chanCap := length prs;
     world := w |}.

(** The worker count [CheckPRs] passes on. *)
Definition workerCount : Z :=
  let concurrency := Config.Concurrency (Config.Debug cfg) in
  if concurrency <=? 0 then 5 else concurrency.

(** What a finished [CheckPRs] leaves: its return value, the events of
    the batch, the totals it logged and the world afterwards. *)
Record Report : Type := mkReport {
  runError : option error;
  runEvents : list Event;
  runResults : option NotificationResult;
  runWorld : Notifier.World
}.

(** [CheckPRs] under a schedule: [None] while the batch has not
    returned under it. [ctxDone] tells whether the watcher's context
    was cancelled before the call. *)
Definition CheckPRs (api : Github.API) (ctxDone : bool) (w : Notifier.World)
           (sched : list Action) : option Report :=
  match Github.GetPullRequests api (Config.Owner (Config.GitHub cfg))
                               (Config.Repos (Config.GitHub cfg)) with
  | inr err =>
      Some (mkReport (Some (Errorf_w "failed to fetch pull requests" err))
                     [] None w)
  | inl prs =>
      match exec sched (processPRsConcurrently prs workerCount ctxDone w) with
      | Some (evs, s) =>
          if returned s
          then Some (mkReport None evs (Some (totalResult s)) (world s))
          else None
      | None => None
      end
  end.

(** *** The other entry points of the watcher *)

(** [CheckSpecificPR], given what [PullRequests.Get] answered: the error
    returned, what the evaluation observed and the world afterwards. *)
Definition CheckSpecificPR (got : Github.Listed + error) (repo : string)
           (w : Notifier.World) : option error * list Obs * Notifier.World :=
  match Github.GetPRDetails got repo with
  | inr err => (Some (Errorf_w "failed to fetch PR details" err), [], w)
  | inl pr =>
      let '(result, obs, w') := run (processPR cfg pr) w in
      (match Errors result with
       | err :: _ => Some err
       | [] => None
       end, obs, w')
  end.

(** [PRStatus]; its fields carry the prefix [st]. *)
Record PRStatus : Type := mkPRStatus {
  stNumber : Z;
  stTitle : string;
  stRepo : string;
  stAuthor : string;
  stAge : Duration;
  stApproved : bool;
  stReviewCount : Z;
  stStatus : string;
  stURL : string
}.

Record PRSummary : Type := mkPRSummary {
  TotalPRs : Z;
  NeedsApproval : Z;
  NeedsEscalation : Z;
  Approved : Z;
  Draft : Z;
  PRs : list PRStatus
}.

(** One turn of the loop of [GetPRSummary], at the instant [now]; [None]
    is the panic of [pr.User.Login] on a nil user. *)
Definition summaryStep (now : Time) (summary : PRSummary) (pr : Github.PullRequest)
  : option PRSummary :=
  match Github.PRUser pr with
  | None => None
  | Some user =>
      let age := Sub now (Github.CreatedAt pr) in
      let status s :=
        mkPRStatus (Github.Number pr) (Github.Title pr) (Github.Repo pr)
          (Github.Login user) age (Github.Approved pr) (Github.ReviewCount pr) s
          (Github.URL pr) in
      let inc z := GoInt.wrap (z + 1) in
      let rules := Config.Rules cfg in
      Some
        (if Github.Draft pr then
           mkPRSummary (TotalPRs summary) (NeedsApproval summary)
             (NeedsEscalation summary) (Approved summary) (inc (Draft summary))
             (PRs summary
                ++ [status (if age >=? Config.DraftTime rules
                            then "Draft Overdue" else "Draft")%string])
         else if Github.ReviewCount pr >=? 2 then
           mkPRSummary (TotalPRs summary) (NeedsApproval summary)
             (NeedsEscalation summary) (inc (Approved summary)) (Draft summary)
             (PRs summary ++ [status "Approved"%string])
         else if age >=? Config.MergeTime rules then
           mkPRSummary (TotalPRs summary) (NeedsApproval summary)
             (inc (NeedsEscalation summary)) (Approved summary) (Draft summary)
             (PRs summary ++ [status "Needs Escalation"%string])
         else if age >=? Config.ApprovalTime rules then
           mkPRSummary (TotalPRs summary) (inc (NeedsApproval summary))
             (NeedsEscalation summary) (Approved summary) (Draft summary)
             (PRs summary ++ [status "Needs Approval"%string])
         else
           mkPRSummary (TotalPRs summary) (NeedsApproval summary)
             (NeedsEscalation summary) (Approved summary) (Draft summary)
             (PRs summary ++ [status "OK"%string]))
  end.

Fixpoint summaryLoop (now : Time) (summary : PRSummary)
         (prs : list Github.PullRequest) : option PRSummary :=
  match prs with
  | [] => Some summary
  | pr :: rest =>
      match summaryStep now summary pr with
      | None => None
      | Some summary' => summaryLoop now summary' rest
      end
  end.

(** [GetPRSummary] at the instant [now]: the fetch error, or the summary,
    or [None] for a panic. *)
Definition GetPRSummary (api : Github.API) (now : Time)
  : option (PRSummary + error) :=
  match Github.GetPullRequests api (Config.Owner (Config.GitHub cfg))
                               (Config.Repos (Config.GitHub cfg)) with
  | inr err => Some (inr (Errorf_w "failed to fetch pull requests" err))
  | inl prs =>
      match summaryLoop now
              (mkPRSummary (Z.of_nat (length prs)) 0 0 0 0 []) prs with
      | None => None
      | Some summary => Some (inl summary)
      end
  end.

End WithEnv.

End Watcher.

(** ** The rule table of the specification *)

Module Spec.

Import Time.

(** The priority order as the specification lists it: each rule with
    its condition and the action it yields. *)
Definition rules (r : Config.RulesConfig) (draft : bool) (reviews : Z)
           (age : Duration) : list (bool * option Notifier.NotificationType) :=
  [ (draft && (Config.DraftTime r <=? age), Some Notifier.DraftOverdue);
    (draft && (age <? Config.DraftTime r), None);
    (negb draft && (Config.MergeTime r <=? age), Some Notifier.Escalation);
    (negb draft && (age <? Config.MergeTime r) && (reviews <? 2)
       && (Config.ApprovalTime r <=? age), Some Notifier.ApprovalReminder);
    (negb draft && (age <? Config.MergeTime r) && (2 <=? reviews)
       && (Config.MergeReminderTime r <=? age), Some Notifier.MergeReminder) ].

(** The first matching rule wins; no match is no action. *)
Fixpoint firstMatch {A} (rs : list (bool * option A)) : option A :=
  match rs with
  | [] => None
  | (true, a) :: _ => a
  | (false, _) :: rest => firstMatch rest
  end.

Definition action (r : Config.RulesConfig) (draft : bool) (reviews : Z)
           (age : Duration) : option Notifier.NotificationType :=
  firstMatch (rules r draft reviews age).

End Spec.

(** ** Auxiliary definitions for the statements *)

(** The two tests of the loop of [checkPRApprovals]. *)
Definition isApproved (r : Github.Review) : bool :=
  String.eqb (Github.GetState r) "APPROVED".

Definition notCommented (r : Github.Review) : bool :=
  negb (String.eqb (Github.GetState r) "COMMENTED").

(** Calls made on the notifier one after another, with their answers. *)
Fixpoint performAll (env : Notifier.Env) (calls : list Watcher.Call)
         (w : Notifier.World) : list (option Errors.error) * Notifier.World :=
  match calls with
  | [] => ([], w)
  | c :: rest =>
      let '(r, w1) := Watcher.perform env c w in
      let '(rs, w2) := performAll env rest w1 in
      (r :: rs, w2)
  end.

(** Two worlds that differ at most in the heap of recipient arrays. *)
Definition sameButHeap (w w' : Notifier.World) : Prop :=
  Notifier.notifier w' = Notifier.notifier w
  /\ Notifier.now w' = Notifier.now w
  /\ Notifier.dials w' = Notifier.dials w
  /\ Notifier.outbox w' = Notifier.outbox w
  /\ Notifier.console w' = Notifier.console w.

(** The recipients configured on the notifier of a world. *)
Definition configuredTo (w : Notifier.World) : list string :=
  GoSlice.view (Notifier.heap w) (Config.To (Notifier.config (Notifier.notifier w))).

(** The answer of a closed notifier. *)
Definition closedError : option Errors.error :=
  Some (Errors.Errorf "email notifier is closed").

(** The recipients an escalation adds to the configured ones. *)
Definition escalationExtra (escalationEmail : string) : list string :=
  if String.eqb escalationEmail "" then [] else [escalationEmail].

(** *** Reading a batch *)

Module Batch.

Import Watcher.

Abbreviation PR := Github.PullRequest.

(** The snapshot a worker holds. *)
Definition inHand (wk : Worker) : list PR :=
  match wk with
  | WSelect pr | WProcess pr => [pr]
  | _ => []
  end.

(** The snapshot a worker is processing. *)
Definition inFlight (wk : Worker) : list PR :=
  match wk with
  | WProcess pr => [pr]
  | _ => []
  end.

Definition held (ws : list Worker) : list PR := flat_map inHand ws.
Definition processing (ws : list Worker) : list PR := flat_map inFlight ws.

Definition unsent (s : PState) : list PR := default [] (feeder s).

(** The completed evaluations of a trace, in the order of completion. *)
Definition doneOf (e : Event) : list (PR * list Obs * NotificationResult) :=
  match e with
  | EvDone _ pr obs r => [(pr, obs, r)]
  | _ => []
  end.

Definition done (tr : list Event) := flat_map doneOf tr.

Definition donePRs (tr : list Event) : list PR := map (fun d => d.1.1) (done tr).

Definition results (tr : list Event) : list NotificationResult :=
  map (fun d => d.2) (done tr).

(** The snapshots whose processing began. *)
Definition begunOf (e : Event) : list PR :=
  match e with
  | EvBegin _ pr => [pr]
  | _ => []
  end.

Definition begun (tr : list Event) : list PR := flat_map begunOf tr.

(** The snapshots given up on cancellation. *)
Definition droppedOf (e : Event) : list PR :=
  match e with
  | EvDiscard _ pr => [pr]
  | EvUnsent rest => rest
  | _ => []
  end.

Definition dropped (tr : list Event) : list PR := flat_map droppedOf tr.

Definition isCancel (e : Event) : bool :=
  match e with EvCancel => true | _ => false end.

Definition cancelSeen (tr : list Event) : bool := existsb isCancel tr.

(** The snapshots whose processing began after the cancellation, which
    [cancelled] says has already happened. *)
Fixpoint lateBegins (cancelled : bool) (tr : list Event) : list PR :=
  match tr with
  | [] => []
  | EvCancel :: rest => lateBegins true rest
  | EvBegin _ pr :: rest =>
      (if cancelled then [pr] else []) ++ lateBegins cancelled rest
  | _ :: rest => lateBegins cancelled rest
  end.

(** The completions that came after the cancellation. *)
Fixpoint lateDone (cancelled : bool) (tr : list Event) : list PR :=
  match tr with
  | [] => []
  | EvCancel :: rest => lateDone true rest
  | EvDone _ pr _ _ :: rest =>
      (if cancelled then [pr] else []) ++ lateDone cancelled rest
  | _ :: rest => lateDone cancelled rest
  end.

(** The results completed before the cancellation. *)
Fixpoint earlyResults (cancelled : bool) (tr : list Event)
  : list NotificationResult :=
  match tr with
  | [] => []
  | EvCancel :: rest => earlyResults true rest
  | EvDone _ _ _ r :: rest =>
      (if cancelled then [] else [r]) ++ earlyResults cancelled rest
  | _ :: rest => earlyResults cancelled rest
  end.

(** The age an evaluation read and the call it made, with its answer. *)
Definition obsAge (obs : list Obs) : Time.Duration :=
  match obs with
  | ObsAge age :: _ => age
  | _ => 0
  end.

Definition obsCall (obs : list Obs) : option (Call * option Errors.error) :=
  match obs with
  | [_; ObsCall c err] => Some (c, err)
  | _ => None
  end.

(** Each evaluated snapshot with the age it was evaluated at. *)
Definition evaluations (tr : list Event) : list (PR * Time.Duration) :=
  map (fun d => (d.1.1, obsAge d.1.2)) (done tr).

(** Each dispatch with its snapshot. *)
Definition dispatchOf (d : PR * list Obs * NotificationResult)
  : list (PR * Call * option Errors.error) :=
  match obsCall d.1.2 with
  | Some (c, err) => [(d.1.1, c, err)]
  | None => []
  end.

Definition dispatches (tr : list Event) := flat_map dispatchOf (done tr).

Definition kind_eqb (a b : Notifier.NotificationType) : bool :=
  match a, b with
  | Notifier.ApprovalReminder, Notifier.ApprovalReminder
  | Notifier.MergeReminder, Notifier.MergeReminder
  | Notifier.Escalation, Notifier.Escalation
  | Notifier.DraftOverdue, Notifier.DraftOverdue => true
  | _, _ => false
  end.

(** The dispatches of a kind that succeeded. *)
Definition succeeded (k : Notifier.NotificationType)
           (d : PR * Call * option Errors.error) : bool :=
  kind_eqb (kindOf d.1.2) k && match d.2 with None => true | Some _ => false end.

Definition successes (k : Notifier.NotificationType) (tr : list Event) : Z :=
  Z.of_nat (length (List.filter (succeeded k) (dispatches tr))).

(** The error entry of a failed dispatch: the name of the kind, the
    number of the pull request and the cause. *)
Definition taggedError (k : Notifier.NotificationType) (pr : PR)
           (cause : Errors.error) : Errors.error :=
  Errors.Errorf_pr (Notifier.getNotificationTypeName k) (Github.Number pr) cause.

Definition failureOf (d : PR * Call * option Errors.error) : list Errors.error :=
  match d.2 with
  | Some cause => [taggedError (kindOf d.1.2) d.1.1 cause]
  | None => []
  end.

Definition failures (tr : list Event) : list Errors.error :=
  flat_map failureOf (dispatches tr).

(** The evaluations whose classification is the given kind, and those
    with any. *)
Definition classifiedAs (cfg : Config.Config) (k : Notifier.NotificationType)
           (e : PR * Time.Duration) : bool :=
  match classify cfg e.1 e.2 with
  | Some k' => kind_eqb k' k
  | None => false
  end.

Definition actionable (cfg : Config.Config) (e : PR * Time.Duration) : bool :=
  match classify cfg e.1 e.2 with
  | Some _ => true
  | None => false
  end.

Definition count {A} (f : A -> bool) (l : list A) : Z :=
  Z.of_nat (length (List.filter f l)).

(** The result of an evaluation, from its action and the answer. *)
Definition bump (k : Notifier.NotificationType) (r : NotificationResult)
  : NotificationResult :=
  match k with
  | Notifier.ApprovalReminder => incApprovalReminders r
  | Notifier.MergeReminder => incMergeReminders r
  | Notifier.Escalation => incEscalations r
  | Notifier.DraftOverdue => incDraftOverdue r
  end.

Definition outcome (k : Notifier.NotificationType) (pr : PR)
           (err : option Errors.error) : NotificationResult :=
  match err with
  | None => bump k emptyResult
  | Some cause => addError emptyResult (taggedError k pr cause)
  end.

(** A completed evaluation agrees with [processPR]. *)
Definition doneOK (cfg : Config.Config)
           (d : PR * list Obs * NotificationResult) : Prop :=
  let '(pr, obs, r) := d in
  match classify cfg pr (obsAge obs) with
  | None => obs = [ObsAge (obsAge obs)] /\ r = emptyResult
  | Some k =>
      exists c err, kindOf c = k /\ obs = [ObsAge (obsAge obs); ObsCall c err]
                    /\ r = outcome k pr err
  end.

(** The sum of the four counters. *)
Definition sent (r : NotificationResult) : Z :=
  ApprovalReminders r + MergeReminders r + Escalations r + DraftOverdue r.

(** The scheduler's own moves, as against those of the caller of
    [Close]. *)
Definition isGoroutine (a : Action) : bool :=
  match a with
  | Cancel | CloseNotifier => false
  | _ => true
  end.

Definition isCancelAction (a : Action) : bool :=
  match a with Cancel => true | _ => false end.

(** A bound on the moves the goroutines still have. *)
Definition weight (wk : Worker) : nat :=
  match wk with
  | WRange => 1
  | WSelect _ => 4
  | WProcess _ => 3
  | WDone => 0
  end.

Definition measure (s : PState) : nat :=
  (match feeder s with Some rest => 1 + 5 * length rest | None => 0 end)
  + 4 * length (prChan s)
  + list_sum (map weight (workers s))
  + length (resultChan s)
  + (if resultClosed s then 0 else 1)
  + (if returned s then 0 else 1).

Section WithEnv.

Variable env : Notifier.Env.
Variable cfg : Config.Config.

(** The cases of [step], one per branch that moves. *)
Inductive StepCase (s : PState) : Action -> list Event -> PState -> Prop :=
| sc_send pr rest :
    feeder s = Some (pr :: rest) ->
    (length (prChan s) < chanCap s)%nat ->
    StepCase s FeederSend [] (setFeeder (Some rest) (prChan s ++ [pr]) s)
| sc_feed_end :
    feeder s = Some [] ->
    StepCase s FeederReturn [] (setFeeder None (prChan s) s)
| sc_feed_cancel pr rest :
    feeder s = Some (pr :: rest) ->
    cancelled s = true ->
    StepCase s FeederReturn [EvUnsent (pr :: rest)] (setFeeder None (prChan s) s)
| sc_recv i pr queue :
    workers s !! i = Some WRange ->
    prChan s = pr :: queue ->
    StepCase s (WorkerStep i) [] (setWorker i (WSelect pr) (setPrChan queue s))
| sc_exit i :
    workers s !! i = Some WRange ->
    prChan s = [] ->
    feeder s = None ->
    StepCase s (WorkerStep i) [] (setWorker i WDone s)
| sc_discard i pr :
    workers s !! i = Some (WSelect pr) ->
    cancelled s = true ->
    StepCase s (WorkerStep i) [EvDiscard i pr] (setWorker i WDone s)
| sc_begin i pr :
    workers s !! i = Some (WSelect pr) ->
    cancelled s = false ->
    StepCase s (WorkerStep i) [EvBegin i pr] (setWorker i (WProcess pr) s)
| sc_finish i pr r obs w' :
    workers s !! i = Some (WProcess pr) ->
    (length (resultChan s) < chanCap s)%nat ->
    run env (processPR cfg pr) (world s) = (r, obs, w') ->
    StepCase s (WorkerStep i) [EvDone i pr obs r]
      (setWorker i WRange
         (setResults (resultChan s ++ [r]) (resultClosed s) (totalResult s)
                     (returned s) (setWorld w' s)))
| sc_closer :
    forallb isDone (workers s) = true ->
    resultClosed s = false ->
    StepCase s CloserStep []
      (setResults (resultChan s) true (totalResult s) (returned s) s)
| sc_drain r queue :
    returned s = false ->
    resultChan s = r :: queue ->
    StepCase s MainStep []
      (setResults queue (resultClosed s) (accumulate (totalResult s) r) false s)
| sc_return :
    returned s = false ->
    resultChan s = [] ->
    resultClosed s = true ->
    StepCase s MainStep [] (setResults [] true (totalResult s) true s)
| sc_cancel :
    StepCase s Cancel [EvCancel] (setCancelled s)
| sc_close :
    cancelled s = true ->
    StepCase s CloseNotifier [] (setWorld (snd (Notifier.Close (world s))) s).

(** What holds of every state a batch over [prs] reaches, with the
    trace [tr] that led to it; [ctxDone] is the state of the context
    at the start. *)
Record Inv (prs : list PR) (ctxDone : bool) (tr : list Event) (s : PState)
  : Prop := mkInv {
  inv_conserve :
    prs ≡ₚ unsent s ++ prChan s ++ held (workers s) ++ donePRs tr ++ dropped tr;
  inv_results :
    exists drained,
      results tr = drained ++ resultChan s
      /\ totalResult s = fold_left accumulate drained emptyResult;
  inv_cap : chanCap s = length prs;
  inv_begun : begun tr ≡ₚ processing (workers s) ++ donePRs tr;
  inv_cancel : cancelled s = ctxDone || cancelSeen tr;
  inv_dropped : cancelled s = false -> dropped tr = [];
  inv_late : lateBegins ctxDone tr = [];
  inv_exit :
    cancelled s = false -> existsb isDone (workers s) = true ->
    feeder s = None /\ prChan s = [];
  inv_closed : resultClosed s = true -> forallb isDone (workers s) = true;
  inv_returned : returned s = true -> resultClosed s = true /\ resultChan s = [];
  inv_done : Forall (doneOK cfg) (done tr)
}.

End WithEnv.

End Batch.

(** *** Sample values *)

Module Sample.

Definition user : Github.User := Github.mkUser "octocat" "" "Octo Cat".
Definition branch : Github.Branch := Github.mkBranch "feature" "abc123".

(** A snapshot with the given number, draft flag, creation instant and
    review count. *)
Definition pr (number : Z) (draft : bool) (created : Time.Time) (reviews : Z)
  : Github.PullRequest :=
  Github.mkPullRequest number "Add feature" "open" draft created created
    (Some user) (Some branch) (Some branch) "https://example.test/pr"
    false reviews "repo" 10 2 12 1 "XS".

(** A configuration file that sets no threshold. *)
Definition unset (concurrency : Z) (skip : bool) : Config.Config :=
  Config.mkConfig
    (Config.mkGitHubConfig "token" "owner" ["repo"%string] "" "")
    (Config.mkEmailConfig "smtp.example.test" 587 "u" "p" "bot@example.test"
       (GoSlice.mkSlice 0 2 4) "" 0 0)
    (Config.mkRulesConfig 0 0 0 0 0 "lead@example.test")
    (Config.mkDebugConfig false false skip concurrency).

Definition cfg (concurrency : Z) (skip : bool) : Config.Config :=
  Config.setDefaults (unset concurrency skip).

(** The server accepts or refuses every message. *)
Definition env (up : bool) : Notifier.Env :=
  Notifier.mkEnv
    (fun _ _ => if up then None else Some (Errors.Errorf "connection refused"))
    (fun _ => inl "<html></html>"%string)
    (fun _ => "some time"%string)
    (fun c => (2 * c)%nat).

(** A world at instant [t]: the notifier of [cfg], and the two configured
    recipients in an array with room for four. *)
Definition world (concurrency : Z) (skip : bool) (t : Time.Time)
  : Notifier.World :=
  Notifier.mkWorld
    (Notifier.mkEmailNotifier (Config.Email (cfg concurrency skip)) skip
       (Config.RateLimit (Config.Email (cfg concurrency skip))) false
       (t - Config.RateLimit (Config.Email (cfg concurrency skip))))
    t [["dev@example.test"; "qa@example.test"; ""; ""]%string] 0 [] [].

(** A batch of two snapshots at the instant 10h: one open for 7h with
    three reviews, one open for 1h with none. *)
Definition prs : list Github.PullRequest :=
  [pr 41 false (3 * Time.Hour) 3; pr 42 false (9 * Time.Hour) 0].

(** Two workers taking one snapshot each, to completion. *)
Definition schedule : list Watcher.Action :=
  [Watcher.FeederSend; Watcher.FeederSend; Watcher.FeederReturn;
   Watcher.WorkerStep 0; Watcher.WorkerStep 1;
   Watcher.WorkerStep 0; Watcher.WorkerStep 1;
   Watcher.WorkerStep 1; Watcher.WorkerStep 0;
   Watcher.WorkerStep 0; Watcher.WorkerStep 1;
   Watcher.CloserStep;
   Watcher.MainStep; Watcher.MainStep; Watcher.MainStep].

(** One worker, cancelled while its first snapshot is in flight. *)
Definition cancelledSchedule : list Watcher.Action :=
  [Watcher.FeederSend; Watcher.FeederSend;
   Watcher.WorkerStep 0; Watcher.WorkerStep 0;
   Watcher.Cancel;
   Watcher.WorkerStep 0; Watcher.WorkerStep 0; Watcher.WorkerStep 0;
   Watcher.CloserStep;
   Watcher.MainStep; Watcher.MainStep].

(** Two workers and a single snapshot, to completion. *)
Definition schedule' : list Watcher.Action :=
  [Watcher.FeederSend; Watcher.FeederReturn;
   Watcher.WorkerStep 1; Watcher.WorkerStep 1; Watcher.WorkerStep 1;
   Watcher.WorkerStep 0; Watcher.WorkerStep 1;
   Watcher.CloserStep; Watcher.MainStep; Watcher.MainStep].

(** The API of a single repository: one page with one pull request, or
    an outage. *)
Definition listed (number : Z) (created : Time.Time)
           (reviews : list Github.Review) : Github.Listed :=
  Github.mkListed number "Add feature" "open" false created created user branch
    branch "https://example.test/pr" 10 2 1 (inl reviews).

Definition api (up : bool) : Github.API :=
  fun _ _ =>
    if up then
      [inl [listed 41 (3 * Time.Hour)
              [Github.mkReview (Some "APPROVED"%string);
               Github.mkReview (Some "CHANGES_REQUESTED"%string);
               Github.mkReview (Some "COMMENTED"%string)]]]
    else [inr (Errors.Errorf "503 Service Unavailable")].

End Sample.

(** ** Auxiliary definitions for the further properties *)

(** The settings [setDefaults] looks at are all set. *)
Definition allSet (c : Config.Config) : Prop :=
  Config.ApprovalTime (Config.Rules c) <> 0
  /\ Config.MergeReminderTime (Config.Rules c) <> 0
  /\ Config.MergeTime (Config.Rules c) <> 0
  /\ Config.DraftTime (Config.Rules c) <> 0
  /\ Config.CheckInterval (Config.Rules c) <> 0
  /\ Config.Subject (Config.Email c) <> ""%string
  /\ Config.RateLimit (Config.Email c) <> 0
  /\ Config.RateTimeout (Config.Email c) <> 0
  /\ Config.Concurrency (Config.Debug c) <> 0.

(** The errors and the pull requests of the pages of a repository. *)
Definition pageErrors (pages : list (list Github.Listed + Errors.error))
  : list Errors.error :=
  flat_map (fun p => match p with inr e => [e] | inl _ => [] end) pages.

Definition pageItems (pages : list (list Github.Listed + Errors.error))
  : list Github.Listed :=
  flat_map (fun p => match p with inl l => l | inr _ => [] end) pages.

(** The snapshots of all the pages of a repository. *)
Definition repoPRs (api : Github.API) (owner repo : string)
  : list Github.PullRequest :=
  map (Github.prData repo) (pageItems (api owner repo)).

(** The world of a send once the rate-limit wait is over and the instant
    of the send is recorded. *)
Definition afterRateLimit (w : Notifier.World) : Notifier.World :=
  let e := Notifier.notifier w in
  let since := Time.Sub (Notifier.now w) (Notifier.lastSent e) in
  let t :=
    if since <? Notifier.rateLimit e
    then Time.Add (Notifier.now w) (Z.max (GoInt.wrap (Notifier.rateLimit e - since)) 0)
    else Notifier.now w in
  Notifier.mkWorld (Notifier.setLastSent e t) t (Notifier.heap w) (Notifier.dials w)
                   (Notifier.outbox w) (Notifier.console w).

(** The message a send hands to the dialer, given the rendered body. *)
Definition messageOf (data : Notifier.NotificationData) (w : Notifier.World)
           (body : string) : Notifier.Message :=
  Notifier.mkMessage (Config.From (Notifier.config (Notifier.notifier w)))
    (GoSlice.view (Notifier.heap w) (Notifier.Recipients data))
    (Notifier.getSubject (Notifier.notifier w) data) body.

(** A world with other dials, outbox and clock. *)
Definition dialled (w : Notifier.World) (n : nat) (out : list Notifier.Message)
           (t : Time.Time) : Notifier.World :=
  Notifier.mkWorld (Notifier.notifier w) t (Notifier.heap w) n out (Notifier.console w).

(** The snapshot a call is about. *)
Definition subjectOf (c : Watcher.Call) : Github.PullRequest :=
  match c with
  | Watcher.SendApprovalReminder pr _ _ | Watcher.SendMergeReminder pr _ _
  | Watcher.SendEscalation pr _ _ _ | Watcher.SendDraftOverdue pr _ _ => pr
  end.

(** The statuses of a summary with a given text. *)
Definition hasStatus (s : string) (st : Watcher.PRStatus) : bool :=
  String.eqb (Watcher.stStatus st) s.

(** How the status shown for a pull request relates to what a run at the
    same instant does with it. *)
Definition statusRel (cfg : Config.Config) (now : Time.Time)
           (pr : Github.PullRequest) (st : Watcher.PRStatus) : Prop :=
  let age := Time.Sub now (Github.CreatedAt pr) in
  let act := Watcher.classify cfg pr age in
  let s := Watcher.stStatus st in
  Watcher.stNumber st = Github.Number pr
  /\ Watcher.stRepo st = Github.Repo pr
  /\ Watcher.stAge st = age
  /\ Watcher.stReviewCount st = Github.ReviewCount pr
  /\ In s ["Draft"; "Draft Overdue"; "Approved"; "Needs Escalation";
           "Needs Approval"; "OK"]%string
  /\ (s = "Draft Overdue"%string <-> act = Some Notifier.DraftOverdue)
  /\ (s = "Needs Approval"%string <-> act = Some Notifier.ApprovalReminder)
  /\ (s = "Needs Escalation"%string
      <-> act = Some Notifier.Escalation /\ Github.ReviewCount pr < 2)
  /\ (s = "Approved"%string
      <-> Github.Draft pr = false /\ 2 <= Github.ReviewCount pr)
  /\ (s = "Draft"%string \/ s = "OK"%string -> act = None).

(** The counters of a summary after the statuses [sts] were added. *)
Definition summaryAfter (s : Watcher.PRSummary) (sts : list Watcher.PRStatus)
  : Watcher.PRSummary :=
  Watcher.mkPRSummary (Watcher.TotalPRs s)
    (Watcher.NeedsApproval s + Batch.count (hasStatus "Needs Approval") sts)
    (Watcher.NeedsEscalation s + Batch.count (hasStatus "Needs Escalation") sts)
    (Watcher.Approved s + Batch.count (hasStatus "Approved") sts)
    (Watcher.Draft s + Batch.count (hasStatus "Draft") sts
     + Batch.count (hasStatus "Draft Overdue") sts)
    (Watcher.PRs s ++ sts).

(** * Properties *)

(** ** Integers *)

Lemma wrap_inRange z : GoInt.inRange z -> GoInt.wrap z = z.
Proof.
  unfold GoInt.inRange, GoInt.wrap, GoInt.minInt, GoInt.maxInt. intros H.
  rewrite Z.mod_small; lia.
Qed.

Lemma wrap_small z : 0 <= z <= GoInt.maxInt -> GoInt.wrap z = z.
Proof.
  intros H. apply wrap_inRange. unfold GoInt.inRange, GoInt.minInt, GoInt.maxInt in *. lia.
Qed.

Lemma wrap_one : GoInt.wrap (0 + 1) = 1.
Proof. vm_compute. reflexivity. Qed.

(** ** Rule evaluation *)

Ltac split_tests :=
  repeat match goal with
         | |- context [Z.geb ?a ?b] => rewrite (Z.geb_leb a b)
         | |- context [Z.leb ?a ?b] => destruct (Z.leb_spec a b)
         | |- context [Z.ltb ?a ?b] => destruct (Z.ltb_spec a b)
         end.

(** The calls of [processPR] do not depend on how the notifier answers,
    and there is at most one. *)
Lemma processPR_calls cfg pr age answer :
  map Watcher.kindOf (Watcher.callsOf age answer (Watcher.processPR cfg pr)) =
  match Watcher.classify cfg pr age with None => [] | Some k => [k] end.
Proof.
  unfold Watcher.classify, Watcher.processPR. cbn [Watcher.callsOf].
  destruct (Github.Draft pr); split_tests; cbn;
    repeat match goal with |- context [match ?a with _ => _ end] => destruct a end;
    reflexivity.
Qed.

Lemma classify_spec cfg pr age :
  Watcher.classify cfg pr age =
  Spec.action (Config.Rules cfg) (Github.Draft pr) (Github.ReviewCount pr) age.
Proof.
  unfold Watcher.classify, Watcher.processPR, Spec.action, Spec.rules.
  cbn [Watcher.callsOf].
  destruct (Github.Draft pr); split_tests; cbn; try reflexivity; lia.
Qed.

(** [setDefaults] on the four thresholds. *)
Lemma setDefaults_thresholds cfg0 :
  let r0 := Config.Rules cfg0 in
  let r := Config.Rules (Config.setDefaults cfg0) in
  Config.ApprovalTime r = Config.orDefault (Config.ApprovalTime r0) (2 * Time.Hour)
  /\ Config.MergeReminderTime r
     = Config.orDefault (Config.MergeReminderTime r0) (4 * Time.Hour)
  /\ Config.MergeTime r = Config.orDefault (Config.MergeTime r0) (6 * Time.Hour)
  /\ Config.DraftTime r = Config.orDefault (Config.DraftTime r0) (96 * Time.Hour).
Proof. cbn. repeat split. Qed.

(** C6. The thresholds 2h, 4h, 6h and 96h are what [setDefaults] gives to
    thresholds left at zero, and under them: a non-draft of age 1h with no
    review gets no action; a non-draft of age 3h with no review an approval
    reminder; a non-draft of age 5h with 3 reviews a merge reminder; a
    non-draft of age 7h with 3 reviews an escalation; a draft of age 100h a
    draft-overdue notice; a draft of age 50h no action. *)
Theorem concrete_scenarios :
  forall (cfg0 cfg : Config.Config) (pr : Github.PullRequest),
    Config.ApprovalTime (Config.Rules cfg0) = 0 ->
    Config.MergeReminderTime (Config.Rules cfg0) = 0 ->
    Config.MergeTime (Config.Rules cfg0) = 0 ->
    Config.DraftTime (Config.Rules cfg0) = 0 ->
    cfg = Config.setDefaults cfg0 ->
    let r := Config.Rules cfg in
    let h := Time.Hour in
    (Config.ApprovalTime r = 2 * h /\ Config.MergeReminderTime r = 4 * h
     /\ Config.MergeTime r = 6 * h /\ Config.DraftTime r = 96 * h)
    /\ (Github.Draft pr = false -> Github.ReviewCount pr = 0 ->
        Watcher.classify cfg pr (1 * h) = None)
    /\ (Github.Draft pr = false -> Github.ReviewCount pr = 0 ->
        Watcher.classify cfg pr (3 * h) = Some Notifier.ApprovalReminder)
    /\ (Github.Draft pr = false -> Github.ReviewCount pr = 3 ->
        Watcher.classify cfg pr (5 * h) = Some Notifier.MergeReminder)
    /\ (Github.Draft pr = false -> Github.ReviewCount pr = 3 ->
        Watcher.classify cfg pr (7 * h) = Some Notifier.Escalation)
    /\ (Github.Draft pr = true ->
        Watcher.classify cfg pr (100 * h) = Some Notifier.DraftOverdue)
    /\ (Github.Draft pr = true ->
        Watcher.classify cfg pr (50 * h) = None).
Proof.
  intros cfg0 cfg pr Ha Hr Hm Hd -> r h.
  destruct (setDefaults_thresholds cfg0) as (Ea & Er & Em & Ed).
  rewrite Ha in Ea. rewrite Hr in Er. rewrite Hm in Em. rewrite Hd in Ed.
  change (Config.orDefault 0 ?d) with d in *.
  fold r in Ea, Er, Em, Ed.
  split; [repeat split; assumption|].
  repeat split; intros; rewrite classify_spec; fold r;
    unfold Spec.action, Spec.rules;
    rewrite Ea, Er, Em, Ed;
    repeat match goal with H : _ = _ |- _ => rewrite H; clear H end;
    reflexivity.
Qed.

(** ** Review counting *)

Lemma reviewStep_fold reviews approved count :
  0 <= count ->
  count + Z.of_nat (length reviews) <= GoInt.maxInt ->
  fold_left Github.reviewStep reviews (approved, count) =
  (approved || existsb isApproved reviews,
   count + Z.of_nat (length (List.filter notCommented reviews))).
Proof.
  revert approved count.
  induction reviews as [|r reviews IH]; intros approved count H0 Hmax.
  - cbn. rewrite orb_false_r, Z.add_0_r. reflexivity.
  - cbn [fold_left Github.reviewStep existsb List.filter].
    assert (Hlen : Z.of_nat (length (r :: reviews)) = 1 + Z.of_nat (length reviews)).
    { cbn [length]. lia. }
    fold (isApproved r). fold (notCommented r).
    destruct (notCommented r) eqn:Hn.
    + rewrite wrap_small by lia. rewrite IH by lia.
      cbn [length]. f_equal.
      * destruct (isApproved r), approved; reflexivity.
      * lia.
    + rewrite IH by lia. f_equal.
      destruct (isApproved r), approved; reflexivity.
Qed.

(** C7. For every list of reviews the API returned (its length is an
    [int]), the review count is the number of reviews whose state is not
    COMMENTED and the approved flag holds exactly when some review has the
    state APPROVED; this count is the one the snapshot carries, and two
    snapshots with the same draft flag and the same review count are
    classified alike whatever their approved flags. *)
Theorem review_count_semantics :
  forall (reviews : list Github.Review),
    Z.of_nat (length reviews) <= GoInt.maxInt ->
    Github.checkPRApprovals (inl reviews)
    = (existsb isApproved reviews,
       Z.of_nat (length (List.filter notCommented reviews)), None)
    /\ (existsb isApproved reviews = true
        <-> exists r, In r reviews /\ Github.GetState r = "APPROVED"%string)
    /\ (forall repo l, Github.lReviews l = inl reviews ->
          Github.ReviewCount (Github.prData repo l)
          = Z.of_nat (length (List.filter notCommented reviews))
          /\ Github.Approved (Github.prData repo l) = existsb isApproved reviews)
    /\ (forall cfg pr1 pr2 age,
          Github.Draft pr1 = Github.Draft pr2 ->
          Github.ReviewCount pr1 = Github.ReviewCount pr2 ->
          Watcher.classify cfg pr1 age = Watcher.classify cfg pr2 age).
Proof.
  intros reviews Hlen.
  assert (E : Github.checkPRApprovals (inl reviews)
              = (existsb isApproved reviews,
                 Z.of_nat (length (List.filter notCommented reviews)), None)).
  { unfold Github.checkPRApprovals. rewrite reviewStep_fold by lia. reflexivity. }
  split; [exact E|]. split; [|split].
  - rewrite existsb_exists. unfold isApproved.
    split; intros (r & Hin & Hr); exists r; split; try assumption.
    + apply String.eqb_eq. exact Hr.
    + apply String.eqb_eq. exact Hr.
  - intros repo l Hl. unfold Github.prData. rewrite Hl, E. cbn. split; reflexivity.
  - intros cfg pr1 pr2 age Hd Hc. rewrite !classify_spec, Hd, Hc. reflexivity.
Qed.

Lemma review_count_semantics_witness :
  let reviews := [Github.mkReview (Some "APPROVED"%string);
                  Github.mkReview (Some "COMMENTED"%string);
                  Github.mkReview (Some "CHANGES_REQUESTED"%string);
                  Github.mkReview None] in
  Z.of_nat (length reviews) <= GoInt.maxInt
  /\ Github.checkPRApprovals (inl reviews) = (true, 3, None).
Proof.
  intros reviews.
  assert (H : Z.of_nat (length reviews) <= GoInt.maxInt) by (vm_compute; discriminate).
  split; [exact H|].
  exact (proj1 (review_count_semantics reviews H)).
Defined.

Lemma concrete_scenarios_witness :
  let cfg := Sample.cfg 0 false in
  Watcher.classify cfg (Sample.pr 7 false 0 3) (5 * Time.Hour)
  = Some Notifier.MergeReminder.
Proof.
  intros cfg.
  refine (proj1 (proj2 (proj2 (proj2
    (concrete_scenarios (Sample.unset 0 false) cfg (Sample.pr 7 false 0 3)
       _ _ _ _ _)))) _ _); reflexivity.
Defined.

(** ** Slices *)

Lemma append_view g h s x :
  GoSlice.wf h s ->
  GoSlice.view (fst (GoSlice.append g h s x)) (snd (GoSlice.append g h s x))
  = GoSlice.view h s ++ [x].
Proof.
  intros [Hlc Hcap]. unfold GoSlice.append.
  destruct (Nat.ltb_spec (GoSlice.len s) (GoSlice.cap s)) as [Hlt|Hge]; cbn [fst snd].
  - unfold GoSlice.view, GoSlice.array in *. cbn [GoSlice.ptr GoSlice.len].
    destruct (h !! GoSlice.ptr s) as [arr|] eqn:Harr; simpl in *.
    + rewrite list_lookup_insert_eq by (eapply lookup_lt_Some; eassumption).
      simpl.
      rewrite (take_S_r _ _ x) by (apply list_lookup_insert_eq; lia).
      rewrite take_insert_ge by lia. reflexivity.
    + cbn in Hcap. lia.
  - unfold GoSlice.view at 1. unfold GoSlice.array. cbn [GoSlice.ptr GoSlice.len].
    rewrite list_lookup_middle by reflexivity. simpl.
    assert (Hl : length (GoSlice.view h s) = GoSlice.len s).
    { unfold GoSlice.view. rewrite length_take. lia. }
    replace (S (GoSlice.len s)) with (length (GoSlice.view h s ++ [x]))
      by (rewrite length_app; cbn; lia).
    match goal with |- take ?n (?v ++ x :: ?pad) = _ =>
      transitivity (take n ((v ++ [x]) ++ pad));
        [rewrite <- app_assoc; reflexivity | apply take_app_length]
    end.
Qed.

Lemma append_keeps g h s x :
  GoSlice.wf h s ->
  GoSlice.view (fst (GoSlice.append g h s x)) s = GoSlice.view h s.
Proof.
  intros [Hlc Hcap]. unfold GoSlice.append.
  destruct (Nat.ltb_spec (GoSlice.len s) (GoSlice.cap s)) as [Hlt|Hge]; cbn [fst snd].
  - unfold GoSlice.view, GoSlice.array in *.
    destruct (h !! GoSlice.ptr s) as [arr|] eqn:Harr; simpl in *.
    + rewrite list_lookup_insert_eq by (eapply lookup_lt_Some; eassumption).
      simpl. apply take_insert_ge. lia.
    + lia.
  - unfold GoSlice.view, GoSlice.array in *.
    destruct (h !! GoSlice.ptr s) as [arr|] eqn:Harr; simpl in *.
    + erewrite lookup_app_l_Some by eassumption. reflexivity.
    + assert (GoSlice.len s = 0%nat) as -> by lia. reflexivity.
Qed.

(** ** The email notifier *)

Lemma sendNotification_closed env data w :
  Notifier.closed (Notifier.notifier w) = true ->
  Notifier.sendNotification env data w = (closedError, w).
Proof.
  intros H. unfold Notifier.sendNotification, Notifier.bind, Notifier.getNotifier.
  rewrite H. reflexivity.
Qed.

Lemma retryLoop_keeps env m left i w :
  let w' := snd (Notifier.retryLoop env m left i w) in
  Notifier.heap w' = Notifier.heap w /\ Notifier.notifier w' = Notifier.notifier w.
Proof.
  revert i w. induction left as [|left IH]; intros i w; cbn.
  - split; reflexivity.
  - unfold Notifier.bind, Notifier.dialAndSend.
    destruct (Notifier.DialAndSend env (Notifier.dials w) m); cbn.
    + destruct (i =? Notifier.maxRetries - 1); cbn; [split; reflexivity|].
      match goal with |- context [Notifier.retryLoop env m left ?j ?v] =>
        destruct (IH j v) as [H1 H2] end.
      cbn in *. rewrite H1, H2. split; reflexivity.
    + split; reflexivity.
Qed.

Lemma sendNotification_keeps env data w :
  let w' := snd (Notifier.sendNotification env data w) in
  Notifier.heap w' = Notifier.heap w
  /\ Notifier.config (Notifier.notifier w') = Notifier.config (Notifier.notifier w).
Proof.
  unfold Notifier.sendNotification, Notifier.bind, Notifier.getNotifier.
  destruct (Notifier.closed (Notifier.notifier w)); cbn; [split; reflexivity|].
  destruct (Notifier.skipEmails (Notifier.notifier w)); cbn; [split; reflexivity|].
  destruct (_ <? _); cbn;
    (destruct (Notifier.Execute env _); cbn; [|split; reflexivity]);
    match goal with |- context [Notifier.retryLoop env ?m ?l ?j ?v] =>
      destruct (retryLoop_keeps env m l j v) as [H1 H2] end;
    cbn in *; rewrite H1, H2; split; reflexivity.
Qed.

Lemma appendTo_spec g s x w :
  GoSlice.wf (Notifier.heap w) s ->
  let r := Notifier.appendTo g s x w in
  sameButHeap w (snd r)
  /\ GoSlice.view (Notifier.heap (snd r)) (fst r) = GoSlice.view (Notifier.heap w) s ++ [x]
  /\ GoSlice.view (Notifier.heap (snd r)) s = GoSlice.view (Notifier.heap w) s
  /\ GoSlice.wf (Notifier.heap (snd r)) s.
Proof.
  intros Hwf. unfold Notifier.appendTo.
  pose proof (append_view g (Notifier.heap w) s x Hwf) as Hv.
  pose proof (append_keeps g (Notifier.heap w) s x Hwf) as Hk.
  assert (Hw : GoSlice.wf (fst (GoSlice.append g (Notifier.heap w) s x)) s).
  { destruct Hwf as [Hlc Hcap]. split; [exact Hlc|].
    unfold GoSlice.append.
    destruct (Nat.ltb_spec (GoSlice.len s) (GoSlice.cap s)); cbn [fst];
      unfold GoSlice.array in *;
      destruct (Notifier.heap w !! GoSlice.ptr s) as [arr|] eqn:Harr; simpl in *;
      try lia.
    - rewrite list_lookup_insert_eq by (eapply lookup_lt_Some; eassumption).
      simpl. rewrite length_insert. lia.
    - erewrite lookup_app_l_Some by eassumption. simpl. lia. }
  destruct (GoSlice.append g (Notifier.heap w) s x) as [h s'].
  cbn [fst snd] in *. cbn. repeat split; try assumption; apply Hw.
Qed.

(** The escalation send is [sendNotification] on the configured recipients
    followed by the escalation address, when there is one. *)
Lemma SendEscalation_data env pr age th esc w :
  GoSlice.wf (Notifier.heap w) (Config.To (Notifier.config (Notifier.notifier w))) ->
  exists data w',
    Notifier.SendEscalation env pr age th esc w = Notifier.sendNotification env data w'
    /\ sameButHeap w w'
    /\ data = Notifier.mkNotificationData Notifier.Escalation pr age th
                (Notifier.Recipients data)
    /\ GoSlice.view (Notifier.heap w') (Notifier.Recipients data)
       = configuredTo w ++ escalationExtra esc
    /\ configuredTo w' = configuredTo w
    /\ GoSlice.wf (Notifier.heap w')
                  (Config.To (Notifier.config (Notifier.notifier w'))).
Proof.
  intros Hwf. unfold Notifier.SendEscalation, Notifier.bind, Notifier.getNotifier.
  unfold escalationExtra, configuredTo.
  destruct (String.eqb esc "") eqn:He; cbn [negb].
  - exists (Notifier.mkNotificationData Notifier.Escalation pr age th
              (Config.To (Notifier.config (Notifier.notifier w)))), w.
    split; [reflexivity|].
    split; [repeat split|]. split; [reflexivity|].
    cbn [Notifier.Recipients]. rewrite app_nil_r.
    repeat split; try reflexivity; apply Hwf.
  - destruct (appendTo_spec (Notifier.grow env) _ esc w Hwf) as (Hs & Hv & Hk & Hw).
    destruct (Notifier.appendTo _ _ esc w) as [s' w'] eqn:Ha. cbn [fst snd] in *.
    exists (Notifier.mkNotificationData Notifier.Escalation pr age th s'), w'.
    split; [reflexivity|]. split; [exact Hs|].
    split; [reflexivity|]. cbn [Notifier.Recipients].
    destruct Hs as (Hn & _). rewrite Hn.
    repeat split; try assumption; apply Hw.
Qed.

Lemma perform_keeps_To env c w :
  GoSlice.wf (Notifier.heap w) (Config.To (Notifier.config (Notifier.notifier w))) ->
  let w' := snd (Watcher.perform env c w) in
  configuredTo w' = configuredTo w
  /\ Notifier.config (Notifier.notifier w') = Notifier.config (Notifier.notifier w)
  /\ GoSlice.wf (Notifier.heap w') (Config.To (Notifier.config (Notifier.notifier w'))).
Proof.
  intros Hwf.
  assert (Hsend : forall data w0,
             GoSlice.wf (Notifier.heap w0)
                        (Config.To (Notifier.config (Notifier.notifier w0))) ->
             let w' := snd (Notifier.sendNotification env data w0) in
             configuredTo w' = configuredTo w0
             /\ Notifier.config (Notifier.notifier w') = Notifier.config (Notifier.notifier w0)
             /\ GoSlice.wf (Notifier.heap w')
                  (Config.To (Notifier.config (Notifier.notifier w')))).
  { intros data w0 H0. cbn zeta.
    destruct (sendNotification_keeps env data w0) as [Hh Hc].
    unfold configuredTo. rewrite Hh, Hc. repeat split; try reflexivity; apply H0. }
  destruct c as [pr age th|pr age th|pr age th esc|pr age th]; cbn [Watcher.perform];
    try (unfold Notifier.SendApprovalReminder, Notifier.SendMergeReminder,
           Notifier.SendDraftOverdue, Notifier.bind, Notifier.getNotifier;
         apply Hsend; exact Hwf).
  destruct (SendEscalation_data env pr age th esc w Hwf)
    as (data & w1 & -> & (Hn & _) & _ & _ & Hto & Hw1).
  destruct (Hsend data w1 Hw1) as (H1 & H2 & H3).
  cbn zeta. rewrite H1, H2, Hto, Hn. repeat split; try reflexivity.
  - rewrite <- Hn, <- H2. apply H3.
  - rewrite <- Hn, <- H2. apply H3.
Qed.

(** C9. An escalation goes to the configured recipients followed by the
    escalation address when that address is not empty, and to the
    configured recipients alone when it is; the three other kinds go to the
    configured recipients; and no send changes the configured list, so this
    holds for every later send as well. *)
Theorem escalation_recipients :
  forall (env : Notifier.Env) (w : Notifier.World) (pr : Github.PullRequest)
         (age th : Time.Duration) (esc : string),
    let to := Config.To (Notifier.config (Notifier.notifier w)) in
    GoSlice.wf (Notifier.heap w) to ->
    (exists data w',
        Notifier.SendEscalation env pr age th esc w
        = Notifier.sendNotification env data w'
        /\ sameButHeap w w'
        /\ Notifier.Type_ data = Notifier.Escalation
        /\ GoSlice.view (Notifier.heap w') (Notifier.Recipients data)
           = configuredTo w ++ (if String.eqb esc "" then [] else [esc]))
    /\ Notifier.SendApprovalReminder env pr age th w
       = Notifier.sendNotification env
           (Notifier.mkNotificationData Notifier.ApprovalReminder pr age th to) w
    /\ Notifier.SendMergeReminder env pr age th w
       = Notifier.sendNotification env
           (Notifier.mkNotificationData Notifier.MergeReminder pr age th to) w
    /\ Notifier.SendDraftOverdue env pr age th w
       = Notifier.sendNotification env
           (Notifier.mkNotificationData Notifier.DraftOverdue pr age th to) w
    /\ (forall c : Watcher.Call,
          let w' := snd (Watcher.perform env c w) in
          configuredTo w' = configuredTo w
          /\ GoSlice.wf (Notifier.heap w')
                        (Config.To (Notifier.config (Notifier.notifier w')))).
Proof.
  intros env w pr age th esc to Hwf.
  split.
  { destruct (SendEscalation_data env pr age th esc w Hwf)
      as (data & w' & E & Hs & Hd & Hv & _).
    exists data, w'. repeat split; try assumption; try apply Hs.
    rewrite Hd. reflexivity. }
  split; [reflexivity|]. split; [reflexivity|]. split; [reflexivity|].
  intros c. destruct (perform_keeps_To env c w Hwf) as (H1 & H2 & H3).
  split; assumption.
Qed.

Lemma escalation_recipients_witness :
  let w := Sample.world 0 false 0 in
  let pr := Sample.pr 7 false 0 3 in
  GoSlice.wf (Notifier.heap w) (Config.To (Notifier.config (Notifier.notifier w)))
  /\ configuredTo
       (snd (Watcher.perform (Sample.env true)
               (Watcher.SendEscalation pr 7 6 "lead@example.test") w))
     = ["dev@example.test"; "qa@example.test"]%string.
Proof.
  intros w pr.
  assert (H : GoSlice.wf (Notifier.heap w)
                (Config.To (Notifier.config (Notifier.notifier w))))
    by (split; cbn; lia).
  split; [exact H|].
  exact (proj1 (proj2 (proj2 (proj2 (proj2
    (escalation_recipients (Sample.env true) w pr 7 6 "lead@example.test" H))))
    (Watcher.SendEscalation pr 7 6 "lead@example.test"))).
Defined.

(** A delivered escalation carries the three addresses, and the
    configured list still shows two. *)
Example escalation_delivered :
  let w := Sample.world 0 false 0 in
  let w' := snd (Watcher.perform (Sample.env true)
                   (Watcher.SendEscalation (Sample.pr 7 false 0 3) 7 6
                                           "lead@example.test") w) in
  map Notifier.hTo (Notifier.outbox w')
  = [["dev@example.test"; "qa@example.test"; "lead@example.test"]%string]
  /\ configuredTo w' = ["dev@example.test"; "qa@example.test"]%string.
Proof. vm_compute. split; reflexivity. Qed.

Lemma perform_closed env c w :
  Notifier.closed (Notifier.notifier w) = true ->
  fst (Watcher.perform env c w) = closedError
  /\ sameButHeap w (snd (Watcher.perform env c w)).
Proof.
  intros Hc.
  destruct c as [pr age th|pr age th|pr age th esc|pr age th]; cbn [Watcher.perform];
    try (unfold Notifier.SendApprovalReminder, Notifier.SendMergeReminder,
           Notifier.SendDraftOverdue, Notifier.bind, Notifier.getNotifier;
         rewrite sendNotification_closed by exact Hc;
         cbn [fst snd]; repeat split; reflexivity).
  unfold Notifier.SendEscalation, Notifier.bind, Notifier.getNotifier.
  destruct (negb (String.eqb esc "")).
  - unfold Notifier.appendTo.
    destruct (GoSlice.append _ _ _ _) as [h s'].
    rewrite sendNotification_closed by exact Hc.
    cbn [fst snd]. repeat split; reflexivity.
  - unfold Notifier.ret. cbv beta iota.
    rewrite sendNotification_closed by exact Hc.
    cbn [fst snd]. repeat split; reflexivity.
Qed.

Lemma performAll_closed env calls w :
  Notifier.closed (Notifier.notifier w) = true ->
  fst (performAll env calls w) = map (fun _ => closedError) calls
  /\ sameButHeap w (snd (performAll env calls w)).
Proof.
  revert w. induction calls as [|c calls IH]; intros w Hc; cbn [performAll map].
  - cbn. repeat split; reflexivity.
  - destruct (perform_closed env c w Hc) as [Hr Hs].
    destruct (Watcher.perform env c w) as [r w1]. cbn [fst snd] in *.
    assert (Hc1 : Notifier.closed (Notifier.notifier w1) = true).
    { destruct Hs as (Hn & _). rewrite Hn. exact Hc. }
    destruct (IH w1 Hc1) as [Hrs Hs1].
    destruct (performAll env calls w1) as [rs w2]. cbn [fst snd] in *.
    subst r rs. split; [reflexivity|].
    destruct Hs as (A1 & A2 & A3 & A4 & A5), Hs1 as (B1 & B2 & B3 & B4 & B5).
    repeat split; congruence.
Qed.

Lemma Close_spec w :
  let w1 := snd (Notifier.Close w) in
  Notifier.closed (Notifier.notifier w1) = true
  /\ Notifier.lastSent (Notifier.notifier w1) = Notifier.lastSent (Notifier.notifier w)
  /\ Notifier.now w1 = Notifier.now w
  /\ Notifier.dials w1 = Notifier.dials w
  /\ Notifier.outbox w1 = Notifier.outbox w
  /\ Notifier.console w1 = Notifier.console w
  /\ Notifier.Close w1 = (tt, w1).
Proof.
  unfold Notifier.Close, Notifier.bind, Notifier.getNotifier.
  destruct (Notifier.closed (Notifier.notifier w)) eqn:Hc; cbn.
  - rewrite Hc. repeat split; reflexivity.
  - repeat split; reflexivity.
Qed.

(** C10. Once [Close] has run, every later send of any of the four kinds
    returns the error of a closed notifier, makes no dial, delivers and
    prints nothing and leaves the notifier, hence its rate-limit clock,
    as [Close] left it, which is the clock before [Close]; and a second
    [Close] changes nothing. *)
Theorem closed_notifier_refuses :
  forall (env : Notifier.Env) (w : Notifier.World) (calls : list Watcher.Call),
    let w1 := snd (Notifier.Close w) in
    let answers := fst (performAll env calls w1) in
    let w2 := snd (performAll env calls w1) in
    answers = map (fun _ => closedError) calls
    /\ Notifier.outbox w2 = Notifier.outbox w
    /\ Notifier.dials w2 = Notifier.dials w
    /\ Notifier.console w2 = Notifier.console w
    /\ Notifier.now w2 = Notifier.now w
    /\ Notifier.notifier w2 = Notifier.notifier w1
    /\ Notifier.lastSent (Notifier.notifier w2) = Notifier.lastSent (Notifier.notifier w)
    /\ Notifier.Close w1 = (tt, w1)
    /\ Notifier.Close w2 = (tt, w2).
Proof.
  intros env w calls w1 answers w2.
  destruct (Close_spec w) as (Hc & Hl & Hn & Hd & Ho & Hp & Hi). fold w1 in Hc, Hl, Hn, Hd, Ho, Hp, Hi.
  destruct (performAll_closed env calls w1 Hc) as [Ha (S1 & S2 & S3 & S4 & S5)].
  fold answers in Ha. fold w2 in S1, S2, S3, S4, S5.
  repeat split; try congruence.
  unfold Notifier.Close, Notifier.bind, Notifier.getNotifier.
  rewrite S1, Hc. reflexivity.
Qed.

(** ** The batch *)

Import Watcher Batch.

Lemma step_case env cfg a s evs s' :
  step env cfg a s = Some (evs, s') -> StepCase env cfg s a evs s'.
Proof.
  intros H. destruct a; unfold step in H; repeat case_match; simplify_eq;
    try match goal with
        | H : (_ && _) = true |- _ => apply andb_true_iff in H; destruct H
        end;
    try match goal with H : negb _ = true |- _ => apply negb_true_iff in H end;
    repeat match goal with
           | H : (_ <? _)%nat = true |- _ => apply Nat.ltb_lt in H
           end;
    econstructor; eauto.
Qed.

Lemma case_step env cfg a s evs s' :
  StepCase env cfg s a evs s' -> step env cfg a s = Some (evs, s').
Proof.
  intros H. destruct H; unfold step;
    repeat match goal with
           | H : _ = _ |- _ => rewrite H
           | H : (_ < _)%nat |- _ => apply Nat.ltb_lt in H; rewrite H
           end; try reflexivity.
Qed.

(** *** Traces *)

Lemma done_app tr evs : done (tr ++ evs) = done tr ++ done evs.
Proof. apply flat_map_app. Qed.

Lemma donePRs_app tr evs : donePRs (tr ++ evs) = donePRs tr ++ donePRs evs.
Proof. unfold donePRs. rewrite done_app. apply map_app. Qed.

Lemma results_app tr evs : results (tr ++ evs) = results tr ++ results evs.
Proof. unfold results. rewrite done_app. apply map_app. Qed.

Lemma begun_app tr evs : begun (tr ++ evs) = begun tr ++ begun evs.
Proof. apply flat_map_app. Qed.

Lemma dropped_app tr evs : dropped (tr ++ evs) = dropped tr ++ dropped evs.
Proof. apply flat_map_app. Qed.

Lemma cancelSeen_app tr evs : cancelSeen (tr ++ evs) = cancelSeen tr || cancelSeen evs.
Proof. apply existsb_app. Qed.

Lemma lateBegins_app c tr evs :
  lateBegins c (tr ++ evs) = lateBegins c tr ++ lateBegins (c || cancelSeen tr) evs.
Proof.
  revert c. induction tr as [|e tr IH]; intros c; cbn.
  - rewrite orb_false_r. reflexivity.
  - destruct e; cbn; rewrite ?IH, ?orb_false_l, ?orb_true_r, ?app_assoc; reflexivity.
Qed.

Lemma lateDone_app c tr evs :
  lateDone c (tr ++ evs) = lateDone c tr ++ lateDone (c || cancelSeen tr) evs.
Proof.
  revert c. induction tr as [|e tr IH]; intros c; cbn.
  - rewrite orb_false_r. reflexivity.
  - destruct e; cbn; rewrite ?IH, ?orb_false_l, ?orb_true_r, ?app_assoc; reflexivity.
Qed.

(** *** Workers *)

Lemma insert_split (ws : list Worker) i wk :
  ws !! i = Some wk ->
  exists l1 l2, ws = l1 ++ wk :: l2 /\ forall wk', <[i := wk']> ws = l1 ++ wk' :: l2.
Proof.
  intros H. exists (take i ws), (drop (S i) ws). split.
  - symmetry. apply take_drop_middle. exact H.
  - intros wk'. apply insert_take_drop. eapply lookup_lt_Some. exact H.
Qed.

Lemma held_app l1 l2 : held (l1 ++ l2) = held l1 ++ held l2.
Proof. apply flat_map_app. Qed.

Lemma processing_app l1 l2 : processing (l1 ++ l2) = processing l1 ++ processing l2.
Proof. apply flat_map_app. Qed.

Lemma held_cons wk l : held (wk :: l) = inHand wk ++ held l.
Proof. reflexivity. Qed.

Lemma processing_cons wk l : processing (wk :: l) = inFlight wk ++ processing l.
Proof. reflexivity. Qed.

Lemma all_done_idle ws :
  forallb isDone ws = true -> held ws = [] /\ processing ws = [].
Proof.
  induction ws as [|wk ws IH]; cbn; [split; reflexivity|].
  intros H. apply andb_true_iff in H as [Hd Hr].
  destruct wk; try discriminate. cbn. apply IH, Hr.
Qed.

(** *** One evaluation *)

Lemma run_processPR_age env cfg pr w r obs w' :
  run env (processPR cfg pr) w = (r, obs, w') ->
  let age := Time.Sub (Notifier.now w) (Github.CreatedAt pr) in
  match classify cfg pr age with
  | None => obs = [ObsAge age] /\ r = emptyResult
  | Some k =>
      exists c err, kindOf c = k /\ obs = [ObsAge age; ObsCall c err]
                    /\ r = outcome k pr err
  end.
Proof.
  unfold classify, processPR. cbn [run callsOf].
  set (age := Time.Sub (Notifier.now w) (Github.CreatedAt pr)).
  cbv zeta.
  destruct (Github.Draft pr); split_tests; cbn [andb run callsOf kindOf];
    intros Hrun;
    repeat match type of Hrun with
           | context [perform env ?c ?w] =>
               let e := fresh "err" in let w1 := fresh "w" in
               destruct (perform env c w) as [e w1]; destruct e
           end;
    cbn [run] in Hrun; inversion Hrun; subst;
    try (split; reflexivity);
    eexists _, _; (split; [|split; [reflexivity|]]); reflexivity.
Qed.

Lemma run_processPR env cfg pr w r obs w' :
  run env (processPR cfg pr) w = (r, obs, w') ->
  doneOK cfg (pr, obs, r)
  /\ obsAge obs = Time.Sub (Notifier.now w) (Github.CreatedAt pr).
Proof.
  intros H. apply run_processPR_age in H. cbv zeta in H.
  set (age := Time.Sub (Notifier.now w) (Github.CreatedAt pr)) in *.
  assert (Ha : obsAge obs = age).
  { destruct (classify cfg pr age).
    - destruct H as (c & err & _ & -> & _). reflexivity.
    - destruct H as (-> & _). reflexivity. }
  split; [|exact Ha]. unfold doneOK. rewrite Ha. exact H.
Qed.

(** C1. Rule evaluation is a function of the snapshot, the thresholds and
    the age alone, and its single action is the one of the first matching
    rule of the priority order: draft and overdue gives DraftOverdue; draft
    and not overdue gives nothing; otherwise age past the merge time gives
    Escalation; otherwise fewer than two reviews and age past the approval
    time gives ApprovalReminder; otherwise two or more reviews and age past
    the merge-reminder time gives MergeReminder; otherwise nothing.
    Whatever the notifier answers, [processPR] makes exactly the call of
    that action and no other; and run in any world, whatever happened
    there before, it reads the age off the clock and returns the result
    of that action alone. *)
Theorem rule_priority :
  forall (cfg : Config.Config) (pr : Github.PullRequest) (age : Time.Duration)
         (answer : Watcher.Call -> option Errors.error),
    let r := Config.Rules cfg in
    let draft := Github.Draft pr in
    let reviews := Github.ReviewCount pr in
    let act := Watcher.classify cfg pr age in
    act = Spec.action r draft reviews age
    /\ map Watcher.kindOf (Watcher.callsOf age answer (Watcher.processPR cfg pr))
       = match act with None => [] | Some k => [k] end
    /\ (forall env w,
          let out := run env (processPR cfg pr) w in
          doneOK cfg (pr, out.1.2, out.1.1)
          /\ obsAge out.1.2 = Time.Sub (Notifier.now w) (Github.CreatedAt pr))
    /\ (draft = true /\ Config.DraftTime r <= age -> act = Some Notifier.DraftOverdue)
    /\ (draft = true /\ age < Config.DraftTime r -> act = None)
    /\ (draft = false /\ Config.MergeTime r <= age -> act = Some Notifier.Escalation)
    /\ (draft = false /\ age < Config.MergeTime r /\ reviews < 2
        /\ Config.ApprovalTime r <= age -> act = Some Notifier.ApprovalReminder)
    /\ (draft = false /\ age < Config.MergeTime r /\ 2 <= reviews
        /\ Config.MergeReminderTime r <= age -> act = Some Notifier.MergeReminder)
    /\ (draft = false /\ age < Config.MergeTime r
        /\ ~ (reviews < 2 /\ Config.ApprovalTime r <= age)
        /\ ~ (2 <= reviews /\ Config.MergeReminderTime r <= age) -> act = None).
Proof.
  intros cfg pr age answer r draft reviews act.
  split; [apply classify_spec|].
  split; [apply processPR_calls|].
  split.
  { intros env w out. apply (run_processPR env cfg pr w out.1.1 out.1.2 out.2).
    subst out. destruct (run env (processPR cfg pr) w) as [[? ?] ?]. reflexivity. }
  subst act. rewrite classify_spec. fold r draft reviews.
  unfold Spec.action, Spec.rules.
  repeat split; intros H; destruct draft; cbn; split_tests; cbn;
    try reflexivity; try lia; try (destruct H; discriminate).
Qed.

(** *** The invariant *)

Lemma held_idle n : held (replicate n WRange) = [].
Proof. induction n; cbn; auto. Qed.

Lemma processing_idle n : processing (replicate n WRange) = [].
Proof. induction n; cbn; auto. Qed.

Lemma none_done_idle n : existsb isDone (replicate n WRange) = false.
Proof. induction n; cbn; auto. Qed.

Lemma inv_init cfg prs c ctxDone w :
  Inv cfg prs ctxDone [] (processPRsConcurrently prs c ctxDone w).
Proof.
  constructor; cbn.
  - rewrite held_idle, !app_nil_r. reflexivity.
  - exists []. split; reflexivity.
  - reflexivity.
  - rewrite processing_idle. reflexivity.
  - rewrite orb_false_r. reflexivity.
  - reflexivity.
  - reflexivity.
  - rewrite none_done_idle. discriminate.
  - discriminate.
  - discriminate.
  - constructor.
Qed.

Ltac split_worker :=
  match goal with
  | H : workers ?s !! ?i = Some ?wk |- _ =>
      let l1 := fresh "l1" in
      let l2 := fresh "l2" in
      let Hws := fresh "Hws" in
      let Hins := fresh "Hins" in
      destruct (insert_split _ _ _ H) as (l1 & l2 & Hws & Hins);
      clear H; rewrite ?Hins; rewrite Hws in *; clear Hins
  end.

Ltac norm_lists :=
  repeat first
    [ rewrite donePRs_app | rewrite dropped_app | rewrite results_app
    | rewrite begun_app | rewrite done_app | rewrite cancelSeen_app
    | rewrite held_app | rewrite held_cons
    | rewrite processing_app | rewrite processing_cons
    | rewrite forallb_app | rewrite existsb_app ];
  cbn [donePRs results done begun dropped cancelSeen flat_map map existsb forallb
       doneOf begunOf droppedOf isCancel inHand inFlight isDone fst snd
       unsent default from_option id app].

Lemma inv_step env cfg prs ctxDone tr s a evs s' :
  Inv cfg prs ctxDone tr s ->
  StepCase env cfg s a evs s' ->
  Inv cfg prs ctxDone (tr ++ evs) s'.
Proof.
  intros [Hcons (dr & Hres & Htot) Hcap Hbeg Hcan Hdrop Hlate Hexit Hclosed Hret Hdone] Hs.
  unfold unsent in *.
  destruct Hs; constructor; unfold unsent;
    cbn [feeder prChan workers resultChan resultClosed
    totalResult returned cancelled chanCap world setFeeder setWorker setPrChan
    setResults setCancelled setWorld]; rewrite ?app_nil_r; try assumption.
  all: try split_worker.
  all: repeat match goal with
              | H : feeder _ = _ |- _ => rewrite H in *
              | H : prChan _ = _ |- _ => rewrite H in *
              | H : resultChan _ = _ |- _ => rewrite H in *
              | H : cancelled _ = true |- _ => rewrite H in *
              | H : cancelled _ = false |- _ => rewrite H in *
              | H : resultClosed _ = _ |- _ => rewrite H in *
              | H : returned _ = _ |- _ => rewrite H in *
              end.
  all: norm_lists.
  all: repeat match goal with
         | H : context [held (_ ++ _)] |- _ => rewrite held_app, held_cons in H
         | H : context [processing (_ ++ _)] |- _ =>
             rewrite processing_app, processing_cons in H
         | H : context [forallb _ (_ ++ _)] |- _ => rewrite forallb_app in H
         | H : context [existsb _ (_ ++ _)] |- _ => rewrite existsb_app in H
         end.
  all: cbn [inHand inFlight isDone forallb existsb default from_option id app] in *.
  all: rewrite ?app_nil_r, ?orb_false_r.
  all: try match goal with
           | |- _ ≡ₚ _ => first [rewrite Hcons | rewrite Hbeg]; solve_Permutation
           end.
  all: try (exists dr; split; [first [assumption | rewrite Hres, app_assoc; reflexivity]
                              | assumption]).
  all: try (rewrite lateBegins_app, Hlate; cbn; rewrite <- ?Hcan; reflexivity).
  all: try (apply Forall_app; split; [assumption|];
            repeat constructor; eapply run_processPR; eassumption).
  all: try (exists (dr ++ [r]); rewrite fold_left_app, <- Htot, Hres, <- app_assoc;
            split; reflexivity).
  all: try assumption.
  all: try solve
         [ intros;
           repeat match goal with
                  | H : ?P -> _, H' : ?P |- _ => specialize (H H')
                  | H : _ /\ _ |- _ => destruct H
                  end;
           repeat match goal with
                  | H : context [forallb isDone ?l] |- _ => destruct (forallb isDone l)
                  | H : context [existsb isDone ?l] |- _ => destruct (existsb isDone l)
                  | |- context [forallb isDone ?l] => destruct (forallb isDone l)
                  end;
           cbn [andb orb] in *; rewrite ?orb_true_r in *;
           repeat match goal with
                  | H : ?x = ?x -> _ |- _ => specialize (H eq_refl)
                  | H : _ /\ _ |- _ => destruct H
                  end;
           try discriminate; try congruence; auto ].
Qed.

Lemma exec_step env cfg a sched s evs s' :
  exec env cfg (a :: sched) s = Some (evs, s') ->
  exists evs1 s1 evs2,
    step env cfg a s = Some (evs1, s1)
    /\ exec env cfg sched s1 = Some (evs2, s') /\ evs = evs1 ++ evs2.
Proof.
  cbn [exec]. intros H.
  destruct (step env cfg a s) as [[evs1 s1]|]; [|discriminate].
  destruct (exec env cfg sched s1) as [[evs2 s2]|] eqn:He; [|discriminate].
  inversion H; subst. exists evs1, s1, evs2. repeat split; assumption.
Qed.

Lemma exec_app env cfg sched1 sched2 s evs1 s1 evs2 s2 :
  exec env cfg sched1 s = Some (evs1, s1) ->
  exec env cfg sched2 s1 = Some (evs2, s2) ->
  exec env cfg (sched1 ++ sched2) s = Some (evs1 ++ evs2, s2).
Proof.
  revert s evs1. induction sched1 as [|a sched1 IH]; intros s evs1 H1 H2.
  - cbn in H1. inversion H1; subst. exact H2.
  - apply exec_step in H1 as (e1 & s' & e2 & Hs & He & ->).
    cbn [exec app]. rewrite Hs. rewrite (IH _ _ He H2), app_assoc. reflexivity.
Qed.

Lemma inv_exec env cfg prs ctxDone sched tr s evs s' :
  Inv cfg prs ctxDone tr s ->
  exec env cfg sched s = Some (evs, s') ->
  Inv cfg prs ctxDone (tr ++ evs) s'.
Proof.
  revert tr s evs. induction sched as [|a sched IH]; intros tr s evs Hinv H.
  - cbn in H. inversion H; subst. rewrite app_nil_r. exact Hinv.
  - apply exec_step in H as (e1 & s1 & e2 & Hs & He & ->).
    rewrite app_assoc. eapply IH; [|exact He].
    eapply inv_step; [exact Hinv|]. apply step_case. exact Hs.
Qed.

Lemma inv_reach env cfg prs c ctxDone w sched evs s :
  exec env cfg sched (processPRsConcurrently prs c ctxDone w) = Some (evs, s) ->
  Inv cfg prs ctxDone evs s.
Proof.
  intros H. change evs with ([] ++ evs). eapply inv_exec; [|exact H]. apply inv_init.
Qed.

Lemma step_workers env cfg a s evs s' :
  step env cfg a s = Some (evs, s') ->
  length (workers s') = length (workers s)
  /\ cancelSeen evs = isCancelAction a.
Proof.
  intros H. apply step_case in H. destruct H; cbn; rewrite ?length_insert; auto.
Qed.

Lemma exec_workers env cfg sched s evs s' :
  exec env cfg sched s = Some (evs, s') ->
  length (workers s') = length (workers s)
  /\ cancelSeen evs = existsb isCancelAction sched.
Proof.
  revert s evs. induction sched as [|a sched IH]; intros s evs H.
  - cbn in H. inversion H; subst. auto.
  - apply exec_step in H as (e1 & s1 & e2 & Hs & He & ->).
    apply step_workers in Hs as [L1 C1]. apply IH in He as [L2 C2].
    rewrite cancelSeen_app, C1, C2, L2, L1. auto.
Qed.

(** *** Accounting *)

Lemma doneOK_cases cfg pr obs r :
  doneOK cfg (pr, obs, r) ->
  (classify cfg pr (obsAge obs) = None
   /\ dispatchOf (pr, obs, r) = [] /\ r = emptyResult)
  \/ (exists c err,
         classify cfg pr (obsAge obs) = Some (kindOf c)
         /\ dispatchOf (pr, obs, r) = [(pr, c, err)]
         /\ r = outcome (kindOf c) pr err).
Proof.
  unfold doneOK. destruct (classify cfg pr (obsAge obs)) as [k|].
  - intros (c & err & <- & Hobs & ->). right. exists c, err.
    split; [reflexivity|]. split; [|reflexivity].
    unfold dispatchOf. cbn [fst snd]. rewrite Hobs. reflexivity.
  - intros (Hobs & ->). left. split; [reflexivity|]. split; [|reflexivity].
    unfold dispatchOf. cbn [fst snd]. rewrite Hobs. reflexivity.
Qed.

Lemma count_app {A} (f : A -> bool) l1 l2 :
  count f (l1 ++ l2) = count f l1 + count f l2.
Proof. unfold count. rewrite List.filter_app, length_app. lia. Qed.

Lemma count_bounds {A} (f : A -> bool) l : 0 <= count f l <= Z.of_nat (length l).
Proof.
  unfold count. pose proof (List.filter_length_le f l). lia.
Qed.

(** The totals after the evaluations [ds], from the totals [acc] before. *)
Lemma fold_done cfg ds acc :
  Forall (doneOK cfg) ds ->
  (forall f, In f [ApprovalReminders; MergeReminders; Escalations; DraftOverdue] ->
             0 <= f acc /\ f acc + Z.of_nat (length ds) <= GoInt.maxInt) ->
  fold_left (accumulate) (map (fun d => d.2) ds) acc
  = mkNotificationResult
      (ApprovalReminders acc
       + count (succeeded Notifier.ApprovalReminder) (flat_map dispatchOf ds))
      (MergeReminders acc
       + count (succeeded Notifier.MergeReminder) (flat_map dispatchOf ds))
      (Escalations acc
       + count (succeeded Notifier.Escalation) (flat_map dispatchOf ds))
      (DraftOverdue acc
       + count (succeeded Notifier.DraftOverdue) (flat_map dispatchOf ds))
      (Errors acc ++ flat_map failureOf (flat_map dispatchOf ds)).
Proof.
  revert acc. induction ds as [|[[pr obs] r] ds IH]; intros acc Hok Hb.
  - cbn. unfold count. cbn. rewrite !Z.add_0_r, app_nil_r. destruct acc; reflexivity.
  - inversion Hok as [|? ? Hd Hds]; subst.
    assert (B1 := Hb ApprovalReminders ltac:(cbn; auto)).
    assert (B2 := Hb MergeReminders ltac:(cbn; auto)).
    assert (B3 := Hb Escalations ltac:(cbn; auto)).
    assert (B4 := Hb DraftOverdue ltac:(cbn; auto 6)).
    cbn [length] in B1, B2, B3, B4.
    cbn [map fold_left flat_map snd].
    assert (Hstep :
      accumulate acc r
      = mkNotificationResult
          (ApprovalReminders acc
           + count (succeeded Notifier.ApprovalReminder) (dispatchOf (pr, obs, r)))
          (MergeReminders acc
           + count (succeeded Notifier.MergeReminder) (dispatchOf (pr, obs, r)))
          (Escalations acc
           + count (succeeded Notifier.Escalation) (dispatchOf (pr, obs, r)))
          (DraftOverdue acc
           + count (succeeded Notifier.DraftOverdue) (dispatchOf (pr, obs, r)))
          (Errors acc ++ flat_map failureOf (dispatchOf (pr, obs, r)))).
    { destruct (doneOK_cases _ _ _ _ Hd) as [(_ & -> & ->)|(c & err & _ & -> & ->)].
      - unfold accumulate, count. cbn.
        rewrite !Z.add_0_r, app_nil_r, !wrap_small by lia. reflexivity.
      - unfold accumulate, count.
        destruct err as [e|], c; cbn;
          rewrite ?wrap_one, ?Z.add_0_r, ?app_nil_r;
          rewrite !wrap_small by lia; reflexivity. }
    rewrite Hstep. clear Hstep.
    pose proof (count_bounds (succeeded Notifier.ApprovalReminder) (dispatchOf (pr, obs, r))).
    pose proof (count_bounds (succeeded Notifier.MergeReminder) (dispatchOf (pr, obs, r))).
    pose proof (count_bounds (succeeded Notifier.Escalation) (dispatchOf (pr, obs, r))).
    pose proof (count_bounds (succeeded Notifier.DraftOverdue) (dispatchOf (pr, obs, r))).
    assert (Hlen : (length (dispatchOf (pr, obs, r)) <= 1)%nat).
    { unfold dispatchOf. destruct (obsCall _) as [[? ?]|]; cbn; lia. }
    rewrite IH; [| exact Hds |].
    + cbn [ApprovalReminders MergeReminders Escalations DraftOverdue Errors].
      rewrite !count_app, flat_map_app, <- !app_assoc. f_equal; lia.
    + intros f Hf. cbn in Hf.
      destruct Hf as [<-|[<-|[<-|[<-|[]]]]]; cbn; lia.
Qed.

Lemma classified_dispatches cfg k ds :
  Forall (doneOK cfg) ds ->
  count (fun d => kind_eqb (kindOf d.1.2) k) (flat_map dispatchOf ds)
  = count (classifiedAs cfg k) (map (fun d => (d.1.1, obsAge d.1.2)) ds)
  /\ Z.of_nat (length (flat_map dispatchOf ds))
     = count (actionable cfg) (map (fun d => (d.1.1, obsAge d.1.2)) ds).
Proof.
  induction 1 as [|[[pr obs] r] ds Hd Hds [IH1 IH2]].
  - split; reflexivity.
  - cbn [flat_map map fst snd]. rewrite count_app, length_app, Nat2Z.inj_add.
    change (?x :: map ?f ds) with ([x] ++ map f ds). rewrite !count_app.
    rewrite IH1, IH2. unfold classifiedAs, actionable, count. cbn [List.filter fst snd].
    destruct (doneOK_cases _ _ _ _ Hd) as [(-> & -> & _)|(c & err & -> & -> & _)].
    + split; reflexivity.
    + cbn [List.filter fst snd length].
      destruct (kind_eqb (kindOf c) k); split; reflexivity.
Qed.

Lemma all_succeeded k (l : list (PR * Call * option Errors.error)) :
  Forall (fun d => d.2 = None) l ->
  count (succeeded k) l = count (fun d => kind_eqb (kindOf d.1.2) k) l
  /\ flat_map failureOf l = [].
Proof.
  induction 1 as [|[[pr c] err] l Hd Hl [IH1 IH2]].
  - split; reflexivity.
  - cbn in Hd. subst err. change (?x :: l) with ([x] ++ l).
    rewrite !count_app, flat_map_app, IH1, IH2. unfold count, succeeded, failureOf.
    cbn. rewrite andb_true_r. split; reflexivity.
Qed.


Lemma actionable_kinds cfg (l : list (PR * Time.Duration)) :
  count (actionable cfg) l
  = count (classifiedAs cfg Notifier.ApprovalReminder) l
    + count (classifiedAs cfg Notifier.MergeReminder) l
    + count (classifiedAs cfg Notifier.Escalation) l
    + count (classifiedAs cfg Notifier.DraftOverdue) l.
Proof.
  induction l as [|e l IH]; [reflexivity|].
  assert (Hone :
    count (actionable cfg) [e]
    = count (classifiedAs cfg Notifier.ApprovalReminder) [e]
      + count (classifiedAs cfg Notifier.MergeReminder) [e]
      + count (classifiedAs cfg Notifier.Escalation) [e]
      + count (classifiedAs cfg Notifier.DraftOverdue) [e]).
  { unfold count, actionable, classifiedAs. cbn [List.filter].
    destruct (classify cfg e.1 e.2) as [[]|]; reflexivity. }
  change (e :: l) with ([e] ++ l). rewrite !count_app. lia.
Qed.

Lemma all_done_some (ws : list Worker) :
  forallb isDone ws = true -> (0 < length ws)%nat -> existsb isDone ws = true.
Proof.
  destruct ws as [|wk ws]; cbn; [lia|].
  intros H _. apply andb_true_iff in H as [-> _]. reflexivity.
Qed.

(** What a batch that has returned leaves. *)
Lemma batch_final env cfg prs c ctxDone w sched evs s :
  exec env cfg sched (processPRsConcurrently prs c ctxDone w) = Some (evs, s) ->
  returned s = true ->
  Z.of_nat (length prs) <= GoInt.maxInt ->
  totalResult s
  = mkNotificationResult
      (successes Notifier.ApprovalReminder evs) (successes Notifier.MergeReminder evs)
      (successes Notifier.Escalation evs) (successes Notifier.DraftOverdue evs)
      (failures evs)
  /\ begun evs ≡ₚ donePRs evs
  /\ donePRs evs ⊆+ prs
  /\ lateBegins ctxDone evs = []
  /\ Forall (doneOK cfg) (done evs)
  /\ (1 <= c -> cancelled s = false -> donePRs evs ≡ₚ prs).
Proof.
  intros Hexec Hret Hmax.
  pose proof (inv_reach _ _ _ _ _ _ _ _ _ Hexec)
    as [Hcons (dr & Hres & Htot) Hcap Hbeg Hcan Hdrop Hlate Hexit Hclosed Hretd Hdone].
  destruct (Hretd Hret) as [Hrc Hempty].
  pose proof (Hclosed Hrc) as Hall.
  destruct (all_done_idle _ Hall) as [Hheld Hproc].
  rewrite Hheld in Hcons. rewrite Hproc in Hbeg. cbn [app] in Hcons, Hbeg.
  rewrite Hempty, app_nil_r in Hres. subst dr.
  assert (Hsub : donePRs evs ⊆+ prs).
  { rewrite Hcons. solve_submseteq. }
  assert (Hlen : (length (done evs) <= length prs)%nat).
  { apply submseteq_length in Hsub. unfold donePRs in Hsub.
    rewrite length_map in Hsub. exact Hsub. }
  split.
  { rewrite Htot. unfold results. rewrite (fold_done cfg); [reflexivity|exact Hdone|].
    intros f Hf. cbn in Hf. destruct Hf as [<-|[<-|[<-|[<-|[]]]]]; cbn; lia. }
  split; [exact Hbeg|]. split; [exact Hsub|]. split; [exact Hlate|].
  split; [exact Hdone|].
  intros Hc Hnc.
  destruct (exec_workers _ _ _ _ _ _ Hexec) as [Hw _].
  cbn [workers processPRsConcurrently] in Hw. rewrite length_replicate in Hw.
  assert (Hsome : existsb isDone (workers s) = true).
  { apply all_done_some; [exact Hall|]. lia. }
  destruct (Hexit Hnc Hsome) as [Hf Hq].
  unfold unsent in Hcons. rewrite Hf, Hq, (Hdrop Hnc) in Hcons. cbn in Hcons.
  rewrite app_nil_r in Hcons. symmetry. exact Hcons.
Qed.

(** ** The batch: results *)

Lemma workerCount_pos cfg : 1 <= workerCount cfg.
Proof. unfold workerCount. destruct (Z.leb_spec (Config.Concurrency (Config.Debug cfg)) 0); lia. Qed.

Lemma evaluations_prs tr : map fst (evaluations tr) = donePRs tr.
Proof. unfold evaluations, donePRs. rewrite map_map. reflexivity. Qed.

(** C2. For every batch of snapshots and every configured worker count,
    under every schedule that runs the batch to its return with no
    cancellation and no failed dispatch: the snapshots evaluated are the
    input snapshots, each once; each counter of the run result is the
    number of snapshots classified as its kind; and the four counters
    add up to the number of snapshots whose classification is an action. *)
Theorem count_conservation :
  forall (env : Notifier.Env) (cfg : Config.Config) (prs : list Github.PullRequest)
         (w : Notifier.World) (sched : list Action) (evs : list Event) (s : PState),
    exec env cfg sched (processPRsConcurrently prs (workerCount cfg) false w)
    = Some (evs, s) ->
    returned s = true ->
    existsb isCancelAction sched = false ->
    Forall (fun d => d.2 = None) (dispatches evs) ->
    Z.of_nat (length prs) <= GoInt.maxInt ->
    let total := totalResult s in
    let evals := evaluations evs in
    map fst evals ≡ₚ prs
    /\ sent total = count (actionable cfg) evals
    /\ ApprovalReminders total = count (classifiedAs cfg Notifier.ApprovalReminder) evals
    /\ MergeReminders total = count (classifiedAs cfg Notifier.MergeReminder) evals
    /\ Escalations total = count (classifiedAs cfg Notifier.Escalation) evals
    /\ DraftOverdue total = count (classifiedAs cfg Notifier.DraftOverdue) evals
    /\ Errors total = [].
Proof.
  intros env cfg prs w sched evs s Hexec Hret Hnc Hok Hmax total evals.
  destruct (batch_final _ _ _ _ _ _ _ _ _ Hexec Hret Hmax)
    as (Htot & _ & _ & _ & Hdone & Hall).
  pose proof (inv_reach _ _ _ _ _ _ _ _ _ Hexec) as Hinv.
  destruct (exec_workers _ _ _ _ _ _ Hexec) as [_ Hseen].
  assert (Hcan : cancelled s = false).
  { rewrite (inv_cancel _ _ _ _ _ Hinv), Hseen, Hnc. reflexivity. }
  assert (Hk : forall k, successes k evs = count (classifiedAs cfg k) evals).
  { intros k. unfold successes. fold (count (succeeded k) (dispatches evs)).
    rewrite (proj1 (all_succeeded k _ Hok)).
    apply (proj1 (classified_dispatches cfg k _ Hdone)). }
  subst total evals. rewrite Htot. unfold sent.
  cbn [ApprovalReminders MergeReminders Escalations DraftOverdue Errors].
  split; [rewrite evaluations_prs; apply Hall; [apply workerCount_pos|exact Hcan]|].
  rewrite !Hk, actionable_kinds.
  repeat split. apply (proj2 (all_succeeded Notifier.Escalation _ Hok)).
Qed.

Lemma count_conservation_witness :
  let cfg := Sample.cfg 2 false in
  let s0 := processPRsConcurrently Sample.prs (workerCount cfg) false
              (Sample.world 2 false (10 * Time.Hour)) in
  exists evs s,
    exec (Sample.env true) cfg Sample.schedule s0 = Some (evs, s)
    /\ map (fun e => Github.Number e.1) (evaluations evs) = [42; 41]
    /\ sent (totalResult s) = count (actionable cfg) (evaluations evs)
    /\ sent (totalResult s) = 1.
Proof.
  intros cfg s0. eexists _, _.
  split; [vm_compute; reflexivity|].
  split; [vm_compute; reflexivity|].
  split; [|vm_compute; reflexivity].
  refine (proj1 (proj2
    (count_conservation (Sample.env true) cfg Sample.prs
       (Sample.world 2 false (10 * Time.Hour)) Sample.schedule _ _ _ _ _ _ _))).
  - vm_compute. reflexivity.
  - reflexivity.
  - reflexivity.
  - vm_compute. repeat constructor.
  - vm_compute. discriminate.
Defined.




(** C5, as amended. Under every schedule that runs a batch to its return,
    with the cancellation falling anywhere or nowhere: no snapshot's
    processing begins after the cancellation; every snapshot whose
    processing began is completed, in flight or not at the cancellation;
    the snapshots completed are input snapshots, none twice; and the run
    result is the aggregate of exactly their results, each whole, as
    [processPR] returned it, and each once. *)
Theorem cancellation_reports_begun :
  forall (env : Notifier.Env) (cfg : Config.Config) (prs : list Github.PullRequest)
         (ctxDone : bool) (w : Notifier.World) (sched : list Action)
         (evs : list Event) (s : PState),
    exec env cfg sched (processPRsConcurrently prs (workerCount cfg) ctxDone w)
    = Some (evs, s) ->
    returned s = true ->
    Z.of_nat (length prs) <= GoInt.maxInt ->
    lateBegins ctxDone evs = []
    /\ donePRs evs ≡ₚ begun evs
    /\ donePRs evs ⊆+ prs
    /\ Forall (doneOK cfg) (done evs)
    /\ totalResult s = fold_left accumulate (results evs) emptyResult
    /\ totalResult s
       = mkNotificationResult
           (successes Notifier.ApprovalReminder evs)
           (successes Notifier.MergeReminder evs)
           (successes Notifier.Escalation evs)
           (successes Notifier.DraftOverdue evs)
           (failures evs).
Proof.
  intros env cfg prs ctxDone w sched evs s Hexec Hret Hmax.
  destruct (batch_final _ _ _ _ _ _ _ _ _ Hexec Hret Hmax)
    as (Htot & Hbeg & Hsub & Hlate & Hdone & _).
  pose proof (inv_reach _ _ _ _ _ _ _ _ _ Hexec) as Hinv.
  destruct (inv_results _ _ _ _ _ Hinv) as (dr & Hres & Hfold).
  destruct (inv_returned _ _ _ _ _ Hinv Hret) as [_ Hempty].
  rewrite Hempty, app_nil_r in Hres. subst dr.
  repeat split; try assumption. symmetry. exact Hbeg.
Qed.

Lemma cancellation_reports_begun_witness :
  let cfg := Sample.cfg 1 false in
  let s0 := processPRsConcurrently Sample.prs (workerCount cfg) false
              (Sample.world 1 false (10 * Time.Hour)) in
  exists evs s,
    exec (Sample.env true) cfg Sample.cancelledSchedule s0 = Some (evs, s)
    /\ map Github.Number (begun evs) = [41]
    /\ map Github.Number (donePRs evs) = [41]
    /\ donePRs evs ≡ₚ begun evs.
Proof.
  intros cfg s0. eexists _, _.
  split; [vm_compute; reflexivity|].
  split; [vm_compute; reflexivity|].
  split; [vm_compute; reflexivity|].
  refine (proj1 (proj2
    (cancellation_reports_begun (Sample.env true) cfg Sample.prs false
       (Sample.world 1 false (10 * Time.Hour)) Sample.cancelledSchedule _ _ _ _ _))).
  - vm_compute. reflexivity.
  - reflexivity.
  - vm_compute. discriminate.
Defined.

(** C5 as stated fails: with one worker, cancel while the first snapshot
    is in flight. Its result is completed after the cancellation and is in
    the run result, which therefore is not the aggregate of the results
    completed before the cancellation; and the worker then still takes
    the second snapshot off the queue, to discard it. *)
Lemma cancellation_counterexample :
  let cfg := Sample.cfg 1 false in
  let s0 := processPRsConcurrently Sample.prs (workerCount cfg) false
              (Sample.world 1 false (10 * Time.Hour)) in
  exists evs s,
    exec (Sample.env true) cfg Sample.cancelledSchedule s0 = Some (evs, s)
    /\ returned s = true
    /\ earlyResults false evs = []
    /\ map Github.Number (lateDone false evs) = [41]
    /\ Escalations (totalResult s) = 1
    /\ totalResult s <> fold_left accumulate (earlyResults false evs) emptyResult
    /\ map Github.Number (dropped evs) = [42].
Proof.
  intros cfg s0. eexists _, _.
  split; [vm_compute; reflexivity|].
  repeat split; try (vm_compute; reflexivity).
  vm_compute. discriminate.
Qed.

(** *** Termination *)

Lemma weight_split l1 wk l2 :
  list_sum (map weight (l1 ++ wk :: l2))
  = (list_sum (map weight l1) + weight wk + list_sum (map weight l2))%nat.
Proof.
  rewrite map_app, list_sum_app. cbn [map]. unfold list_sum at 2.
  cbn [fold_right]. fold (list_sum (map weight l2)). lia.
Qed.

(** Every move of a goroutine lowers the measure; the caller's moves
    leave it. *)
Lemma step_measure env cfg a s evs s' :
  step env cfg a s = Some (evs, s') ->
  if isGoroutine a then (measure s' < measure s)%nat else measure s' = measure s.
Proof.
  intros H. apply step_case in H. destruct H; cbn [isGoroutine]; unfold measure;
    cbn [feeder prChan workers resultChan resultClosed totalResult returned
         cancelled chanCap world setFeeder setWorker setPrChan setResults
         setCancelled setWorld];
    try split_worker;
    repeat match goal with
           | H : feeder _ = _ |- _ => rewrite H in *
           | H : prChan _ = _ |- _ => rewrite H in *
           | H : resultChan _ = _ |- _ => rewrite H in *
           | H : resultClosed _ = _ |- _ => rewrite H in *
           | H : returned _ = _ |- _ => rewrite H in *
           end;
    rewrite ?weight_split, ?length_app; cbn [length weight];
    repeat match goal with |- context [if ?b then _ else _] => destruct b end;
    try lia; try reflexivity.
Qed.

Lemma exec_measure env cfg sched s evs s' :
  exec env cfg sched s = Some (evs, s') ->
  (length (List.filter isGoroutine sched) + measure s' <= measure s)%nat.
Proof.
  revert s evs. induction sched as [|a sched IH]; intros s evs H.
  - cbn in H. inversion H; subst. cbn. lia.
  - apply exec_step in H as (e1 & s1 & e2 & Hs & He & ->).
    apply step_measure in Hs. apply IH in He. cbn [List.filter].
    destruct (isGoroutine a); cbn [length]; lia.
Qed.

Lemma not_all_done (ws : list Worker) :
  forallb isDone ws = false ->
  exists i wk, ws !! i = Some wk /\ isDone wk = false.
Proof.
  induction ws as [|wk ws IH]; cbn; [discriminate|].
  destruct (isDone wk) eqn:Hd; cbn.
  - intros H. destruct (IH H) as (i & wk' & Hl & Hn). exists (S i), wk'. auto.
  - intros _. exists 0%nat, wk. auto.
Qed.

Lemma held_lookup (ws : list Worker) i wk pr :
  ws !! i = Some wk -> In pr (inHand wk) -> (0 < length (held ws))%nat.
Proof.
  intros H Hin. destruct (insert_split _ _ _ H) as (l1 & l2 & -> & _).
  rewrite held_app, held_cons, !length_app.
  destruct (inHand wk); [destruct Hin|cbn; lia].
Qed.

(** A batch that has not returned always has a goroutine that can move. *)
Lemma progress env cfg prs ctxDone tr s :
  Inv cfg prs ctxDone tr s ->
  returned s = false ->
  exists a evs s', isGoroutine a = true /\ step env cfg a s = Some (evs, s').
Proof.
  intros Hinv Hret.
  pose proof (inv_conserve _ _ _ _ _ Hinv) as Hcons.
  pose proof (inv_cap _ _ _ _ _ Hinv) as Hcap.
  apply Permutation_length in Hcons. rewrite !length_app in Hcons.
  assert (Hgo : forall a evs s', StepCase env cfg s a evs s' -> isGoroutine a = true ->
                 exists a evs s', isGoroutine a = true /\ step env cfg a s = Some (evs, s')).
  { intros a evs s' Hc Hg. exists a, evs, s'. split; [exact Hg|]. apply case_step, Hc. }
  destruct (resultChan s) as [|r queue] eqn:Hrc.
  2: { eapply Hgo; [eapply sc_drain; eassumption|reflexivity]. }
  destruct (resultClosed s) eqn:Hcl.
  { eapply Hgo; [eapply sc_return; eassumption|reflexivity]. }
  destruct (forallb isDone (workers s)) eqn:Hall.
  { eapply Hgo; [eapply sc_closer; eassumption|reflexivity]. }
  destruct (not_all_done _ Hall) as (i & wk & Hi & Hnd).
  destruct wk as [|pr|pr|]; [| | |discriminate].
  - destruct (prChan s) as [|pr queue] eqn:Hq.
    + destruct (feeder s) as [[|pr rest]|] eqn:Hf.
      * eapply Hgo; [eapply sc_feed_end; eassumption|reflexivity].
      * eapply Hgo; [eapply sc_send; [eassumption|]|reflexivity].
        unfold unsent in Hcons. rewrite Hf in Hcons. cbn in Hcons.
        rewrite Hq, Hcap. cbn. lia.
      * eapply Hgo; [eapply sc_exit; eassumption|reflexivity].
    + eapply Hgo; [eapply sc_recv; eassumption|reflexivity].
  - destruct (cancelled s) eqn:Hc.
    + eapply Hgo; [eapply sc_discard; eassumption|reflexivity].
    + eapply Hgo; [eapply sc_begin; eassumption|reflexivity].
  - destruct (run env (processPR cfg pr) (world s)) as [[r obs] w'] eqn:Hrun.
    eapply Hgo; [eapply sc_finish; [eassumption| |eassumption]|reflexivity].
    pose proof (held_lookup _ _ _ pr Hi ltac:(cbn; auto)).
    rewrite Hrc, Hcap. cbn. lia.
Qed.

(** From every state a batch reaches, the goroutines alone bring it to its
    return, in no more moves than the measure. *)
Lemma can_return env cfg prs ctxDone :
  forall n tr s,
    (measure s <= n)%nat ->
    Inv cfg prs ctxDone tr s ->
    exists more evs s',
      exec env cfg more s = Some (evs, s') /\ returned s' = true
      /\ forallb isGoroutine more = true /\ (length more <= measure s)%nat.
Proof.
  induction n as [|n IH]; intros tr s Hn Hinv.
  - destruct (returned s) eqn:Hret.
    + exists [], [], s. cbn. repeat split; auto. lia.
    + unfold measure in Hn. rewrite Hret in Hn. lia.
  - destruct (returned s) eqn:Hret.
    + exists [], [], s. cbn. repeat split; auto. lia.
    + destruct (progress env _ _ _ _ _ Hinv Hret) as (a & e1 & s1 & Hg & Hs).
      pose proof (step_measure _ _ _ _ _ _ Hs) as Hm. rewrite Hg in Hm.
      assert (Hinv1 : Inv cfg prs ctxDone (tr ++ e1) s1).
      { eapply inv_step; [exact Hinv|]. apply step_case, Hs. }
      destruct (IH _ s1 ltac:(lia) Hinv1) as (more & e2 & s2 & He & Hr & Hgs & Hl).
      exists (a :: more), (e1 ++ e2), s2. cbn [exec forallb length].
      rewrite Hs, He, Hg, Hgs. repeat split; auto. lia.
Qed.

Lemma measure_init prs c ctxDone w :
  measure (processPRsConcurrently prs c ctxDone w)
  = (3 + 5 * length prs + Z.to_nat c)%nat.
Proof.
  assert (H : forall n, list_sum (map weight (replicate n WRange)) = n).
  { induction n as [|n IH]; [reflexivity|].
    change (replicate (S n) WRange) with ([WRange] ++ replicate n WRange).
    rewrite map_app, list_sum_app, IH. reflexivity. }
  unfold measure.
  cbn [processPRsConcurrently feeder prChan workers resultChan resultClosed returned
       length].
  rewrite H. lia.
Qed.

Lemma CheckPRs_fetched env cfg api ctxDone w prs sched rep :
  Github.GetPullRequests api (Config.Owner (Config.GitHub cfg))
                         (Config.Repos (Config.GitHub cfg)) = inl prs ->
  CheckPRs env cfg api ctxDone w sched = Some rep ->
  runError rep = None /\ exists total, runResults rep = Some total.
Proof.
  intros Hf H. unfold CheckPRs in H. rewrite Hf in H.
  destruct (exec env cfg sched _) as [[evs s]|]; [|discriminate].
  destruct (returned s); [|discriminate].
  inversion H; subst. cbn. eauto.
Qed.

(** C4. [CheckPRs] returns an error exactly when the fetch fails. When it
    fails the error is returned at once, whatever the schedule: there is
    no event, hence no evaluation and no dispatch, no run result, and the
    world is untouched. When the fetch succeeds, every schedule under
    which [CheckPRs] returns makes it return no error and a run result,
    however the dispatches fared; every schedule can be carried on by the
    goroutines alone to such a return; and no schedule holds more
    goroutine moves than a bound fixed by the batch size and the worker
    count. *)
Theorem run_error_iff_fetch_fails :
  forall (env : Notifier.Env) (cfg : Config.Config) (api : Github.API)
         (ctxDone : bool) (w : Notifier.World),
    let fetched := Github.GetPullRequests api (Config.Owner (Config.GitHub cfg))
                                           (Config.Repos (Config.GitHub cfg)) in
    (forall sched rep,
        CheckPRs env cfg api ctxDone w sched = Some rep ->
        (runError rep <> None <-> exists err, fetched = inr err))
    /\ (forall err,
          fetched = inr err ->
          forall sched,
            CheckPRs env cfg api ctxDone w sched
            = Some (mkReport
                      (Some (Errors.Errorf_w "failed to fetch pull requests" err))
                      [] None w))
    /\ (forall prs,
          fetched = inl prs ->
          let s0 := processPRsConcurrently prs (workerCount cfg) ctxDone w in
          (forall sched rep,
              CheckPRs env cfg api ctxDone w sched = Some rep ->
              runError rep = None /\ exists total, runResults rep = Some total)
          /\ (forall sched evs s,
                exec env cfg sched s0 = Some (evs, s) ->
                exists more rep,
                  forallb isGoroutine more = true
                  /\ (length more <= measure s)%nat
                  /\ CheckPRs env cfg api ctxDone w (sched ++ more) = Some rep)
          /\ (forall sched evs s,
                exec env cfg sched s0 = Some (evs, s) ->
                (length (List.filter isGoroutine sched)
                 <= 3 + 5 * length prs + Z.to_nat (workerCount cfg))%nat)).
Proof.
  intros env cfg api ctxDone w fetched.
  assert (Hok : forall prs sched rep,
             fetched = inl prs ->
             CheckPRs env cfg api ctxDone w sched = Some rep ->
             runError rep = None /\ exists total, runResults rep = Some total).
  { intros prs sched rep Hf H. eapply CheckPRs_fetched; eassumption. }
  split; [|split].
  - intros sched rep H. destruct fetched as [prs|err] eqn:Hf.
    + destruct (Hok prs sched rep eq_refl H) as [-> _].
      split; [intros Hn; contradiction|intros (err & He); discriminate].
    + unfold CheckPRs in H. fold fetched in H. rewrite Hf in H.
      inversion H; subst. cbn. split; [eauto|discriminate].
  - intros err Hf sched. unfold CheckPRs. fold fetched. rewrite Hf. reflexivity.
  - intros prs Hf s0. split; [intros sched rep; apply (Hok prs _ _ Hf)|]. split.
    + intros sched evs s Hexec.
      pose proof (inv_reach _ _ _ _ _ _ _ _ _ Hexec) as Hinv.
      destruct (can_return env cfg prs ctxDone (measure s) evs s (le_n _) Hinv)
        as (more & e2 & s2 & He & Hr & Hg & Hl).
      exists more, (mkReport None (evs ++ e2) (Some (totalResult s2)) (world s2)).
      split; [exact Hg|]. split; [exact Hl|].
      unfold CheckPRs. fold fetched. rewrite Hf.
      fold s0. rewrite (exec_app _ _ _ _ _ _ _ _ _ Hexec He), Hr. reflexivity.
    + intros sched evs s Hexec. apply exec_measure in Hexec.
      unfold s0 in Hexec. rewrite measure_init in Hexec. lia.
Qed.

(** A run whose every dispatch fails still returns no error, and a run
    whose fetch fails returns the fetch error. *)
Example failed_dispatches_no_error :
  let cfg := Sample.cfg 2 false in
  let w := Sample.world 2 false (10 * Time.Hour) in
  (exists rep,
      CheckPRs (Sample.env false) cfg (Sample.api true) false w Sample.schedule'
      = Some rep
      /\ runError rep = None
      /\ option_map (fun t => length (Errors t)) (runResults rep) = Some 1%nat)
  /\ option_map Errors.Error
       (runError (default (mkReport None [] None w)
                    (CheckPRs (Sample.env false) cfg (Sample.api false) false w [])))
     = Some "failed to fetch pull requests: failed to get PRs for repo repo: 503 Service Unavailable"%string.
Proof.
  split; [eexists; split; [vm_compute; reflexivity|split; reflexivity]|].
  vm_compute. reflexivity.
Qed.


(** * Further properties of the code *)

(** ** Configuration *)

Lemma orDefault_nonzero d dflt : dflt <> 0 -> Config.orDefault d dflt <> 0.
Proof. unfold Config.orDefault. destruct (Z.eqb_spec d 0); auto. Qed.

Lemma orDefault_keep d dflt : d <> 0 -> Config.orDefault d dflt = d.
Proof. unfold Config.orDefault. destruct (Z.eqb_spec d 0); [contradiction|reflexivity]. Qed.

Lemma setDefaults_allSet c : allSet (Config.setDefaults c).
Proof.
  unfold allSet, Config.setDefaults. cbn.
  repeat split; try (apply orDefault_nonzero; discriminate).
  destruct (String.eqb_spec (Config.Subject (Config.Email c)) ""); [discriminate|assumption].
Qed.

Lemma setDefaults_fixed c : allSet c -> Config.setDefaults c = c.
Proof.
  intros (H1 & H2 & H3 & H4 & H5 & H6 & H7 & H8 & H9).
  destruct c as [g e r d].
  destruct e as [host port user pass from to subject rl rt], r, d. cbn in *.
  unfold Config.setDefaults. cbn.
  rewrite !orDefault_keep by assumption.
  destruct (String.eqb_spec subject ""); [contradiction|reflexivity].
Qed.

(** X1. [setDefaults] leaves no setting it looks at unset, changes nothing
    in a configuration that has them all set (negative durations and
    counts included), and so is idempotent. *)
Theorem setDefaults_idempotent :
  forall c : Config.Config,
    allSet (Config.setDefaults c)
    /\ (Config.setDefaults c = c <-> allSet c)
    /\ Config.setDefaults (Config.setDefaults c) = Config.setDefaults c.
Proof.
  intros c. pose proof (setDefaults_allSet c) as H.
  split; [exact H|]. split.
  - split; [intros E; rewrite <- E; exact H|apply setDefaults_fixed].
  - apply setDefaults_fixed, H.
Qed.

(** X2. [Load] fails exactly on a file that cannot be read or parsed, with
    the cause wrapped and the heap untouched; every configuration it
    returns, from a file or from the environment, has all the settings
    [setDefaults] looks at set. *)
Theorem Load_outcomes :
  forall (file : Config.File) (getenv : string -> string)
         (parse : string -> option Time.Duration) (h : GoSlice.heap),
    match Config.Load file getenv parse h with
    | (inl cfg, _) =>
        allSet cfg
        /\ (file = Config.NoFile
            \/ exists c, file = Config.Contents (inl c) /\ cfg = Config.setDefaults c)
    | (inr err, h') =>
        h' = h
        /\ ((exists e, file = Config.Unreadable e
                       /\ err = Errors.Errorf_w "failed to read config file" e)
            \/ (exists e, file = Config.Contents (inr e)
                          /\ err = Errors.Errorf_w "failed to parse config file" e))
    end.
Proof.
  intros [|e|[c|e]] getenv parse h; unfold Config.Load.
  - destruct (String.eqb (getenv "EMAIL_TO") ""); cbn [GoSlice.alloc];
      (split; [apply setDefaults_allSet|left; reflexivity]).
  - split; [reflexivity|left; eauto].
  - split; [apply setDefaults_allSet|right; eauto].
  - split; [reflexivity|right; eauto].
Qed.

(** X3. A configuration loaded from the environment has no SMTP port, its
    recipients are the value of EMAIL_TO alone, unsplit, when there is one,
    and its repositories the value of GITHUB_REPOS alone; so the notifier
    cannot be built from it unless e-mails are skipped. *)
Theorem env_config_needs_skip :
  forall (getenv : string -> string) (parse : string -> option Time.Duration)
         (h : GoSlice.heap) (t : Time.Time),
    exists cfg h',
      Config.Load Config.NoFile getenv parse h = (inl cfg, h')
      /\ Config.SMTPPort (Config.Email cfg) = 0
      /\ GoSlice.wf h' (Config.To (Config.Email cfg))
      /\ GoSlice.view h' (Config.To (Config.Email cfg))
         = (if String.eqb (getenv "EMAIL_TO") "" then [] else [getenv "EMAIL_TO"])
      /\ Config.Repos (Config.GitHub cfg)
         = (if String.eqb (getenv "GITHUB_REPOS") "" then []
            else [getenv "GITHUB_REPOS"])
      /\ Notifier.NewEmailNotifier (Config.Email cfg) false t
         = inr (Errors.Errorf "SMTP configuration is required")
      /\ exists e, Notifier.NewEmailNotifier (Config.Email cfg) true t = inl e.
Proof.
  intros getenv parse h t. unfold Config.Load.
  destruct (String.eqb (getenv "EMAIL_TO") "") eqn:Hto; cbn [GoSlice.alloc];
    eexists _, _; (split; [reflexivity|]); cbn;
    unfold Notifier.NewEmailNotifier; cbn; rewrite orb_true_r; cbn.
  - repeat split; eauto; unfold GoSlice.array; cbn; lia.
  - repeat split; eauto.
    + unfold GoSlice.array. cbn. rewrite list_lookup_middle by reflexivity. cbn. lia.
    + unfold GoSlice.view, GoSlice.array. cbn.
      rewrite list_lookup_middle by reflexivity. reflexivity.
Qed.

(** ** Thresholds *)

Lemma no_merge_reminder cfg pr age :
  Config.MergeTime (Config.Rules cfg) <= Config.MergeReminderTime (Config.Rules cfg) ->
  classify cfg pr age <> Some Notifier.MergeReminder.
Proof.
  intros H. rewrite classify_spec. unfold Spec.action, Spec.rules.
  destruct (Github.Draft pr); cbn; split_tests; cbn; try discriminate; lia.
Qed.



(** X5. With no configuration file and MERGE_TIME unset, the merge time
    and the merge-reminder time are both 4h, so no pull request is ever
    sent a merge reminder. *)
Theorem env_defaults_no_merge_reminder :
  forall (getenv : string -> string) (parse : string -> option Time.Duration)
         (h : GoSlice.heap),
    getenv "MERGE_TIME" = ""%string ->
    exists cfg h',
      Config.Load Config.NoFile getenv parse h = (inl cfg, h')
      /\ Config.MergeTime (Config.Rules cfg) = 4 * Time.Hour
      /\ Config.MergeReminderTime (Config.Rules cfg) = 4 * Time.Hour
      /\ forall pr age, classify cfg pr age <> Some Notifier.MergeReminder.
Proof.
  intros getenv parse h Hm. unfold Config.Load.
  destruct (String.eqb (getenv "EMAIL_TO") ""); cbn [GoSlice.alloc];
    eexists _, _; (split; [reflexivity|]);
    (assert (E : Config.parseDuration parse (getenv "MERGE_TIME") (4 * Time.Hour)
                 = 4 * Time.Hour) by (rewrite Hm; reflexivity));
    (split; [cbn; rewrite E; reflexivity|]);
    (split; [reflexivity|]);
    intros pr age; apply no_merge_reminder; cbn; rewrite E; vm_compute; discriminate.
Qed.

Lemma env_defaults_no_merge_reminder_witness :
  exists cfg h',
    Config.Load Config.NoFile (fun _ => ""%string) (fun _ => None) [] = (inl cfg, h')
    /\ Config.MergeTime (Config.Rules cfg) = 4 * Time.Hour.
Proof.
  destruct (env_defaults_no_merge_reminder (fun _ => ""%string) (fun _ => None) []
              eq_refl) as (cfg & h' & E & Hm & _).
  exists cfg, h'. split; assumption.
Defined.

(** X6. A pull request that gets a notification at some age gets one at
    every later age, whatever the thresholds: nothing but a change of the
    pull request ends the notifications. *)
Theorem actionable_stays_actionable :
  forall (cfg : Config.Config) (pr : Github.PullRequest) (age age' : Time.Duration),
    age <= age' ->
    classify cfg pr age <> None ->
    classify cfg pr age' <> None.
Proof.
  intros cfg pr age age' Hle. rewrite !classify_spec.
  unfold Spec.action, Spec.rules.
  destruct (Github.Draft pr); cbn; split_tests; cbn; try discriminate; try lia;
    intros Hact; try (exfalso; apply Hact; reflexivity).
Qed.

Lemma actionable_stays_actionable_witness :
  classify (Sample.cfg 1 false) (Sample.pr 7 false 0 0) (9 * Time.Hour) <> None.
Proof.
  apply (actionable_stays_actionable (Sample.cfg 1 false) (Sample.pr 7 false 0 0)
           (3 * Time.Hour) (9 * Time.Hour)); vm_compute; discriminate.
Defined.

(** ** Fetching *)

Lemma getPages_spec repo pages prs :
  Github.getPages repo pages prs
  = match pageErrors pages with
    | [] => inl (prs ++ map (Github.prData repo) (pageItems pages))
    | e :: _ => inr e
    end.
Proof.
  revert prs. induction pages as [|[l|e] pages IH]; intros prs;
    cbn [Github.getPages].
  - cbn. rewrite app_nil_r. reflexivity.
  - change (pageErrors (inl l :: pages)) with (pageErrors pages).
    change (pageItems (inl l :: pages)) with (l ++ pageItems pages).
    rewrite IH. destruct (pageErrors pages); [|reflexivity].
    rewrite map_app, app_assoc. reflexivity.
  - reflexivity.
Qed.

Lemma GetPullRequestsFrom_spec api owner repos acc :
  match Github.GetPullRequestsFrom api owner repos acc with
  | inl prs =>
      prs = acc ++ flat_map (repoPRs api owner) repos
      /\ forall repo, In repo repos -> pageErrors (api owner repo) = []
  | inr err =>
      exists before repo after e rest,
        repos = before ++ repo :: after
        /\ (forall r, In r before -> pageErrors (api owner r) = [])
        /\ pageErrors (api owner repo) = e :: rest
        /\ err = Errors.Errorf_w ("failed to get PRs for repo " +:+ repo) e
  end.
Proof.
  revert acc. induction repos as [|repo repos IH]; intros acc; cbn [Github.GetPullRequestsFrom].
  - cbn. rewrite app_nil_r. split; [reflexivity|intros r Hin; contradiction].
  - unfold Github.getPullRequestsForRepo. rewrite getPages_spec.
    destruct (pageErrors (api owner repo)) as [|e rest] eqn:He.
    + specialize (IH (acc ++ map (Github.prData repo) (pageItems (api owner repo)))).
      cbn [app] in IH |- *.
      destruct (Github.GetPullRequestsFrom api owner repos _) as [prs|err].
      * destruct IH as [-> Hall]. split.
        -- cbn [flat_map]. unfold repoPRs at 2. rewrite app_assoc. reflexivity.
        -- intros r [<-|Hin]; [exact He|apply Hall, Hin].
      * destruct IH as (before & r & after & e & rest & -> & Hb & Hr & ->).
        exists (repo :: before), r, after, e, rest. repeat split; try assumption.
        intros r' [<-|Hin]; [exact He|apply Hb, Hin].
    + exists [], repo, repos, e, rest. repeat split; try assumption.
      intros r Hin; cbn in Hin; contradiction.
Qed.

(** X7. A fetch that succeeds returns, in the order of the repositories
    and of their pages, the snapshot of every pull request listed, none
    left out and none added; each carries the repository it was listed
    under and a user, head and base; and it succeeds exactly when no page
    of any repository failed. *)
Theorem fetch_success :
  forall (api : Github.API) (owner : string) (repos : list string),
    ((forall repo, In repo repos -> pageErrors (api owner repo) = [])
     <-> Github.GetPullRequests api owner repos
         = inl (flat_map (repoPRs api owner) repos))
    /\ (forall prs,
          Github.GetPullRequests api owner repos = inl prs ->
          prs = flat_map (repoPRs api owner) repos
          /\ Forall (fun pr => In (Github.Repo pr) repos
                               /\ Github.PRUser pr <> None
                               /\ Github.Head pr <> None
                               /\ Github.Base pr <> None) prs).
Proof.
  intros api owner repos. unfold Github.GetPullRequests.
  pose proof (GetPullRequestsFrom_spec api owner repos []) as H.
  destruct (Github.GetPullRequestsFrom api owner repos []) as [prs|err].
  - destruct H as [-> Hall]. cbn [app]. split; [split; auto|].
    intros prs E. inversion E; subst. split; [reflexivity|].
    apply List.Forall_forall. intros pr Hin.
    apply in_flat_map in Hin as (repo & Hrepo & Hin).
    unfold repoPRs in Hin. apply in_map_iff in Hin as (l & <- & _).
    unfold Github.prData. destruct (Github.checkPRApprovals _) as [[? ?] ?]. cbn.
    repeat split; try discriminate. exact Hrepo.
  - destruct H as (before & r & after & e & rest & -> & Hb & Hr & ->).
    split; [|intros ? ?; discriminate].
    split; [|discriminate]. intros Hall.
    rewrite Hall in Hr by (apply in_or_app; right; left; reflexivity). discriminate.
Qed.

Lemma fetch_success_witness :
  exists prs,
    Github.GetPullRequests (Sample.api true) "owner" ["a"; "b"]%string = inl prs
    /\ map Github.Repo prs = ["a"; "b"]%string
    /\ Forall (fun pr => Github.PRUser pr <> None) prs.
Proof.
  eexists. split; [vm_compute; reflexivity|].
  split; [vm_compute; reflexivity|].
  destruct (proj2 (fetch_success (Sample.api true) "owner" ["a"; "b"]%string)
                  _ eq_refl) as [_ Hall].
  eapply List.Forall_impl; [|exact Hall].
  intros pr (_ & Hu & _). exact Hu.
Defined.

(** X8. A fetch that fails returns the error of the first failing page of
    the first repository, in order, that has one, with the name of that
    repository in the message, and nothing of what was listed before. *)
Theorem fetch_failure :
  forall (api : Github.API) (owner : string) (repos : list string)
         (err : Errors.error),
    Github.GetPullRequests api owner repos = inr err ->
    exists before repo after e rest,
      repos = before ++ repo :: after
      /\ (forall r, In r before -> pageErrors (api owner r) = [])
      /\ pageErrors (api owner repo) = e :: rest
      /\ Errors.Error err
         = ("failed to get PRs for repo " +:+ repo +:+ ": " +:+ Errors.Error e)%string
      /\ Errors.Unwrap err = Some e.
Proof.
  intros api owner repos err E. unfold Github.GetPullRequests in E.
  pose proof (GetPullRequestsFrom_spec api owner repos []) as H. rewrite E in H.
  destruct H as (before & r & after & e & rest & -> & Hb & Hr & ->).
  exists before, r, after, e, rest. repeat split; assumption.
Qed.

Lemma fetch_failure_witness :
  exists e,
    Github.GetPullRequests (fun _ repo => if String.eqb repo "b" then Sample.api false "" repo
                                          else Sample.api true "" repo)
                           "owner" ["a"; "b"; "c"]%string = inr e
    /\ Errors.Error e
       = "failed to get PRs for repo b: 503 Service Unavailable"%string.
Proof.
  eexists. split; [vm_compute; reflexivity|].
  destruct (fetch_failure
              (fun _ repo => if String.eqb repo "b" then Sample.api false "" repo
                             else Sample.api true "" repo)
              "owner" ["a"; "b"; "c"]%string _ eq_refl)
    as (before & repo & after & e & rest & _ & _ & _ & Hm & _).
  reflexivity.
Defined.

(** X9. The listing and the single-pull-request fetch build the same
    snapshot when the reviews can be listed; when they cannot, the listing
    goes on with a snapshot that carries no approval and a review count of
    zero, while the single fetch fails with that error. *)
Theorem details_agree_with_listing :
  forall (l : Github.Listed) (repo : string),
    match Github.lReviews l with
    | inl _ => Github.GetPRDetails (inl l) repo = inl (Github.prData repo l)
    | inr err =>
        Github.GetPRDetails (inl l) repo = inr err
        /\ Github.Approved (Github.prData repo l) = false
        /\ Github.ReviewCount (Github.prData repo l) = 0
    end.
Proof.
  intros l repo. unfold Github.GetPRDetails, Github.prData.
  destruct (Github.lReviews l) as [reviews|err]; cbn [Github.checkPRApprovals].
  - destruct (fold_left Github.reviewStep reviews (false, 0)) as [a n]. reflexivity.
  - repeat split.
Qed.

(** X10. For a list of reviews whose length is an [int], the review count
    lies between zero and the number of reviews, and an approved pull
    request has a count of at least one. *)
Theorem approved_is_counted :
  forall (reviews : list Github.Review),
    Z.of_nat (length reviews) <= GoInt.maxInt ->
    let '(approved, reviewCount, _) := Github.checkPRApprovals (inl reviews) in
    0 <= reviewCount <= Z.of_nat (length reviews)
    /\ (approved = true -> 1 <= reviewCount).
Proof.
  intros reviews Hlen. unfold Github.checkPRApprovals.
  rewrite reviewStep_fold by lia. cbn [orb].
  pose proof (List.filter_length_le notCommented reviews) as Hle.
  split; [lia|]. intros Ha. apply existsb_exists in Ha as (r & Hin & Hr).
  assert (Hf : In r (List.filter notCommented reviews)).
  { apply List.filter_In. split; [exact Hin|].
    unfold isApproved in Hr. apply String.eqb_eq in Hr.
    unfold notCommented. rewrite Hr. reflexivity. }
  destruct (List.filter notCommented reviews); [destruct Hf|cbn [length]; lia].
Qed.

Lemma approved_is_counted_witness :
  let reviews := [Github.mkReview (Some "COMMENTED"%string);
                  Github.mkReview (Some "APPROVED"%string)] in
  Z.of_nat (length reviews) <= GoInt.maxInt
  /\ let '(approved, reviewCount, _) := Github.checkPRApprovals (inl reviews) in
     0 <= reviewCount <= Z.of_nat (length reviews)
     /\ (approved = true -> 1 <= reviewCount).
Proof.
  intros reviews.
  assert (H : Z.of_nat (length reviews) <= GoInt.maxInt) by (vm_compute; discriminate).
  split; [exact H|]. exact (approved_is_counted reviews H).
Defined.

(** ** Sending *)

Lemma generateEmailBody_pure env data w :
  snd (Notifier.generateEmailBody env data w) = w.
Proof. unfold Notifier.generateEmailBody, Notifier.bind, Notifier.timeNow. reflexivity. Qed.

(** A send by an open notifier that does not skip: the wait, the body,
    the dials. *)
Lemma send_open env data w :
  Notifier.closed (Notifier.notifier w) = false ->
  Notifier.skipEmails (Notifier.notifier w) = false ->
  Notifier.sendNotification env data w
  = match fst (Notifier.generateEmailBody env data (afterRateLimit w)) with
    | inr err =>
        (Some (Errors.Errorf_w "failed to generate email body" err), afterRateLimit w)
    | inl body =>
        Notifier.retryLoop env (messageOf data (afterRateLimit w) body) 3 0
                           (afterRateLimit w)
    end.
Proof.
  intros Hc Hs.
  unfold Notifier.sendNotification, Notifier.bind, Notifier.getNotifier.
  rewrite Hc, Hs.
  unfold Notifier.timeSince, afterRateLimit, Notifier.sleep, Notifier.ret,
    Notifier.timeNow, Notifier.setNotifier, Notifier.viewOf, messageOf,
    Notifier.generateEmailBody, Notifier.bind, Notifier.timeNow, Notifier.ret.
  cbv zeta.
  destruct (_ <? _); cbv beta iota delta [fst snd];
    cbn [Notifier.now Notifier.notifier Notifier.heap Notifier.config
         Notifier.setLastSent];
    destruct (Notifier.Execute env _); reflexivity.
Qed.

Lemma perform_as_send env c w :
  exists data w1,
    perform env c w = Notifier.sendNotification env data w1
    /\ sameButHeap w w1
    /\ Notifier.Type_ data = kindOf c
    /\ Notifier.PullRequest data = subjectOf c.
Proof.
  destruct c as [pr age th|pr age th|pr age th esc|pr age th]; cbn [perform];
    try (eexists _, w; split; [reflexivity|]; repeat split; reflexivity).
  unfold Notifier.SendEscalation, Notifier.bind, Notifier.getNotifier.
  destruct (negb (String.eqb esc "")).
  - unfold Notifier.appendTo. destruct (GoSlice.append _ _ _ _) as [h s'].
    eexists _, _. split; [reflexivity|]. repeat split; reflexivity.
  - eexists _, w. split; [reflexivity|]. repeat split; reflexivity.
Qed.

(** X11. In skip mode an open notifier answers every call with success
    after printing one line: it makes no dial, delivers nothing, and
    neither waits nor records the instant of the send. *)
Theorem skip_mode_sends_nothing :
  forall (env : Notifier.Env) (c : Call) (w : Notifier.World),
    Notifier.closed (Notifier.notifier w) = false ->
    Notifier.skipEmails (Notifier.notifier w) = true ->
    let w' := snd (perform env c w) in
    fst (perform env c w) = None
    /\ Notifier.dials w' = Notifier.dials w
    /\ Notifier.outbox w' = Notifier.outbox w
    /\ Notifier.now w' = Notifier.now w
    /\ Notifier.notifier w' = Notifier.notifier w
    /\ exists line, Notifier.console w' = Notifier.console w ++ [line].
Proof.
  intros env c w Hc Hs.
  destruct (perform_as_send env c w) as (data & w1 & -> & (Hn & Ht & Hd & Ho & Hp) & _).
  unfold Notifier.sendNotification, Notifier.bind, Notifier.getNotifier.
  rewrite Hn, Hc, Hs. cbn. rewrite Ht, Hd, Ho, Hp. repeat split; eauto.
Qed.

Lemma skip_mode_sends_nothing_witness :
  let w := Sample.world 1 true 0 in
  fst (perform (Sample.env false)
         (SendEscalation (Sample.pr 7 false 0 3) 7 6 "lead@example.test") w) = None.
Proof.
  intros w.
  exact (proj1 (skip_mode_sends_nothing (Sample.env false)
                  (SendEscalation (Sample.pr 7 false 0 3) 7 6 "lead@example.test") w
                  eq_refl eq_refl)).
Defined.

Lemma retryLoop_three :
  forall (env : Notifier.Env) (m : Notifier.Message) (w : Notifier.World),
    let n := Notifier.dials w in
    let t := Notifier.now w in
    let out := Notifier.outbox w in
    Notifier.retryLoop env m 3 0 w
    = match Notifier.DialAndSend env n m with
      | None => (None, dialled w (1 + n) (out ++ [m]) t)
      | Some _ =>
          match Notifier.DialAndSend env (1 + n) m with
          | None => (None, dialled w (2 + n) (out ++ [m]) (t + 2 * Time.Second))
          | Some _ =>
              match Notifier.DialAndSend env (2 + n) m with
              | None => (None, dialled w (3 + n) (out ++ [m]) (t + 6 * Time.Second))
              | Some err =>
                  (Some (Errors.Errorf_w "failed to send email after 3 retries" err),
                   dialled w (3 + n) out (t + 6 * Time.Second))
              end
          end
      end.
Proof.
  intros env m w n t out. subst n t out. unfold dialled.
  assert (D0 : Z.max (GoInt.wrap (Notifier.baseDelay * GoInt.wrap (Z.shiftl 1 0))) 0
               = 2 * Time.Second) by (vm_compute; reflexivity).
  assert (D1 : Z.max (GoInt.wrap (Notifier.baseDelay * GoInt.wrap (Z.shiftl 1 (0 + 1)))) 0
               = 4 * Time.Second) by (vm_compute; reflexivity).
  cbn [Notifier.retryLoop Nat.add]. unfold Notifier.bind, Notifier.dialAndSend.
  destruct (Notifier.DialAndSend env (Notifier.dials w) m) as [e0|]; [|reflexivity].
  change (0 =? Notifier.maxRetries - 1) with false. cbv iota.
  unfold Notifier.sleep at 1. cbv beta iota.
  cbn [Notifier.dials Notifier.now Notifier.notifier Notifier.heap Notifier.outbox
       Notifier.console].
  rewrite D0. unfold Time.Add.
  destruct (Notifier.DialAndSend env (S (Notifier.dials w)) m) as [e1|]; [|reflexivity].
  change (0 + 1 =? Notifier.maxRetries - 1) with false. cbv iota.
  unfold Notifier.sleep at 1. cbv beta iota.
  cbn [Notifier.dials Notifier.now Notifier.notifier Notifier.heap Notifier.outbox
       Notifier.console].
  rewrite D1. unfold Time.Add.
  replace (Notifier.now w + 2 * Time.Second + 4 * Time.Second)
    with (Notifier.now w + 6 * Time.Second) by lia.
  destruct (Notifier.DialAndSend env (S (S (Notifier.dials w))) m) as [e2|];
    reflexivity.
Qed.

(** X12. The retry loop dials at most three times and stops at the first
    dial the server accepts, which delivers the message once; it waits 2s
    after a first refusal and 4s after a second, and after a third it
    gives up with that refusal wrapped, without a further wait. *)
Theorem retry_policy :
  forall (env : Notifier.Env) (m : Notifier.Message) (w : Notifier.World),
    let n := Notifier.dials w in
    let t := Notifier.now w in
    let out := Notifier.outbox w in
    Notifier.retryLoop env m 3 0 w
    = match Notifier.DialAndSend env n m with
      | None => (None, dialled w (1 + n) (out ++ [m]) t)
      | Some _ =>
          match Notifier.DialAndSend env (1 + n) m with
          | None => (None, dialled w (2 + n) (out ++ [m]) (t + 2 * Time.Second))
          | Some _ =>
              match Notifier.DialAndSend env (2 + n) m with
              | None => (None, dialled w (3 + n) (out ++ [m]) (t + 6 * Time.Second))
              | Some err =>
                  (Some (Errors.Errorf_w "failed to send email after 3 retries" err),
                   dialled w (3 + n) out (t + 6 * Time.Second))
              end
          end
      end.
Proof. exact retryLoop_three. Qed.

Lemma send_open_summary env data w :
  Notifier.closed (Notifier.notifier w) = false ->
  Notifier.skipEmails (Notifier.notifier w) = false ->
  let w1 := afterRateLimit w in
  let r := fst (Notifier.sendNotification env data w) in
  let w' := snd (Notifier.sendNotification env data w) in
  Notifier.notifier w' = Notifier.notifier w1
  /\ Notifier.heap w' = Notifier.heap w
  /\ Notifier.console w' = Notifier.console w
  /\ Notifier.now w1 <= Notifier.now w'
  /\ ((r = None
       /\ (exists body, Notifier.outbox w'
                        = Notifier.outbox w ++ [messageOf data w1 body])
       /\ (1 + Notifier.dials w <= Notifier.dials w' <= 3 + Notifier.dials w)%nat)
      \/ (r <> None
          /\ Notifier.outbox w' = Notifier.outbox w
          /\ (Notifier.dials w' = Notifier.dials w
              \/ Notifier.dials w' = (3 + Notifier.dials w)%nat))).
Proof.
  intros Hc Hs w1 r w'. subst r w'. rewrite (send_open env data w Hc Hs). fold w1.
  assert (Hsec : 0 <= Time.Second) by (vm_compute; discriminate).
  destruct (fst (Notifier.generateEmailBody env data w1)) as [body|err]; cbn [fst snd].
  - rewrite retryLoop_three.
    destruct (Notifier.DialAndSend env (Notifier.dials w1) _);
      [destruct (Notifier.DialAndSend env (1 + Notifier.dials w1) _);
       [destruct (Notifier.DialAndSend env (2 + Notifier.dials w1) _)|]|];
      cbn [fst snd dialled Notifier.notifier Notifier.heap Notifier.console
           Notifier.now Notifier.outbox Notifier.dials];
      (split; [reflexivity|]); (split; [reflexivity|]); (split; [reflexivity|]);
      (split; [lia|]);
      first [ left; split; [reflexivity|]; split; [eexists; reflexivity|];
              unfold w1, afterRateLimit; cbn; lia
            | right; split; [discriminate|]; split; [reflexivity|];
              right; reflexivity ].
  - repeat split; try reflexivity; try lia.
    right. split; [discriminate|]. split; [reflexivity|]. left. reflexivity.
Qed.

(** X13. A send by an open notifier that does not skip returns success
    exactly when one message was delivered, after one to three dials; on
    an error nothing is delivered, with no dial made when the body could
    not be rendered and three otherwise. The message carries the sender of
    the configuration, the recipients of the data and the subject of its
    kind; no send closes the notifier. *)
Theorem send_delivers_once :
  forall (env : Notifier.Env) (data : Notifier.NotificationData) (w : Notifier.World),
    Notifier.closed (Notifier.notifier w) = false ->
    Notifier.skipEmails (Notifier.notifier w) = false ->
    let r := fst (Notifier.sendNotification env data w) in
    let w' := snd (Notifier.sendNotification env data w) in
    Notifier.closed (Notifier.notifier w') = false
    /\ ((r = None
         /\ (exists m, Notifier.outbox w' = Notifier.outbox w ++ [m]
                       /\ Notifier.hFrom m
                          = Config.From (Notifier.config (Notifier.notifier w))
                       /\ Notifier.hTo m
                          = GoSlice.view (Notifier.heap w) (Notifier.Recipients data)
                       /\ Notifier.hSubject m
                          = Notifier.getSubject (Notifier.notifier w) data)
         /\ (1 + Notifier.dials w <= Notifier.dials w' <= 3 + Notifier.dials w)%nat)
        \/ (r <> None
            /\ Notifier.outbox w' = Notifier.outbox w
            /\ (Notifier.dials w' = Notifier.dials w
                \/ Notifier.dials w' = (3 + Notifier.dials w)%nat))).
Proof.
  intros env data w Hc Hs r w'.
  destruct (send_open_summary env data w Hc Hs) as (Hn & Hh & Hp & Ht & Hcase).
  fold r w' in Hn, Hh, Hp, Ht, Hcase.
  split; [rewrite Hn; unfold afterRateLimit; cbn; exact Hc|].
  destruct Hcase as [(Hr & (body & Ho) & Hd)|Hfail]; [left|right; exact Hfail].
  split; [exact Hr|]. split; [|exact Hd].
  exists (messageOf data (afterRateLimit w) body). split; [exact Ho|].
  unfold messageOf, afterRateLimit. cbn. repeat split.
Qed.

Lemma send_delivers_once_witness :
  let w := Sample.world 1 false 0 in
  let data := Notifier.mkNotificationData Notifier.MergeReminder (Sample.pr 7 false 0 3)
                5 4 (Config.To (Notifier.config (Notifier.notifier w))) in
  Notifier.closed
    (Notifier.notifier (snd (Notifier.sendNotification (Sample.env true) data w)))
  = false.
Proof.
  intros w data.
  exact (proj1 (send_delivers_once (Sample.env true) data w eq_refl eq_refl)).
Defined.

Lemma afterRateLimit_spaced w :
  let e := Notifier.notifier w in
  0 <= Notifier.rateLimit e <= GoInt.maxInt ->
  Notifier.lastSent e <= Notifier.now w ->
  Notifier.now w - Notifier.lastSent e <= GoInt.maxInt ->
  Notifier.now (afterRateLimit w)
  = Z.max (Notifier.now w) (Notifier.lastSent e + Notifier.rateLimit e)
  /\ Notifier.lastSent (Notifier.notifier (afterRateLimit w))
     = Notifier.now (afterRateLimit w).
Proof.
  intros e Hr Hl Hm. unfold afterRateLimit. fold e.
  cbn [Notifier.now Notifier.notifier Notifier.setLastSent Notifier.lastSent].
  split; [|reflexivity].
  unfold Time.Sub, Time.Add.
  assert (Hmin : GoInt.minInt < 0) by (vm_compute; reflexivity).
  destruct (Z.ltb_spec (Notifier.now w - Notifier.lastSent e) GoInt.minInt); [lia|].
  destruct (Z.ltb_spec GoInt.maxInt (Notifier.now w - Notifier.lastSent e)); [lia|].
  destruct (Z.ltb_spec (Notifier.now w - Notifier.lastSent e) (Notifier.rateLimit e)).
  - rewrite wrap_small by lia. lia.
  - lia.
Qed.



(** X15. [NewEmailNotifier] succeeds exactly when e-mails are skipped or
    both the SMTP host and port are set; the notifier it builds is open
    and, the rate limit fitting a [Duration], its first send, at the same
    instant or later, does not wait: the instant recorded is the current
    one. *)
Theorem new_notifier_ready :
  forall (cfg : Config.EmailConfig) (skip : bool) (t : Time.Time),
    ((exists e, Notifier.NewEmailNotifier cfg skip t = inl e)
     <-> (skip = true
          \/ (Config.SMTPHost cfg <> ""%string /\ Config.SMTPPort cfg <> 0)))
    /\ (forall err, Notifier.NewEmailNotifier cfg skip t = inr err ->
                    err = Errors.Errorf "SMTP configuration is required")
    /\ (forall e,
          Notifier.NewEmailNotifier cfg skip t = inl e ->
          Notifier.closed e = false
          /\ Notifier.config e = cfg
          /\ Notifier.skipEmails e = skip
          /\ Notifier.rateLimit e = Config.RateLimit cfg
          /\ (forall env data w,
                Notifier.notifier w = e ->
                skip = false ->
                0 <= Config.RateLimit cfg <= GoInt.maxInt ->
                t <= Notifier.now w ->
                Notifier.now w - t + Config.RateLimit cfg <= GoInt.maxInt ->
                Notifier.lastSent
                  (Notifier.notifier (snd (Notifier.sendNotification env data w)))
                = Notifier.now w)).
Proof.
  intros cfg skip t. unfold Notifier.NewEmailNotifier.
  destruct skip; cbn [negb andb].
  - split; [split; eauto|]. split; [discriminate|].
    intros e E. inversion E; subst.
    do 4 (split; [reflexivity|]). intros; discriminate.
  - destruct (String.eqb_spec (Config.SMTPHost cfg) "") as [Hh|Hh]; cbn [orb].
    + split; [split; [intros (e & E); discriminate|intros [?|[? _]]; [discriminate|contradiction]]|].
      split; [intros err E; inversion E; reflexivity|intros e E; discriminate].
    + destruct (Z.eqb_spec (Config.SMTPPort cfg) 0) as [Hp|Hp].
      * split; [split; [intros (e & E); discriminate|intros [?|[_ ?]]; [discriminate|contradiction]]|].
        split; [intros err E; inversion E; reflexivity|intros e E; discriminate].
      * split; [split; eauto|]. split; [discriminate|].
        intros e E. inversion E; subst.
        do 4 (split; [reflexivity|]).
        intros env data w Hw _ Hr Ht Hm.
        assert (Hneg : GoInt.wrap (- Config.RateLimit cfg) = - Config.RateLimit cfg).
        { apply wrap_inRange. unfold GoInt.inRange, GoInt.minInt, GoInt.maxInt in *. lia. }
        assert (Hc : Notifier.closed (Notifier.notifier w) = false) by (rewrite Hw; reflexivity).
        assert (Hs : Notifier.skipEmails (Notifier.notifier w) = false)
          by (rewrite Hw; reflexivity).
        destruct (send_open_summary env data w Hc Hs) as (Hn & _).
        rewrite Hn.
        destruct (afterRateLimit_spaced w) as [Hnow Hlast];
          rewrite ?Hw; cbn [Notifier.rateLimit Notifier.lastSent]; unfold Time.Add;
          rewrite ?Hneg; try lia.
        rewrite Hlast, Hnow, Hw. cbn [Notifier.rateLimit Notifier.lastSent].
        unfold Time.Add. rewrite Hneg. lia.
Qed.

Lemma new_notifier_ready_witness :
  match Notifier.NewEmailNotifier (Config.Email (Sample.cfg 1 false)) false
                                  (10 * Time.Second) with
  | inl e =>
      Notifier.lastSent
        (Notifier.notifier
           (snd (Notifier.sendNotification (Sample.env true)
                   (Notifier.mkNotificationData Notifier.ApprovalReminder
                      (Sample.pr 7 false 0 0) 3 2 (Config.To (Notifier.config e)))
                   (Notifier.mkWorld e (10 * Time.Second)
                      [["dev@example.test"; "qa@example.test"; ""; ""]%string]
                      0 [] []))))
      = 10 * Time.Second
  | inr _ => False
  end.
Proof.
  pose proof (proj2 (proj2 (new_notifier_ready (Config.Email (Sample.cfg 1 false))
                              false (10 * Time.Second)))) as H.
  destruct (Notifier.NewEmailNotifier (Config.Email (Sample.cfg 1 false)) false
                                      (10 * Time.Second)) as [e|err] eqn:E;
    [|vm_compute in E; discriminate].
  refine (proj2 (proj2 (proj2 (proj2 (H e eq_refl))))
            (Sample.env true)
            (Notifier.mkNotificationData Notifier.ApprovalReminder
               (Sample.pr 7 false 0 0) 3 2 (Config.To (Notifier.config e)))
            (Notifier.mkWorld e (10 * Time.Second)
               [["dev@example.test"; "qa@example.test"; ""; ""]%string] 0 [] [])
            eq_refl eq_refl _ _ _).
  - split; vm_compute; discriminate.
  - vm_compute. discriminate.
  - vm_compute. discriminate.
Defined.

(** ** A single pull request *)

(** X16. [CheckSpecificPR] returns the fetch error, wrapped, when the pull
    request or its reviews cannot be fetched, and then evaluates nothing;
    otherwise it evaluates the snapshot once and, unlike a batch run,
    returns the error of a failed dispatch, tagged with the kind and the
    number, and no error when the dispatch succeeded or none was due. *)
Theorem specific_check_returns_dispatch_error :
  forall (env : Notifier.Env) (cfg : Config.Config)
         (got : Github.Listed + Errors.error) (repo : string) (w : Notifier.World),
    match Github.GetPRDetails got repo with
    | inr err =>
        CheckSpecificPR env cfg got repo w
        = (Some (Errors.Errorf_w "failed to fetch PR details" err), [], w)
        /\ (got = inr err \/ exists l, got = inl l /\ Github.lReviews l = inr err)
    | inl pr =>
        exists r obs w',
          run env (processPR cfg pr) w = (r, obs, w')
          /\ doneOK cfg (pr, obs, r)
          /\ snd (CheckSpecificPR env cfg got repo w) = w'
          /\ fst (CheckSpecificPR env cfg got repo w)
             = (match obsCall obs with
                | Some (c, Some cause) => Some (taggedError (kindOf c) pr cause)
                | _ => None
                end, obs)
    end.
Proof.
  intros env cfg got repo w. unfold CheckSpecificPR.
  destruct (Github.GetPRDetails got repo) as [pr|err] eqn:Hg.
  - destruct (run env (processPR cfg pr) w) as [[r obs] w'] eqn:Hrun.
    exists r, obs, w'. split; [reflexivity|].
    destruct (run_processPR _ _ _ _ _ _ _ Hrun) as [Hok _].
    split; [exact Hok|]. split; [reflexivity|]. cbn [fst].
    destruct (doneOK_cases _ _ _ _ Hok) as [(_ & Hd & ->)|(c & e & _ & Hd & ->)];
      unfold dispatchOf in Hd; cbn [fst snd] in Hd;
      destruct (obsCall obs) as [[c' e']|]; inversion Hd; subst.
    + reflexivity.
    + match goal with
      | |- context [match ?x with Some _ => _ | None => _ end] => destruct x
      end; try reflexivity; destruct c; reflexivity.
  - split; [reflexivity|]. unfold Github.GetPRDetails in Hg.
    destruct got as [l|e]; [|inversion Hg; subst; left; reflexivity].
    right. exists l. split; [reflexivity|].
    destruct (Github.lReviews l) as [reviews|e]; cbn [Github.checkPRApprovals] in Hg.
    + destruct (fold_left Github.reviewStep reviews (false, 0)); discriminate.
    + inversion Hg; subst. reflexivity.
Qed.

(** ** The summary *)

Lemma summaryStep_spec cfg now s pr user :
  Github.PRUser pr = Some user ->
  (forall f, In f [NeedsApproval; NeedsEscalation; Approved; Draft] ->
             0 <= f s < GoInt.maxInt) ->
  exists st,
    summaryStep cfg now s pr = Some (summaryAfter s [st])
    /\ statusRel cfg now pr st.
Proof.
  intros Hu Hb.
  assert (B1 := Hb NeedsApproval ltac:(cbn; auto)).
  assert (B2 := Hb NeedsEscalation ltac:(cbn; auto)).
  assert (B3 := Hb Approved ltac:(cbn; auto)).
  assert (B4 := Hb Draft ltac:(cbn; auto 6)).
  unfold summaryStep. rewrite Hu.
  unfold statusRel, summaryAfter. rewrite classify_spec.
  unfold Spec.action, Spec.rules.
  destruct (Github.Draft pr) eqn:Hd; split_tests; try (exfalso; lia);
    cbn [negb andb Spec.firstMatch];
    match goal with |- context [PRs s ++ [?x]] => exists x end;
    (split; [f_equal; unfold count, hasStatus; cbn;
             rewrite ?Z.add_0_r, ?wrap_small by lia; reflexivity|]);
    cbn [stNumber stRepo stAge stReviewCount stStatus];
    repeat split; try reflexivity; try discriminate; try lia;
    try (cbn; tauto); try (intros [? ?]; first [discriminate|lia]);
    try (intros [?|?]; first [discriminate|reflexivity]).
Qed.

Lemma summaryAfter_app s st sts :
  summaryAfter (summaryAfter s [st]) sts = summaryAfter s (st :: sts).
Proof.
  unfold summaryAfter. cbn [TotalPRs NeedsApproval NeedsEscalation Approved Draft PRs].
  change (st :: sts) with ([st] ++ sts). rewrite !count_app, <- app_assoc.
  f_equal; lia.
Qed.

Lemma draft_counts_one st :
  0 <= count (hasStatus "Draft") [st] + count (hasStatus "Draft Overdue") [st] <= 1.
Proof.
  unfold count, hasStatus. cbn [List.filter].
  destruct (String.eqb_spec (stStatus st) "Draft") as [E1|_],
           (String.eqb_spec (stStatus st) "Draft Overdue") as [E2|_]; cbn; try lia.
  rewrite E1 in E2. discriminate.
Qed.

Lemma summaryLoop_spec cfg now prs :
  forall s,
    Forall (fun pr => Github.PRUser pr <> None) prs ->
    (forall f, In f [NeedsApproval; NeedsEscalation; Approved; Draft] ->
               0 <= f s /\ f s + Z.of_nat (length prs) <= GoInt.maxInt) ->
    exists sts,
      summaryLoop cfg now s prs = Some (summaryAfter s sts)
      /\ Forall2 (statusRel cfg now) prs sts.
Proof.
  induction prs as [|pr prs IH]; intros s Hu Hb.
  - exists []. split; [|constructor]. cbn. unfold summaryAfter, count. cbn.
    rewrite !Z.add_0_r, app_nil_r. destruct s; reflexivity.
  - inversion Hu as [|? ? Hpr Hrest]; subst.
    destruct (Github.PRUser pr) as [user|] eqn:Huser; [|contradiction].
    destruct (summaryStep_spec cfg now s pr user Huser) as (st & Hstep & Hrel).
    { intros f Hf. specialize (Hb f Hf). cbn [length] in Hb. lia. }
    pose proof (count_bounds (hasStatus "Needs Approval") [st]) as C1.
    pose proof (count_bounds (hasStatus "Needs Escalation") [st]) as C2.
    pose proof (count_bounds (hasStatus "Approved") [st]) as C3.
    pose proof (draft_counts_one st) as C4.
    pose proof (count_bounds (hasStatus "Draft") [st]) as C5.
    pose proof (count_bounds (hasStatus "Draft Overdue") [st]) as C6.
    cbn [length] in C1, C2, C3, C5, C6.
    destruct (IH (summaryAfter s [st]) Hrest) as (sts & Hloop & Hrels).
    { intros f Hf.
      assert (B1 := Hb NeedsApproval ltac:(cbn; auto)).
      assert (B2 := Hb NeedsEscalation ltac:(cbn; auto)).
      assert (B3 := Hb Approved ltac:(cbn; auto)).
      assert (B4 := Hb Draft ltac:(cbn; auto 6)).
      cbn [length] in B1, B2, B3, B4.
      cbn in Hf. destruct Hf as [<-|[<-|[<-|[<-|[]]]]];
        unfold summaryAfter; cbn [NeedsApproval NeedsEscalation Approved Draft]; lia. }
    exists (st :: sts). split; [|constructor; assumption].
    cbn [summaryLoop]. rewrite Hstep, Hloop, summaryAfter_app. reflexivity.
Qed.

Lemma fetched_have_users api owner repos prs :
  Github.GetPullRequests api owner repos = inl prs ->
  Forall (fun pr => Github.PRUser pr <> None) prs.
Proof.
  intros E. unfold Github.GetPullRequests in E.
  pose proof (GetPullRequestsFrom_spec api owner repos []) as H. rewrite E in H.
  destruct H as [-> _]. cbn [app].
  apply List.Forall_forall. intros pr Hin.
  apply in_flat_map in Hin as (repo & _ & Hin).
  unfold repoPRs in Hin. apply in_map_iff in Hin as (l & <- & _).
  unfold Github.prData. destruct (Github.checkPRApprovals _) as [[? ?] ?]. discriminate.
Qed.

Lemma GetPRSummary_spec cfg api now prs :
  Github.GetPullRequests api (Config.Owner (Config.GitHub cfg))
                         (Config.Repos (Config.GitHub cfg)) = inl prs ->
  Z.of_nat (length prs) <= GoInt.maxInt ->
  exists sts,
    GetPRSummary cfg api now
    = Some (inl (summaryAfter (mkPRSummary (Z.of_nat (length prs)) 0 0 0 0 []) sts))
    /\ Forall2 (statusRel cfg now) prs sts.
Proof.
  intros Hf Hlen. unfold GetPRSummary. rewrite Hf.
  destruct (summaryLoop_spec cfg now prs (mkPRSummary (Z.of_nat (length prs)) 0 0 0 0 []))
    as (sts & Hloop & Hrels).
  - eapply fetched_have_users, Hf.
  - intros f Hin. cbn in Hin. destruct Hin as [<-|[<-|[<-|[<-|[]]]]]; cbn; lia.
  - exists sts. rewrite Hloop. split; [reflexivity|exact Hrels].
Qed.

Lemma six_statuses cfg now prs sts :
  Forall2 (statusRel cfg now) prs sts ->
  count (hasStatus "Needs Approval") sts + count (hasStatus "Needs Escalation") sts
  + count (hasStatus "Approved") sts + count (hasStatus "Draft") sts
  + count (hasStatus "Draft Overdue") sts + count (hasStatus "OK") sts
  = Z.of_nat (length prs)
  /\ map stNumber sts = map Github.Number prs.
Proof.
  induction 1 as [|pr st prs sts Hrel Hrest [IH1 IH2]]; [split; reflexivity|].
  change (st :: sts) with ([st] ++ sts). rewrite !count_app.
  cbn [map length app]. rewrite IH2.
  destruct Hrel as (Hn & _ & _ & _ & Hin & _). rewrite Hn. split; [|reflexivity].
  assert (Hone :
    count (hasStatus "Needs Approval") [st] + count (hasStatus "Needs Escalation") [st]
    + count (hasStatus "Approved") [st] + count (hasStatus "Draft") [st]
    + count (hasStatus "Draft Overdue") [st] + count (hasStatus "OK") [st] = 1).
  { unfold count, hasStatus. cbn [List.filter].
    cbn in Hin. destruct Hin as [<-|[<-|[<-|[<-|[<-|[<-|[]]]]]]]; reflexivity. }
  lia.
Qed.

(** X17. On the pull requests of a fetch that succeeded, as many as an
    [int] holds, [GetPRSummary] does not dereference a missing user; it
    lists one status per pull request, in the order fetched; the total is
    their number; each counter is the number of statuses with its text,
    drafts counting overdue or not; and the counters and the statuses OK
    add up to the total. *)
Theorem summary_accounts :
  forall (cfg : Config.Config) (api : Github.API) (now : Time.Time)
         (prs : list Github.PullRequest),
    Github.GetPullRequests api (Config.Owner (Config.GitHub cfg))
                           (Config.Repos (Config.GitHub cfg)) = inl prs ->
    Z.of_nat (length prs) <= GoInt.maxInt ->
    exists summary,
      GetPRSummary cfg api now = Some (inl summary)
      /\ TotalPRs summary = Z.of_nat (length prs)
      /\ map stNumber (PRs summary) = map Github.Number prs
      /\ NeedsApproval summary = count (hasStatus "Needs Approval") (PRs summary)
      /\ NeedsEscalation summary = count (hasStatus "Needs Escalation") (PRs summary)
      /\ Approved summary = count (hasStatus "Approved") (PRs summary)
      /\ Draft summary
         = count (hasStatus "Draft") (PRs summary)
           + count (hasStatus "Draft Overdue") (PRs summary)
      /\ NeedsApproval summary + NeedsEscalation summary + Approved summary
         + Draft summary + count (hasStatus "OK") (PRs summary)
         = TotalPRs summary.
Proof.
  intros cfg api now prs Hf Hlen.
  destruct (GetPRSummary_spec cfg api now prs Hf Hlen) as (sts & -> & Hrels).
  destruct (six_statuses _ _ _ _ Hrels) as [Hsum Hnum].
  eexists. split; [reflexivity|].
  unfold summaryAfter. cbn [TotalPRs NeedsApproval NeedsEscalation Approved Draft PRs app].
  repeat split; try assumption; lia.
Qed.

Lemma summary_accounts_witness :
  let cfg := Sample.cfg 1 false in
  exists summary,
    GetPRSummary cfg (Sample.api true) (10 * Time.Hour) = Some (inl summary)
    /\ TotalPRs summary = 1.
Proof.
  intros cfg.
  destruct (summary_accounts cfg (Sample.api true) (10 * Time.Hour) _ eq_refl)
    as (summary & E & Ht & _).
  - vm_compute. discriminate.
  - exists summary. split; [exact E|exact Ht].
Defined.

(** X18. The status shown for a pull request is tied to what a run at the
    same instant does with it: Draft Overdue exactly when the run sends a
    draft-overdue notice, Needs Approval exactly when it sends an approval
    reminder, Needs Escalation exactly when it escalates a pull request
    with fewer than two reviews, Draft and OK only when it sends nothing;
    but Approved is shown for every non-draft with two reviews or more,
    also where the run sends a merge reminder or escalates. *)
Theorem summary_matches_run :
  forall (cfg : Config.Config) (api : Github.API) (now : Time.Time)
         (prs : list Github.PullRequest),
    Github.GetPullRequests api (Config.Owner (Config.GitHub cfg))
                           (Config.Repos (Config.GitHub cfg)) = inl prs ->
    Z.of_nat (length prs) <= GoInt.maxInt ->
    exists summary,
      GetPRSummary cfg api now = Some (inl summary)
      /\ Forall2 (statusRel cfg now) prs (PRs summary)
      /\ Forall2 (fun pr st =>
                    stStatus st = "Approved"%string ->
                    Config.MergeTime (Config.Rules cfg)
                    <= Time.Sub now (Github.CreatedAt pr) ->
                    classify cfg pr (Time.Sub now (Github.CreatedAt pr))
                    = Some Notifier.Escalation) prs (PRs summary).
Proof.
  intros cfg api now prs Hf Hlen.
  destruct (GetPRSummary_spec cfg api now prs Hf Hlen) as (sts & -> & Hrels).
  eexists. split; [reflexivity|].
  unfold summaryAfter. cbn [PRs app]. split; [exact Hrels|].
  eapply Forall2_impl; [exact Hrels|].
  intros pr st (_ & _ & _ & _ & _ & _ & _ & _ & Happ & _) Hs Hage.
  apply Happ in Hs as [Hd Hrc].
  rewrite classify_spec, Hd. unfold Spec.action, Spec.rules. cbn.
  destruct (Z.leb_spec (Config.MergeTime (Config.Rules cfg))
                       (Time.Sub now (Github.CreatedAt pr))); [reflexivity|lia].
Qed.

Lemma summary_matches_run_witness :
  let cfg := Sample.cfg 1 false in
  exists summary,
    GetPRSummary cfg (Sample.api true) (10 * Time.Hour) = Some (inl summary)
    /\ map stStatus (PRs summary) = ["Approved"%string]
    /\ classify cfg (Github.prData "repo" (Sample.listed 41 (3 * Time.Hour)
                       [Github.mkReview (Some "APPROVED"%string);
                        Github.mkReview (Some "CHANGES_REQUESTED"%string);
                        Github.mkReview (Some "COMMENTED"%string)]))
                (7 * Time.Hour) = Some Notifier.Escalation.
Proof.
  intros cfg.
  destruct (summary_matches_run cfg (Sample.api true) (10 * Time.Hour) _ eq_refl)
    as (summary & E & _ & _).
  - vm_compute. discriminate.
  - exists summary. split; [exact E|].
    vm_compute in E. inversion E; subst summary. split; reflexivity.
Defined.

(** ** More on the batch *)

(** X19. With both channels as large as the batch, no send on a channel
    ever blocks: in every state a batch reaches, the feeder with a
    snapshot left can send it, a worker inside [processPR] can deliver its
    result, and neither channel holds more than its capacity. *)
Theorem channels_never_block :
  forall (env : Notifier.Env) (cfg : Config.Config) (prs : list Github.PullRequest)
         (c : Z) (ctxDone : bool) (w : Notifier.World) (sched : list Action)
         (evs : list Event) (s : PState),
    exec env cfg sched (processPRsConcurrently prs c ctxDone w) = Some (evs, s) ->
    (forall pr rest, feeder s = Some (pr :: rest) ->
                     exists s', step env cfg FeederSend s = Some ([], s'))
    /\ (forall i pr, workers s !! i = Some (WProcess pr) ->
                     exists r obs s',
                       step env cfg (WorkerStep i) s = Some ([EvDone i pr obs r], s'))
    /\ (length (prChan s) <= chanCap s)%nat
    /\ (length (resultChan s) <= chanCap s)%nat.
Proof.
  intros env cfg prs c ctxDone w sched evs s Hexec.
  pose proof (inv_reach _ _ _ _ _ _ _ _ _ Hexec) as Hinv.
  pose proof (inv_conserve _ _ _ _ _ Hinv) as Hcons.
  pose proof (inv_cap _ _ _ _ _ Hinv) as Hcap.
  destruct (inv_results _ _ _ _ _ Hinv) as (dr & Hres & _).
  apply Permutation_length in Hcons. rewrite !length_app in Hcons.
  apply (f_equal (@length _)) in Hres. rewrite length_app in Hres.
  unfold results, donePRs in *. rewrite !length_map in *.
  repeat split.
  - intros pr rest Hf. eexists. apply case_step. eapply sc_send; [exact Hf|].
    unfold unsent in Hcons. rewrite Hf in Hcons. cbn in Hcons. lia.
  - intros i pr Hi.
    destruct (run env (processPR cfg pr) (world s)) as [[r obs] w'] eqn:Hrun.
    eexists r, obs, _. apply case_step. eapply sc_finish; [exact Hi| |exact Hrun].
    pose proof (held_lookup _ _ _ pr Hi ltac:(cbn; auto)). lia.
  - lia.
  - lia.
Qed.

Lemma channels_never_block_witness :
  let cfg := Sample.cfg 2 false in
  exists evs s,
    exec (Sample.env true) cfg [FeederSend; FeederSend]
         (processPRsConcurrently Sample.prs 2 false (Sample.world 2 false 0))
    = Some (evs, s)
    /\ (length (prChan s) <= chanCap s)%nat.
Proof.
  intros cfg. eexists _, _. split; [vm_compute; reflexivity|].
  refine (proj1 (proj2 (proj2
    (channels_never_block (Sample.env true) cfg Sample.prs 2 false
       (Sample.world 2 false 0) [FeederSend; FeederSend] _ _ _)))).
  vm_compute. reflexivity.
Defined.

Lemma lateBegins_true tr : lateBegins true tr = begun tr.
Proof.
  induction tr as [|e tr IH]; [reflexivity|].
  destruct e; cbn; rewrite ?IH; reflexivity.
Qed.

Lemma step_quiet env cfg s a evs s' :
  StepCase env cfg s a evs s' ->
  done evs = [] ->
  Notifier.dials (world s') = Notifier.dials (world s)
  /\ Notifier.outbox (world s') = Notifier.outbox (world s)
  /\ Notifier.console (world s') = Notifier.console (world s)
  /\ Notifier.now (world s') = Notifier.now (world s)
  /\ Notifier.heap (world s') = Notifier.heap (world s).
Proof.
  intros H Hd. destruct H; cbn in Hd; try discriminate; cbn [world setFeeder setWorker
    setPrChan setResults setCancelled setWorld]; try (repeat split; reflexivity).
  unfold Notifier.Close, Notifier.bind, Notifier.getNotifier.
  destruct (Notifier.closed (Notifier.notifier (world s))); cbn; repeat split.
Qed.

Lemma exec_quiet env cfg sched s evs s' :
  exec env cfg sched s = Some (evs, s') ->
  done evs = [] ->
  Notifier.dials (world s') = Notifier.dials (world s)
  /\ Notifier.outbox (world s') = Notifier.outbox (world s)
  /\ Notifier.console (world s') = Notifier.console (world s)
  /\ Notifier.now (world s') = Notifier.now (world s)
  /\ Notifier.heap (world s') = Notifier.heap (world s).
Proof.
  revert s evs. induction sched as [|a sched IH]; intros s evs H Hd.
  - cbn in H. inversion H; subst. repeat split.
  - apply exec_step in H as (e1 & s1 & e2 & Hs & He & ->).
    rewrite done_app in Hd. apply app_eq_nil in Hd as [Hd1 Hd2].
    destruct (step_quiet _ _ _ _ _ _ (step_case _ _ _ _ _ _ Hs) Hd1)
      as (A1 & A2 & A3 & A4 & A5).
    destruct (IH _ _ He Hd2) as (B1 & B2 & B3 & B4 & B5).
    repeat split; congruence.
Qed.

(** X20. A batch started when the context is already cancelled, as after
    [Close], evaluates no snapshot under any schedule: nothing begins,
    no call reaches the notifier, the server is not dialled, nothing is
    delivered or announced as skipped, no send waits, and the totals
    stay empty. *)
Theorem cancelled_run_does_nothing :
  forall (env : Notifier.Env) (cfg : Config.Config) (prs : list Github.PullRequest)
         (c : Z) (w : Notifier.World) (sched : list Action)
         (evs : list Event) (s : PState),
    exec env cfg sched (processPRsConcurrently prs c true w) = Some (evs, s) ->
    begun evs = []
    /\ done evs = []
    /\ totalResult s = emptyResult
    /\ Notifier.dials (world s) = Notifier.dials w
    /\ Notifier.outbox (world s) = Notifier.outbox w
    /\ Notifier.console (world s) = Notifier.console w
    /\ Notifier.now (world s) = Notifier.now w.
Proof.
  intros env cfg prs c w sched evs s Hexec.
  pose proof (inv_reach _ _ _ _ _ _ _ _ _ Hexec) as Hinv.
  pose proof (inv_late _ _ _ _ _ Hinv) as Hlate. rewrite lateBegins_true in Hlate.
  pose proof (inv_begun _ _ _ _ _ Hinv) as Hbeg. rewrite Hlate in Hbeg.
  symmetry in Hbeg. apply Permutation_nil_r in Hbeg.
  apply app_eq_nil in Hbeg as [_ Hdone].
  assert (Hd : done evs = []).
  { unfold donePRs in Hdone. destruct (done evs); [reflexivity|discriminate]. }
  destruct (inv_results _ _ _ _ _ Hinv) as (dr & Hres & Htot).
  unfold results in Hres. rewrite Hd in Hres. cbn in Hres.
  symmetry in Hres. apply app_eq_nil in Hres as [-> _]. cbn in Htot.
  destruct (exec_quiet _ _ _ _ _ _ Hexec Hd) as (A1 & A2 & A3 & A4 & _).
  repeat split; assumption.
Qed.

Lemma cancelled_run_does_nothing_witness :
  let cfg := Sample.cfg 1 false in
  exists evs s,
    exec (Sample.env true) cfg
         [FeederSend; WorkerStep 0; WorkerStep 0; FeederReturn; CloserStep;
          MainStep]
         (processPRsConcurrently Sample.prs 1 true (Sample.world 1 false 0))
    = Some (evs, s)
    /\ returned s = true
    /\ totalResult s = emptyResult.
Proof.
  intros cfg. eexists _, _. split; [vm_compute; reflexivity|].
  split; [reflexivity|].
  refine (proj1 (proj2 (proj2
    (cancelled_run_does_nothing (Sample.env true) cfg Sample.prs 1
       (Sample.world 1 false 0)
       [FeederSend; WorkerStep 0; WorkerStep 0; FeederReturn; CloserStep; MainStep]
       _ _ _)))).
  vm_compute. reflexivity.
Defined.

(** With one worker and no cancellation the snapshots keep their order on
    the way through the feeder, the queue and the worker. *)
Lemma order_step env cfg prs tr s a evs s' :
  StepCase env cfg s a evs s' ->
  (cancelled s = false -> length (workers s) = 1%nat ->
   prs = donePRs tr ++ held (workers s) ++ prChan s ++ unsent s) ->
  cancelled s' = false -> length (workers s') = 1%nat ->
  prs = donePRs (tr ++ evs) ++ held (workers s') ++ prChan s' ++ unsent s'.
Proof.
  intros Hs Hord Hc Hl. unfold unsent in *.
  destruct Hs;
    cbn [feeder prChan workers cancelled setFeeder setWorker setPrChan setResults
         setCancelled setWorld] in *;
    rewrite ?length_insert in Hl;
    try discriminate;
    try (specialize (Hord Hc Hl));
    try match goal with
        | H : cancelled _ = true |- _ => rewrite H in Hc; discriminate
        end;
    rewrite ?app_nil_r; try assumption;
    try (match goal with
         | H : workers ?s !! ?i = Some ?wk |- _ =>
             destruct (insert_split _ _ _ H) as (l1 & l2 & Hws & Hins);
             rewrite Hins; rewrite Hws in Hord, Hl;
             rewrite length_app in Hl;
             destruct l1, l2; cbn [length app] in Hl; try lia
         end);
    repeat match goal with
           | H : feeder _ = _ |- _ => rewrite H in *
           | H : prChan _ = _ |- _ => rewrite H in *
           end;
    rewrite ?donePRs_app; cbn in Hord |- *;
    rewrite ?app_nil_r in *; rewrite Hord; rewrite <- ?app_assoc; try reflexivity.
Qed.

Lemma order_exec env cfg prs sched :
  forall tr s evs s',
    exec env cfg sched s = Some (evs, s') ->
    (cancelled s = false -> length (workers s) = 1%nat ->
     prs = donePRs tr ++ held (workers s) ++ prChan s ++ unsent s) ->
    cancelled s' = false -> length (workers s') = 1%nat ->
    prs = donePRs (tr ++ evs) ++ held (workers s') ++ prChan s' ++ unsent s'.
Proof.
  induction sched as [|a sched IH]; intros tr s evs s' H Hord Hc Hl.
  - cbn in H. inversion H; subst. rewrite app_nil_r. auto.
  - apply exec_step in H as (e1 & s1 & e2 & Hs & He & ->).
    replace (tr ++ e1 ++ e2) with ((tr ++ e1) ++ e2)
      by (symmetry; apply List.app_assoc).
    eapply IH; [exact He| |exact Hc|exact Hl].
    intros Hc1 Hl1. eapply order_step; [apply step_case, Hs|exact Hord|exact Hc1|exact Hl1].
Qed.

(** X21. With a single worker and no cancellation, a batch run to its
    return evaluates the snapshots in the order they were fetched. *)
Theorem single_worker_keeps_order :
  forall (env : Notifier.Env) (cfg : Config.Config) (prs : list Github.PullRequest)
         (w : Notifier.World) (sched : list Action) (evs : list Event) (s : PState),
    Config.Concurrency (Config.Debug cfg) = 1 ->
    exec env cfg sched (processPRsConcurrently prs (workerCount cfg) false w)
    = Some (evs, s) ->
    returned s = true ->
    existsb isCancelAction sched = false ->
    map fst (evaluations evs) = prs.
Proof.
  intros env cfg prs w sched evs s Hone Hexec Hret Hnc.
  assert (Hwc : workerCount cfg = 1) by (unfold workerCount; rewrite Hone; reflexivity).
  rewrite Hwc in Hexec.
  pose proof (inv_reach _ _ _ _ _ _ _ _ _ Hexec) as Hinv.
  destruct (exec_workers _ _ _ _ _ _ Hexec) as [Hlen Hseen].
  cbn [workers processPRsConcurrently] in Hlen.
  change (length (replicate (Z.to_nat 1) WRange)) with 1%nat in Hlen.
  assert (Hcan : cancelled s = false).
  { rewrite (inv_cancel _ _ _ _ _ Hinv), Hseen, Hnc. reflexivity. }
  pose proof (order_exec env cfg prs sched [] _ evs s Hexec) as Hord.
  cbn [app] in Hord. specialize (Hord ltac:(intros; reflexivity) Hcan Hlen).
  destruct (inv_returned _ _ _ _ _ Hinv Hret) as [Hrc _].
  pose proof (inv_closed _ _ _ _ _ Hinv Hrc) as Hall.
  destruct (all_done_idle _ Hall) as [Hheld _].
  assert (Hsome : existsb isDone (workers s) = true).
  { apply all_done_some; [exact Hall|]. rewrite Hlen. lia. }
  destruct (inv_exit _ _ _ _ _ Hinv Hcan Hsome) as [Hf Hq].
  unfold unsent in Hord. rewrite Hheld, Hq, Hf in Hord. cbn in Hord.
  rewrite app_nil_r in Hord. rewrite evaluations_prs. symmetry. exact Hord.
Qed.

Lemma single_worker_keeps_order_witness :
  let cfg := Sample.cfg 1 false in
  let sched := [FeederSend; WorkerStep 0; WorkerStep 0; FeederSend; WorkerStep 0;
                MainStep; FeederReturn; WorkerStep 0; WorkerStep 0; WorkerStep 0;
                WorkerStep 0; CloserStep; MainStep; MainStep] in
  exists evs s,
    exec (Sample.env true) cfg sched
         (processPRsConcurrently Sample.prs (workerCount cfg) false
            (Sample.world 1 false (10 * Time.Hour)))
    = Some (evs, s)
    /\ map fst (evaluations evs) = Sample.prs.
Proof.
  intros cfg sched. eexists _, _. split; [vm_compute; reflexivity|].
  refine (single_worker_keeps_order (Sample.env true) cfg Sample.prs
            (Sample.world 1 false (10 * Time.Hour)) sched _ _ _ _ _ _).
  - reflexivity.
  - vm_compute. reflexivity.
  - reflexivity.
  - reflexivity.
Defined.

Lemma perform_skip env c w :
  Notifier.skipEmails (Notifier.notifier w) = true ->
  let w' := snd (perform env c w) in
  Notifier.skipEmails (Notifier.notifier w') = true
  /\ Notifier.dials w' = Notifier.dials w
  /\ Notifier.outbox w' = Notifier.outbox w
  /\ Notifier.now w' = Notifier.now w.
Proof.
  intros Hs.
  destruct (perform_as_send env c w) as (data & w1 & -> & (Hn & Ht & Hd & Ho & Hp) & _).
  unfold Notifier.sendNotification, Notifier.bind, Notifier.getNotifier.
  rewrite Hn, Hs.
  destruct (Notifier.closed (Notifier.notifier w)); cbn;
    rewrite ?Hn, ?Ht, ?Hd, ?Ho; repeat split; assumption.
Qed.

Lemma run_skip env R (p : Prog R) :
  forall w,
    Notifier.skipEmails (Notifier.notifier w) = true ->
    let w' := snd (run env p w) in
    Notifier.skipEmails (Notifier.notifier w') = true
    /\ Notifier.dials w' = Notifier.dials w
    /\ Notifier.outbox w' = Notifier.outbox w
    /\ Notifier.now w' = Notifier.now w.
Proof.
  induction p as [r|t k IH|c k IH]; intros w Hs; cbn [run].
  - cbn. repeat split; assumption.
  - specialize (IH (Time.Sub (Notifier.now w) t) w Hs).
    destruct (run env (k _) w) as [[r obs] w']. exact IH.
  - destruct (perform_skip env c w Hs) as (A1 & A2 & A3 & A4).
    destruct (perform env c w) as [err w1]. cbn [snd] in *.
    specialize (IH err w1 A1).
    destruct (run env (k err) w1) as [[r obs] w']. cbn [snd] in *.
    destruct IH as (B1 & B2 & B3 & B4). repeat split; congruence.
Qed.

Lemma step_skip env cfg s a evs s' :
  StepCase env cfg s a evs s' ->
  Notifier.skipEmails (Notifier.notifier (world s)) = true ->
  Notifier.skipEmails (Notifier.notifier (world s')) = true
  /\ Notifier.dials (world s') = Notifier.dials (world s)
  /\ Notifier.outbox (world s') = Notifier.outbox (world s)
  /\ Notifier.now (world s') = Notifier.now (world s).
Proof.
  intros H Hs. destruct H; cbn [world setFeeder setWorker setPrChan setResults
    setCancelled setWorld]; try (repeat split; assumption).
  - pose proof (run_skip env _ (processPR cfg pr) (world s) Hs) as Hrun.
    rewrite H1 in Hrun. exact Hrun.
  - unfold Notifier.Close, Notifier.bind, Notifier.getNotifier.
    destruct (Notifier.closed (Notifier.notifier (world s))); cbn;
      repeat split; assumption.
Qed.

(** X22. In skip mode a batch never contacts the server, whatever the
    schedule, cancelled or not: no dial is made, nothing is delivered and
    no send waits. *)
Theorem skip_mode_run_never_dials :
  forall (env : Notifier.Env) (cfg : Config.Config) (prs : list Github.PullRequest)
         (c : Z) (ctxDone : bool) (w : Notifier.World) (sched : list Action)
         (evs : list Event) (s : PState),
    Notifier.skipEmails (Notifier.notifier w) = true ->
    exec env cfg sched (processPRsConcurrently prs c ctxDone w) = Some (evs, s) ->
    Notifier.dials (world s) = Notifier.dials w
    /\ Notifier.outbox (world s) = Notifier.outbox w
    /\ Notifier.now (world s) = Notifier.now w.
Proof.
  intros env cfg prs c ctxDone w sched evs s Hs Hexec.
  assert (Hgen : forall sched s0 evs s1,
             exec env cfg sched s0 = Some (evs, s1) ->
             Notifier.skipEmails (Notifier.notifier (world s0)) = true ->
             Notifier.skipEmails (Notifier.notifier (world s1)) = true
             /\ Notifier.dials (world s1) = Notifier.dials (world s0)
             /\ Notifier.outbox (world s1) = Notifier.outbox (world s0)
             /\ Notifier.now (world s1) = Notifier.now (world s0)).
  { clear. induction sched as [|a sched IH]; intros s0 evs s1 H Hs.
    - cbn in H. inversion H; subst. repeat split; assumption.
    - apply exec_step in H as (e1 & s' & e2 & Hstep & He & ->).
      destruct (step_skip _ _ _ _ _ _ (step_case _ _ _ _ _ _ Hstep) Hs)
        as (A1 & A2 & A3 & A4).
      destruct (IH _ _ _ He A1) as (B1 & B2 & B3 & B4).
      repeat split; congruence. }
  destruct (Hgen _ _ _ _ Hexec Hs) as (_ & A2 & A3 & A4).
  repeat split; assumption.
Qed.

Lemma skip_mode_run_never_dials_witness :
  let cfg := Sample.cfg 2 true in
  exists evs s,
    exec (Sample.env false) cfg Sample.schedule
         (processPRsConcurrently Sample.prs 2 false
            (Sample.world 2 true (10 * Time.Hour)))
    = Some (evs, s)
    /\ Notifier.dials (world s) = 0%nat
    /\ Escalations (totalResult s) = 1.
Proof.
  intros cfg. eexists _, _. split; [vm_compute; reflexivity|].
  split; [|vm_compute; reflexivity].
  refine (proj1
    (skip_mode_run_never_dials (Sample.env false) cfg Sample.prs 2 false
       (Sample.world 2 true (10 * Time.Hour)) Sample.schedule _ _ _ _)).
  - reflexivity.
  - vm_compute. reflexivity.
Defined.
